(** * Shopping cart domain core: value objects, Cart aggregate, CheckoutResult

    A shallow embedding of the domain layer of the shopping-cart API
    (src/domain/value-objects, src/domain/entities) and the properties its
    specification states about it.

    Modelling conventions.
    - A JavaScript [number] that enters the domain from outside is an exact
      rational ([Q]); once [Number.isInteger] has accepted it, it is stored
      as an integer ([Z]).
    - Arithmetic is embedded twice.  [Money], [CartItem.calculateLineTotal]
      and [Cart.calculateCartTotal] compute with the integers: they say
      what the items of a cart are and which call throws which error, and
      are exact as long as the amounts stay within
      [Number.MAX_SAFE_INTEGER].  [Binary64] is the number type itself,
      IEEE 754 binary64 with round to nearest, ties to even, the infinities
      and NaN; [Money64], [CartItem64], [Cart64] and [CheckoutResult] compute
      with it as the code does.  The section on binary64 arithmetic relates
      the two.
    - A JavaScript [string] is a [string] of 8-bit code units.
    - [throw new Error(msg)] is the [Err] case of [Result]; there is one
      constructor of [Error] per throw statement, [message] gives its text
      and [kind] the name the specification uses for it.
    - [new Date()] and [uuidv4()] read the [World] passed to the call.
    - Objects are frozen records: every operation returns a new value. *)

From Stdlib Require Import ZArith QArith Qround Lqa String Ascii SpecFloat.
From stdpp Require Import base list strings gmap pretty.

Local Open Scope Z_scope.

(** ** JavaScript primitives *)

Definition number := Q.
Definition Date := Z.

(** [Number.isInteger(x)] *)
Definition Number_isInteger (x : number) : bool :=
  (Qnum x mod Zpos (Qden x) =? 0)%Z.

(** The integer a number denotes once [Number_isInteger] holds. *)
Definition toInteger (x : number) : Z := Qfloor x.

(** [x < y] on numbers *)
Definition number_lt (x y : number) : bool := negb (Qle_bool y x).

(** [Math.round(x)]: the nearest integer, ties towards +infinity. *)
Definition Math_round (x : number) : Z := Qfloor (x + (1 # 2))%Q.

(** Code units that [String.prototype.trim] strips (WhiteSpace and
    LineTerminator below 256): TAB, LF, VT, FF, CR, SP, NBSP. *)
Definition is_whitespace (c : ascii) : bool :=
  let n := nat_of_ascii c in
  ((9 <=? n)%nat && (n <=? 13)%nat) || (n =? 32)%nat || (n =? 160)%nat.

Fixpoint trimStart (s : string) : string :=
  match s with
  | EmptyString => EmptyString
  | String c r => if is_whitespace c then trimStart r else s
  end.

Fixpoint trimEnd (s : string) : string :=
  match s with
  | EmptyString => EmptyString
  | String c r =>
      match trimEnd r with
      | EmptyString => if is_whitespace c then EmptyString else String c EmptyString
      | r' => String c r'
      end
  end.

(** [s.trim()] *)
Definition trim (s : string) : string := trimEnd (trimStart s).

(** [!s] for a string: only the empty string is falsy. *)
Definition falsy (s : string) : bool :=
  match s with EmptyString => true | _ => false end.

Definition is_empty_string (s : string) : bool := falsy s.

Fixpoint forall_chars (p : ascii -> bool) (s : string) : bool :=
  match s with
  | EmptyString => true
  | String c r => p c && forall_chars p r
  end.

Definition in_range (lo hi : nat) (c : ascii) : bool :=
  let n := nat_of_ascii c in ((lo <=? n)%nat && (n <=? hi)%nat).

(** [a-zA-Z0-9] *)
Definition is_alnum (c : ascii) : bool :=
  in_range 97 122 c || in_range 65 90 c || in_range 48 57 c.

(** [/^[cls]{lo,hi}$/.test(s)] for a character class [cls] *)
Definition test_class_bounded (cls : ascii -> bool) (lo hi : nat) (s : string) : bool :=
  forall_chars cls s && (lo <=? String.length s)%nat && (String.length s <=? hi)%nat.

(** What the clock and the identifier generator return during one call:
    [time w k] is the value of the k-th [new Date()] the call evaluates,
    [uuid w] the value of [uuidv4()]. *)
Record World := { time : nat -> Date; uuid : string }.

(** ** The number type: IEEE 754 binary64 *)

Module Binary64.

(** A double: a finite value, given by the rational it denotes, an
    infinity, or NaN.  The sign of zero is not kept: the code compares
    amounts and adds and multiplies them, and never divides by one.
    [Finite q] is a value of the type for the rationals [q] that have at
    most 53 significant bits; the operations below round their exact result,
    so that they are defined for every [q]. *)
Inductive t :=
| Finite (value : Q)
| Infinity (negative : bool)
| NaN.

Definition zero : t := Finite 0.

Definition of_Z (z : Z) : t := Finite (inject_Z z).

(** [Number.MAX_SAFE_INTEGER] *)
Definition MAX_SAFE_INTEGER : Z := 2 ^ 53 - 1.

(** [N / D] rounded to the nearest integer, a tie to the even one
    ([D > 0]). *)
Definition round_nearest_even (N D : Z) : Z :=
  let f := N / D in
  match 2 * (N mod D) ?= D with
  | Lt => f
  | Gt => f + 1
  | Eq => if Z.even f then f else f + 1
  end.

(** The [k] with [2^k <= n / d < 2^(k+1)], for [n, d > 0]. *)
Definition floor_log2 (n d : Z) : Z :=
  let k := Z.log2 n - Z.log2 d in
  if n * 2 ^ Z.max 0 (- k) <? d * 2 ^ Z.max 0 k then k - 1 else k.

(** The double nearest to the positive rational [n / d]: a multiple
    [m * 2^e] of the unit in the last place [2^e], with [m] of at most 53
    bits and [e] no less than -1074 (below 2^-1022 the values are
    subnormal); from [2^1024 - 2^970] on it is Infinity. *)
Definition round_positive (n d : Z) : t :=
  let e := Z.max (floor_log2 n d - 52) (-1074) in
  let m := round_nearest_even (n * 2 ^ Z.max 0 (- e)) (d * 2 ^ Z.max 0 e) in
  if (0 <=? e) && (2 ^ 1024 <=? m * 2 ^ e) then Infinity false
  else Finite (Qred (m * 2 ^ Z.max 0 e # Z.to_pos (2 ^ Z.max 0 (- e)))).

(** [-x] *)
Definition opp (x : t) : t :=
  match x with
  | Finite q => Finite (- q)
  | Infinity negative => Infinity (negb negative)
  | NaN => NaN
  end.

(** The double nearest to a rational: what an arithmetic operation returns
    for its exact result, and what a decimal literal denotes. *)
Definition nearest (q : Q) : t :=
  match Qnum q with
  | 0 => zero
  | Zpos n => round_positive (Zpos n) (Zpos (Qden q))
  | Zneg n => opp (round_positive (Zpos n) (Zpos (Qden q)))
  end.

(** The number a decimal literal such as [0.35] denotes, as a rational. *)
Definition literal (q : Q) : number :=
  match nearest q with
  | Finite v => v
  | _ => 0%Q
  end.

(** [x + y] *)
Definition add (x y : t) : t :=
  match x, y with
  | NaN, _ | _, NaN => NaN
  | Finite a, Finite b => nearest (a + b)
  | Finite _, Infinity s | Infinity s, Finite _ => Infinity s
  | Infinity s, Infinity s' => if Bool.eqb s s' then Infinity s else NaN
  end.

(** [x - y] *)
Definition sub (x y : t) : t := add x (opp y).

(** [x * y] *)
Definition mul (x y : t) : t :=
  match x, y with
  | NaN, _ | _, NaN => NaN
  | Finite a, Finite b => nearest (a * b)
  | Finite a, Infinity s | Infinity s, Finite a =>
      if Qnum a =? 0 then NaN else Infinity (xorb s (Qnum a <? 0))
  | Infinity s, Infinity s' => Infinity (xorb s s')
  end.

(** [x < y] *)
Definition lt (x y : t) : bool :=
  match x, y with
  | NaN, _ | _, NaN => false
  | Finite a, Finite b => number_lt a b
  | Finite _, Infinity negative => negb negative
  | Infinity negative, Finite _ => negative
  | Infinity s, Infinity s' => s && negb s'
  end.

(** [x === y] *)
Definition strict_equal (x y : t) : bool :=
  match x, y with
  | Finite a, Finite b => Qeq_bool a b
  | Infinity s, Infinity s' => Bool.eqb s s'
  | _, _ => false
  end.

(** [Number.isInteger(x)] *)
Definition Number_isInteger (x : t) : bool :=
  match x with
  | Finite q => Number_isInteger q
  | _ => false
  end.

(** [Math.round(x)]: the nearest integer, ties towards +infinity; the
    infinities and NaN are returned as they are. *)
Definition Math_round (x : t) : t :=
  match x with
  | Finite q => of_Z (Math_round q)
  | _ => x
  end.

(** The value of a float of the Standard Library's specification of
    IEEE 754 ([SpecFloat]), whose [SFadd 53 1024] and [SFmul 53 1024] are
    the sum and the product of binary64. *)
Definition of_spec_float (x : spec_float) : t :=
  match x with
  | S754_zero _ => zero
  | S754_infinity negative => Infinity negative
  | S754_nan => NaN
  | S754_finite negative m e =>
      let v := Qred (Zpos m * 2 ^ Z.max 0 e # Z.to_pos (2 ^ Z.max 0 (- e))) in
      Finite (if negative then - v else v)
  end.

(** The same double (NaN being the same as NaN). *)
Definition same (x y : t) : bool :=
  match x, y with
  | Finite a, Finite b => Qeq_bool a b
  | Infinity s, Infinity s' => Bool.eqb s s'
  | NaN, NaN => true
  | _, _ => false
  end.

(** Doubles on which [add] and [mul] are compared with [SpecFloat], each
    the canonical float of an integer times a power of two:
    0, 1, 3, 10, 100, 0.35, 0.145, 0.1, 2^53 - 1, 2^53, 2^53 + 2, -7.5,
    1e308, the largest double, 2^970, the smallest subnormal 2^-1074, the
    smallest normal 2^-1022, 2^-1022 - 2^-1074, then the infinities and
    NaN. *)
Definition sample_floats : list spec_float :=
  map (fun me : Z * Z => binary_normalize 53 1024 (fst me) (snd me) false)
    [ (0, 0); (1, 0); (3, 0); (10, 0); (100, 0);
      (6305039478318694, -54); (5224175567749775, -55); (7205759403792794, -56);
      (2 ^ 53 - 1, 0); (2 ^ 53, 0); (2 ^ 53 + 2, 0); (-15, -1);
      (5010420900022432, 971); (2 ^ 53 - 1, 971); (1, 970);
      (1, -1074); (1, -1022); (2 ^ 52 - 1, -1074) ]
  ++ [ S754_infinity false; S754_infinity true; S754_nan ].

End Binary64.

(** ** Errors *)

Inductive Currency := USD | EUR | GBP.

Global Instance Currency_eq_dec : EqDecision Currency.
Proof. solve_decision. Defined.

Inductive CartStatus := active | checked_out | abandoned.

Global Instance CartStatus_eq_dec : EqDecision CartStatus.
Proof. solve_decision. Defined.

(** One constructor per [throw] statement of the domain layer. *)
Inductive Error :=
| MoneyNotInteger
| MoneyNegative
| CannotAdd (a b : Currency)
| CannotSubtract (a b : Currency)
| SubtractionNegative
| MultiplyNegative
| MultiplyNotInteger
| QuantityNotInteger
| QuantityTooSmall
| QuantityTooLarge
| CombinedQuantityTooLarge
| ProductIdEmpty
| ProductIdFormat
| SessionIdEmpty
| SessionIdFormat
| ProductNameEmpty
| ModifyCheckedOut
| ModifyAbandoned
| TooManyUniqueItems
| ItemIdNotFound (itemId : string)
| AlreadyCheckedOut
| CheckoutEmpty
| CheckoutRefused
| ResultFromOpenCart.

Definition currency_code (c : Currency) : string :=
  match c with USD => "USD" | EUR => "EUR" | GBP => "GBP" end.

(** The text passed to [new Error(...)] at each throw statement. *)
Definition message (e : Error) : string :=
  match e with
  | MoneyNotInteger => "Money amount must be an integer (cents)"
  | MoneyNegative => "Money amount cannot be negative"
  | CannotAdd a b =>
      "Currency mismatch: cannot add " ++ currency_code a ++ " and " ++ currency_code b
  | CannotSubtract a b =>
      "Currency mismatch: cannot subtract " ++ currency_code b ++ " from " ++ currency_code a
  | SubtractionNegative => "Subtraction would result in negative money"
  | MultiplyNegative => "Cannot multiply money by negative quantity"
  | MultiplyNotInteger => "Quantity must be an integer"
  | QuantityNotInteger => "Quantity must be an integer"
  | QuantityTooSmall => "Quantity must be at least 1"
  | QuantityTooLarge => "Quantity cannot exceed 99"
  | CombinedQuantityTooLarge => "Combined quantity cannot exceed 99"
  | ProductIdEmpty => "ProductId cannot be empty"
  | ProductIdFormat =>
      "ProductId must be 1-50 alphanumeric characters, hyphens, or underscores"
  | SessionIdEmpty => "SessionId cannot be empty"
  | SessionIdFormat => "SessionId must be 1-100 alphanumeric characters or hyphens"
  | ProductNameEmpty => "Product name cannot be empty"
  | ModifyCheckedOut => "Cannot modify a checked out cart"
  | ModifyAbandoned => "Cannot modify an abandoned cart"
  | TooManyUniqueItems => "Cart cannot have more than 20 unique items"
  | ItemIdNotFound itemId => "Item with ID " ++ itemId ++ " not found in cart"
  | AlreadyCheckedOut => "Cart has already been checked out"
  | CheckoutEmpty => "Cannot checkout an empty cart"
  | CheckoutRefused => "Cart cannot be checked out"
  | ResultFromOpenCart =>
      "Cannot create checkout result from a cart that is not checked out"
  end%string.

(** The names the specification gives to the failures. *)
Module Kind.
Inductive t :=
| InvalidAmount | CurrencyMismatch | NegativeResult | InvalidQuantity
| NotInteger | BelowMinimum | AboveMaximum
| Empty | InvalidFormat | EmptyName
| CartNotActive | MaxItemsExceeded | ItemNotFound
| CartAlreadyCheckedOut | EmptyCart | CartNotCheckedOut
| Unnamed.
End Kind.

Definition kind (e : Error) : Kind.t :=
  match e with
  | MoneyNotInteger | MoneyNegative => Kind.InvalidAmount
  | CannotAdd _ _ | CannotSubtract _ _ => Kind.CurrencyMismatch
  | SubtractionNegative => Kind.NegativeResult
  | MultiplyNegative | MultiplyNotInteger => Kind.InvalidQuantity
  | QuantityNotInteger => Kind.NotInteger
  | QuantityTooSmall => Kind.BelowMinimum
  | QuantityTooLarge | CombinedQuantityTooLarge => Kind.AboveMaximum
  | ProductIdEmpty | SessionIdEmpty => Kind.Empty
  | ProductIdFormat | SessionIdFormat => Kind.InvalidFormat
  | ProductNameEmpty => Kind.EmptyName
  | ModifyCheckedOut | ModifyAbandoned => Kind.CartNotActive
  | TooManyUniqueItems => Kind.MaxItemsExceeded
  | ItemIdNotFound _ => Kind.ItemNotFound
  | AlreadyCheckedOut => Kind.CartAlreadyCheckedOut
  | CheckoutEmpty => Kind.EmptyCart
  | CheckoutRefused => Kind.Unnamed
  | ResultFromOpenCart => Kind.CartNotCheckedOut
  end.

(** ** The result of a call that may throw *)

Inductive Result (A : Type) :=
| Ok (a : A)
| Err (e : Error).
Arguments Ok {A} a.
Arguments Err {A} e.

Global Instance Result_ret : MRet Result := fun A a => Ok a.
Global Instance Result_bind : MBind Result := fun A B f m =>
  match m with
  | Ok a => f a
  | Err e => Err e
  end.


(** The failure of a call, by the name the specification uses. *)
Definition fails_with {A} (r : Result A) (k : Kind.t) : Prop :=
  exists e, r = Err e /\ kind e = k.

(** ** Money (value-objects/Money.ts) *)

(** Money with its amount as an integer and the arithmetic of the integers;
    [Money64] below is the same module with the arithmetic of the number
    type. *)
Module Money.

Record t := mk { amount : Z; currency : Currency }.

Definition createMoney (cents : number) (currency : option Currency) : Result t :=
  if negb (Number_isInteger cents) then Err MoneyNotInteger
  else if number_lt cents 0%Q then Err MoneyNegative
  else Ok {| amount := toInteger cents; currency := default USD currency |}.

Definition createMoneyFromDollars (dollars : number) (currency : option Currency) : Result t :=
  let cents := Math_round (dollars * 100)%Q in
  createMoney (inject_Z cents) (Some (default USD currency)).

Definition addMoney (a b : t) : Result t :=
  if decide (currency a <> currency b) then Err (CannotAdd (currency a) (currency b))
  else createMoney (inject_Z (amount a + amount b)) (Some (currency a)).

Definition subtractMoney (a b : t) : Result t :=
  if decide (currency a <> currency b) then Err (CannotSubtract (currency a) (currency b))
  else if amount a <? amount b then Err SubtractionNegative
  else createMoney (inject_Z (amount a - amount b)) (Some (currency a)).

Definition multiplyMoney (money : t) (quantity : number) : Result t :=
  if number_lt quantity 0%Q then Err MultiplyNegative
  else if negb (Number_isInteger quantity) then Err MultiplyNotInteger
  else createMoney (inject_Z (amount money) * quantity)%Q (Some (currency money)).

Definition moneyEquals (a b : t) : bool :=
  (amount a =? amount b) && bool_decide (currency a = currency b).

Definition zeroMoney (currency : option Currency) : Result t :=
  createMoney 0%Q (Some (default USD currency)).

End Money.
Abbreviation Money := Money.t.

(** ** Money over binary64 (value-objects/Money.ts) *)

Module Money64.

Record t := mk { amount : Binary64.t; currency : Currency }.

(** A Money of the integer model as a value of the code. *)
Definition of_Money (m : Money) : t :=
  {| amount := Binary64.of_Z (Money.amount m); currency := Money.currency m |}.

Definition of_Result (r : Result Money) : Result t :=
  m ← r; Ok (of_Money m).

Definition createMoney (cents : Binary64.t) (currency : option Currency) : Result t :=
  if negb (Binary64.Number_isInteger cents) then Err MoneyNotInteger
  else if Binary64.lt cents Binary64.zero then Err MoneyNegative
  else Ok {| amount := cents; currency := default USD currency |}.

Definition createMoneyFromDollars (dollars : Binary64.t) (currency : option Currency)
    : Result t :=
  let cents := Binary64.Math_round (Binary64.mul dollars (Binary64.of_Z 100)) in
  createMoney cents (Some (default USD currency)).

Definition addMoney (a b : t) : Result t :=
  if decide (currency a <> currency b) then Err (CannotAdd (currency a) (currency b))
  else createMoney (Binary64.add (amount a) (amount b)) (Some (currency a)).

Definition subtractMoney (a b : t) : Result t :=
  if decide (currency a <> currency b) then Err (CannotSubtract (currency a) (currency b))
  else if Binary64.lt (amount a) (amount b) then Err SubtractionNegative
  else createMoney (Binary64.sub (amount a) (amount b)) (Some (currency a)).

Definition multiplyMoney (money : t) (quantity : Binary64.t) : Result t :=
  if Binary64.lt quantity Binary64.zero then Err MultiplyNegative
  else if negb (Binary64.Number_isInteger quantity) then Err MultiplyNotInteger
  else createMoney (Binary64.mul (amount money) quantity) (Some (currency money)).

Definition moneyEquals (a b : t) : bool :=
  Binary64.strict_equal (amount a) (amount b) && bool_decide (currency a = currency b).

Definition zeroMoney (currency : option Currency) : Result t :=
  createMoney Binary64.zero (Some (default USD currency)).

End Money64.

(** ** Quantity (value-objects/Quantity.ts) *)

Module Quantity.

Record t := mk { value : Z }.

Definition MAX_QUANTITY : Z := 99.
Definition MIN_QUANTITY : Z := 1.

Definition createQuantity (value : number) : Result t :=
  if negb (Number_isInteger value) then Err QuantityNotInteger
  else if number_lt value (inject_Z MIN_QUANTITY) then Err QuantityTooSmall
  else if number_lt (inject_Z MAX_QUANTITY) value then Err QuantityTooLarge
  else Ok {| value := toInteger value |}.

Definition addQuantity (a b : t) : Result t :=
  let sum := value a + value b in
  if MAX_QUANTITY <? sum then Err CombinedQuantityTooLarge
  else createQuantity (inject_Z sum).

Definition quantityEquals (a b : t) : bool := value a =? value b.

Definition getMaxQuantity : Z := MAX_QUANTITY.
Definition getMinQuantity : Z := MIN_QUANTITY.

End Quantity.
Abbreviation Quantity := Quantity.t.

(** ** ProductId (value-objects/ProductId.ts) *)

Module ProductId.

Record t := mk { value : string }.

(** [/^[a-zA-Z0-9-_]{1,50}$/] *)
Definition PRODUCT_ID_PATTERN (s : string) : bool :=
  test_class_bounded
    (fun c => is_alnum c || Ascii.eqb c "-" || Ascii.eqb c "_") 1 50 s.

Definition createProductId (value : string) : Result t :=
  if falsy value || is_empty_string (trim value) then Err ProductIdEmpty
  else
    let trimmed := trim value in
    if negb (PRODUCT_ID_PATTERN trimmed) then Err ProductIdFormat
    else Ok {| value := trimmed |}.

Definition productIdEquals (a b : t) : bool := bool_decide (value a = value b).

Definition productIdToString (productId : t) : string := value productId.

End ProductId.
Abbreviation ProductId := ProductId.t.

(** ** SessionId (value-objects/SessionId.ts) *)

Module SessionId.

Record t := mk { value : string }.

(** [/^[a-zA-Z0-9-]{1,100}$/] *)
Definition SESSION_ID_PATTERN (s : string) : bool :=
  test_class_bounded (fun c => is_alnum c || Ascii.eqb c "-") 1 100 s.

Definition createSessionId (value : string) : Result t :=
  if falsy value || is_empty_string (trim value) then Err SessionIdEmpty
  else
    let trimmed := trim value in
    if negb (SESSION_ID_PATTERN trimmed) then Err SessionIdFormat
    else Ok {| value := trimmed |}.

Definition sessionIdEquals (a b : t) : bool := bool_decide (value a = value b).

Definition sessionIdToString (sessionId : t) : string := value sessionId.

End SessionId.
Abbreviation SessionId := SessionId.t.

(** ** CartItem (entities/CartItem.ts) *)

Module CreateCartItemInput.

Record t := mk {
  productId : string;
  productName : string;
  unitPriceInCents : number;
  currency : option Currency;
  quantity : number;
  itemId : option string
}.

(** [{ ...input, currency: c }] *)
Definition set_currency (input : t) (c : option Currency) : t :=
  {| productId := productId input;
     productName := productName input;
     unitPriceInCents := unitPriceInCents input;
     currency := c;
     quantity := quantity input;
     itemId := itemId input |}.

Definition with_currency (input : t) (c : Currency) : t := set_currency input (Some c).

End CreateCartItemInput.
Abbreviation CreateCartItemInput := CreateCartItemInput.t.

Module CartItem.

Record t := mk {
  itemId : string;
  productId : ProductId;
  productName : string;
  unitPrice : Money;
  quantity : Quantity;
  addedAt : Date
}.

Definition createCartItem (w : World) (input : CreateCartItemInput) : Result t :=
  let productName := CreateCartItemInput.productName input in
  if falsy productName || is_empty_string (trim productName) then Err ProductNameEmpty
  else
    let itemId := default (uuid w) (CreateCartItemInput.itemId input) in
    productId ← ProductId.createProductId (CreateCartItemInput.productId input);
    unitPrice ← Money.createMoney (CreateCartItemInput.unitPriceInCents input)
                  (Some (default USD (CreateCartItemInput.currency input)));
    quantity ← Quantity.createQuantity (CreateCartItemInput.quantity input);
    Ok {| itemId := itemId;
          productId := productId;
          productName := trim productName;
          unitPrice := unitPrice;
          quantity := quantity;
          addedAt := time w 0 |}.

(** [{ ...item, quantity: newQuantity }] *)
Definition updateCartItemQuantity (item : t) (newQuantity : Quantity) : t :=
  {| itemId := itemId item;
     productId := productId item;
     productName := productName item;
     unitPrice := unitPrice item;
     quantity := newQuantity;
     addedAt := addedAt item |}.

Definition increaseCartItemQuantity (item : t) (additionalQuantity : Quantity) : Result t :=
  newQuantity ← Quantity.addQuantity (quantity item) additionalQuantity;
  Ok (updateCartItemQuantity item newQuantity).

Definition calculateLineTotal (item : t) : Result Money :=
  Money.multiplyMoney (unitPrice item) (inject_Z (Quantity.value (quantity item))).

Definition isSameProduct (a b : t) : bool :=
  ProductId.productIdEquals (productId a) (productId b).

Definition matchesProductId (item : t) (productId' : ProductId) : bool :=
  ProductId.productIdEquals (productId item) productId'.

End CartItem.
Abbreviation CartItem := CartItem.t.

(** ** Cart (entities/Cart.ts) *)

Module Cart.

Record t := mk {
  sessionId : SessionId;
  items : list CartItem;
  status : CartStatus;
  createdAt : Date;
  updatedAt : Date;
  currency : Currency
}.

Definition MAX_UNIQUE_ITEMS : nat := 20.

Definition createCart (w : World) (sessionId : string) (currency : option Currency) : Result t :=
  sid ← SessionId.createSessionId sessionId;
  Ok {| sessionId := sid;
        items := [];
        status := active;
        createdAt := time w 0;
        updatedAt := time w 1;
        currency := default USD currency |}.

Definition reconstitute (sessionId : string) (items : list CartItem) (status : CartStatus)
    (createdAt updatedAt : Date) (currency : Currency) : Result t :=
  sid ← SessionId.createSessionId sessionId;
  Ok {| sessionId := sid;
        items := items;
        status := status;
        createdAt := createdAt;
        updatedAt := updatedAt;
        currency := currency |}.

Definition assertCartIsActive (cart : t) : Result unit :=
  if decide (status cart = checked_out) then Err ModifyCheckedOut
  else if decide (status cart = abandoned) then Err ModifyAbandoned
  else Ok tt.

(** [{ ...cart, items: newItems, updatedAt: now }] *)
Definition with_items (cart : t) (newItems : list CartItem) (now : Date) : t :=
  {| sessionId := sessionId cart;
     items := newItems;
     status := status cart;
     createdAt := createdAt cart;
     updatedAt := now;
     currency := currency cart |}.

(** [list_find] gives the index [findIndex] returns together with the
    element [cart.items[index]] read at it; [None] stands for -1. *)
Definition addItemToCart (w : World) (cart : t) (input : CreateCartItemInput) : Result t :=
  _ ← assertCartIsActive cart;
  match list_find
          (fun item => ProductId.value (CartItem.productId item)
                       = CreateCartItemInput.productId input)
          (items cart) with
  | Some (existingItemIndex, existingItem) =>
      additionalQuantity ← Quantity.createQuantity (CreateCartItemInput.quantity input);
      updatedItem ← CartItem.increaseCartItemQuantity existingItem additionalQuantity;
      Ok (with_items cart (<[existingItemIndex := updatedItem]> (items cart)) (time w 0))
  | None =>
      if decide (MAX_UNIQUE_ITEMS <= length (items cart))%nat then Err TooManyUniqueItems
      else
        newItem ← CartItem.createCartItem w
                    (CreateCartItemInput.with_currency input (currency cart));
        Ok (with_items cart (items cart ++ [newItem]) (time w 1))
  end.

Definition removeItemFromCart (w : World) (cart : t) (itemId : string) : Result t :=
  _ ← assertCartIsActive cart;
  match list_find (fun item => CartItem.itemId item = itemId) (items cart) with
  | None => Err (ItemIdNotFound itemId)
  | Some _ =>
      let newItems := filter (fun item => CartItem.itemId item <> itemId) (items cart) in
      Ok (with_items cart newItems (time w 0))
  end.

Definition updateItemQuantity (w : World) (cart : t) (itemId : string) (quantity : number)
    : Result t :=
  _ ← assertCartIsActive cart;
  match list_find (fun item => CartItem.itemId item = itemId) (items cart) with
  | None => Err (ItemIdNotFound itemId)
  | Some (itemIndex, existingItem) =>
      newQuantity ← Quantity.createQuantity quantity;
      let updatedItem := CartItem.updateCartItemQuantity existingItem newQuantity in
      Ok (with_items cart (<[itemIndex := updatedItem]> (items cart)) (time w 0))
  end.

(** [items.reduce((total, item) => addMoney(total, calculateLineTotal(item)),
    zeroMoney(cart.currency))]; a throw in the callback ends the reduction. *)
Definition calculateCartTotal (cart : t) : Result Money :=
  fold_left
    (fun (total : Result Money) (item : CartItem) =>
       total ← total;
       lineTotal ← CartItem.calculateLineTotal item;
       Money.addMoney total lineTotal)
    (items cart)
    (Money.zeroMoney (Some (currency cart))).

Definition getTotalItemCount (cart : t) : Z :=
  fold_left (fun count item => count + Quantity.value (CartItem.quantity item))
            (items cart) 0.

Definition isCartEmpty (cart : t) : bool := (length (items cart) =? 0)%nat.

Definition canCheckout (cart : t) : bool :=
  bool_decide (status cart = active) && negb (isCartEmpty cart).

Definition checkout (w : World) (cart : t) : Result t :=
  if negb (canCheckout cart) then
    if decide (status cart <> active) then Err AlreadyCheckedOut
    else if isCartEmpty cart then Err CheckoutEmpty
    else Err CheckoutRefused
  else
    Ok {| sessionId := sessionId cart;
          items := items cart;
          status := checked_out;
          createdAt := createdAt cart;
          updatedAt := time w 0;
          currency := currency cart |}.

Definition clearCart (w : World) (cart : t) : Result t :=
  _ ← assertCartIsActive cart;
  Ok (with_items cart [] (time w 0)).

Definition findItemByProductId (cart : t) (productId : string) : option CartItem :=
  snd <$> list_find (fun item => ProductId.value (CartItem.productId item) = productId)
            (items cart).

Definition findItemById (cart : t) (itemId : string) : option CartItem :=
  snd <$> list_find (fun item => CartItem.itemId item = itemId) (items cart).

Definition getMaxUniqueItems : nat := MAX_UNIQUE_ITEMS.

End Cart.
Abbreviation Cart := Cart.t.

(** ** Line totals and cart total over binary64
    (entities/CartItem.ts, entities/Cart.ts) *)

Module CartItem64.

Definition calculateLineTotal (item : CartItem) : Result Money64.t :=
  Money64.multiplyMoney (Money64.of_Money (CartItem.unitPrice item))
    (Binary64.of_Z (Quantity.value (CartItem.quantity item))).

End CartItem64.

Module Cart64.

Definition calculateCartTotal (cart : Cart) : Result Money64.t :=
  fold_left
    (fun (total : Result Money64.t) (item : CartItem) =>
       total ← total;
       lineTotal ← CartItem64.calculateLineTotal item;
       Money64.addMoney total lineTotal)
    (Cart.items cart)
    (Money64.zeroMoney (Some (Cart.currency cart))).

Definition getTotalItemCount (cart : Cart) : Binary64.t :=
  fold_left
    (fun count item => Binary64.add count (Binary64.of_Z (Quantity.value (CartItem.quantity item))))
    (Cart.items cart) Binary64.zero.

End Cart64.

(** ** CheckoutResult (entities/CheckoutResult.ts) *)

Module CheckoutLineItem.

Record t := mk {
  productId : string;
  productName : string;
  quantity : Binary64.t;
  unitPriceInCents : Binary64.t;
  lineTotalInCents : Binary64.t
}.

End CheckoutLineItem.
Abbreviation CheckoutLineItem := CheckoutLineItem.t.

Module CreateCheckoutResultInput.

Record t := mk {
  orderId : string;
  cart : Cart;
  taxRate : option number
}.

End CreateCheckoutResultInput.
Abbreviation CreateCheckoutResultInput := CreateCheckoutResultInput.t.

(** The amounts of the result are computed with [+], [*] and [Math.round]
    on numbers and put into object literals; [createMoney] is not called
    on them. *)
Module CheckoutResult.

Record t := mk {
  orderId : string;
  sessionId : string;
  items : list CheckoutLineItem;
  subtotal : Money64.t;
  tax : Money64.t;
  total : Money64.t;
  itemCount : Binary64.t;
  checkoutAt : Date
}.

(** The callback of [cart.items.map(...)]. *)
Definition toLineItem (item : CartItem) : Result CheckoutLineItem :=
  lineTotal ← CartItem64.calculateLineTotal item;
  Ok {| CheckoutLineItem.productId := ProductId.value (CartItem.productId item);
        CheckoutLineItem.productName := CartItem.productName item;
        CheckoutLineItem.quantity := Binary64.of_Z (Quantity.value (CartItem.quantity item));
        CheckoutLineItem.unitPriceInCents :=
          Binary64.of_Z (Money.amount (CartItem.unitPrice item));
        CheckoutLineItem.lineTotalInCents := Money64.amount lineTotal |}.

Definition createCheckoutResult (w : World) (input : CreateCheckoutResultInput) : Result t :=
  let orderId := CreateCheckoutResultInput.orderId input in
  let cart := CreateCheckoutResultInput.cart input in
  let taxRate := default 0%Q (CreateCheckoutResultInput.taxRate input) in
  if decide (Cart.status cart <> checked_out) then Err ResultFromOpenCart
  else
    lineItems ← mapM toLineItem (Cart.items cart);
    let subtotalAmount :=
      fold_left (fun sum item => Binary64.add sum (CheckoutLineItem.lineTotalInCents item))
                lineItems Binary64.zero in
    let taxAmount :=
      Binary64.Math_round (Binary64.mul subtotalAmount (Binary64.Finite taxRate)) in
    let totalAmount := Binary64.add subtotalAmount taxAmount in
    let subtotal :=
      {| Money64.amount := subtotalAmount; Money64.currency := Cart.currency cart |} in
    let tax := {| Money64.amount := taxAmount; Money64.currency := Cart.currency cart |} in
    let total :=
      {| Money64.amount := totalAmount; Money64.currency := Cart.currency cart |} in
    let itemCount :=
      fold_left (fun count item => Binary64.add count (CheckoutLineItem.quantity item))
                lineItems Binary64.zero in
    Ok {| orderId := orderId;
          sessionId := SessionId.value (Cart.sessionId cart);
          items := lineItems;
          subtotal := subtotal;
          tax := tax;
          total := total;
          itemCount := itemCount;
          checkoutAt := time w 0 |}.

End CheckoutResult.
Abbreviation CheckoutResult := CheckoutResult.t.

(** ** Value-object invariants, products of a cart, reachable carts *)

Definition valid_money (m : Money) : Prop := 0 <= Money.amount m.

Definition valid_quantity (q : Quantity) : Prop :=
  Quantity.MIN_QUANTITY <= Quantity.value q <= Quantity.MAX_QUANTITY.

(** A cart item whose value objects satisfy their invariants. *)
Definition valid_item (item : CartItem) : Prop :=
  valid_money (CartItem.unitPrice item) /\ valid_quantity (CartItem.quantity item).

Definition valid_items (cart : Cart) : Prop := Forall valid_item (Cart.items cart).

Definition product_of (item : CartItem) : string :=
  ProductId.value (CartItem.productId item).

(** The number of items of a sequence that are for product [P]. *)
Definition count_product (P : string) (items : list CartItem) : nat :=
  length (filter (fun item => product_of item = P) items).

(** At most one item per distinct productId. *)
Definition unique_products (items : list CartItem) : Prop :=
  NoDup (map product_of items).

(** What every cart built through the operations satisfies: its items are
    valid, priced in the currency of the cart, and at most 20. *)
Definition coherent_item (cur : Currency) (item : CartItem) : Prop :=
  valid_item item /\ Money.currency (CartItem.unitPrice item) = cur.

Definition coherent (cart : Cart) : Prop :=
  Forall (coherent_item (Cart.currency cart)) (Cart.items cart)
  /\ (length (Cart.items cart) <= Cart.MAX_UNIQUE_ITEMS)%nat.

(** The carts obtained from [createCart] by successful calls of the
    mutators and of [checkout], whatever the clock and the identifier
    generator return. *)
Inductive reachable : Cart -> Prop :=
| reach_create w sessionId currency cart :
    Cart.createCart w sessionId currency = Ok cart -> reachable cart
| reach_add w cart input cart' :
    reachable cart -> Cart.addItemToCart w cart input = Ok cart' -> reachable cart'
| reach_remove w cart itemId cart' :
    reachable cart -> Cart.removeItemFromCart w cart itemId = Ok cart' -> reachable cart'
| reach_update w cart itemId quantity cart' :
    reachable cart -> Cart.updateItemQuantity w cart itemId quantity = Ok cart' ->
    reachable cart'
| reach_clear w cart cart' :
    reachable cart -> Cart.clearCart w cart = Ok cart' -> reachable cart'
| reach_checkout w cart cart' :
    reachable cart -> Cart.checkout w cart = Ok cart' -> reachable cart'.

(** ** The totals as the specification words them *)

(** Left fold of [addMoney] over the line totals, in order. *)
Fixpoint add_line_totals (total : Money) (items : list CartItem) : Result Money :=
  match items with
  | [] => Ok total
  | item :: rest =>
      lineTotal ← CartItem.calculateLineTotal item;
      total' ← Money.addMoney total lineTotal;
      add_line_totals total' rest
  end.

(** Sum of the item quantities. *)
Fixpoint sum_quantities (items : list CartItem) : Z :=
  match items with
  | [] => 0
  | item :: rest => Quantity.value (CartItem.quantity item) + sum_quantities rest
  end.

(** Sum over the items of unit price times quantity, in minor units. *)
Fixpoint sum_line_totals (items : list CartItem) : Z :=
  match items with
  | [] => 0
  | item :: rest =>
      Money.amount (CartItem.unitPrice item) * Quantity.value (CartItem.quantity item)
      + sum_line_totals rest
  end.

(** [n] is [x] rounded to the nearest integer, a half rounding up. *)
Definition round_half_up (x : Q) (n : Z) : Prop :=
  (inject_Z n - (1 # 2) <= x)%Q /\ (x < inject_Z n + (1 # 2))%Q.




(** ** Auxiliary definitions for the totals *)

(** The callback of the reduction in [calculateCartTotal]. *)
Definition total_step (total : Result Money) (item : CartItem) : Result Money :=
  total ← total;
  lineTotal ← CartItem.calculateLineTotal item;
  Money.addMoney total lineTotal.

(** The line item of the result for a cart item: its line total is the
    unit price times the quantity. *)
Definition line_of (item : CartItem) : CheckoutLineItem :=
  {| CheckoutLineItem.productId := product_of item;
     CheckoutLineItem.productName := CartItem.productName item;
     CheckoutLineItem.quantity := Binary64.of_Z (Quantity.value (CartItem.quantity item));
     CheckoutLineItem.unitPriceInCents :=
       Binary64.of_Z (Money.amount (CartItem.unitPrice item));
     CheckoutLineItem.lineTotalInCents :=
       Binary64.of_Z
         (Money.amount (CartItem.unitPrice item) * Quantity.value (CartItem.quantity item)) |}.



(** The callback of the reduction in [calculateCartTotal], over binary64. *)
Definition total_step64 (total : Result Money64.t) (item : CartItem) : Result Money64.t :=
  total ← total;
  lineTotal ← CartItem64.calculateLineTotal item;
  Money64.addMoney total lineTotal.

(** ** Concrete values used in the examples *)

Definition w0 : World := {| time := fun k => 1700000000000 + Z.of_nat k; uuid := "id-0" |}.

Definition input_of (productId : string) (price quantity : Z) (itemId : string)
    : CreateCartItemInput :=
  {| CreateCartItemInput.productId := productId;
     CreateCartItemInput.productName := "Product";
     CreateCartItemInput.unitPriceInCents := inject_Z price;
     CreateCartItemInput.currency := None;
     CreateCartItemInput.quantity := inject_Z quantity;
     CreateCartItemInput.itemId := Some itemId |}.

Definition item_of (itemId productId : string) (price quantity : Z) : CartItem :=
  {| CartItem.itemId := itemId;
     CartItem.productId := ProductId.mk productId;
     CartItem.productName := "Product";
     CartItem.unitPrice := Money.mk price USD;
     CartItem.quantity := Quantity.mk quantity;
     CartItem.addedAt := 1700000000000 |}.

Definition cart_of (items : list CartItem) (status : CartStatus) : Cart :=
  {| Cart.sessionId := SessionId.mk "s1";
     Cart.items := items;
     Cart.status := status;
     Cart.createdAt := 1700000000000;
     Cart.updatedAt := 1700000000001;
     Cart.currency := USD |}.

(** Twenty items for twenty distinct products [a], [aa], [aaa], ... *)
Fixpoint letters (n : nat) : string :=
  match n with O => EmptyString | S k => String "a" (letters k) end.

Definition twenty_items : list CartItem :=
  map (fun n => item_of (letters n) (letters n) 1000 1) (seq 1 20).

Definition duplicate_cart : Cart :=
  cart_of [item_of "i1" "p1" 1000 2; item_of "i2" "p1" 1000 3] active.

(** A reachable cart in euros to which an item was added with a caller
    currency of dollars. *)
Definition euro_cart : Cart :=
  {| Cart.sessionId := SessionId.mk "s1";
     Cart.items :=
       [ {| CartItem.itemId := "i1";
            CartItem.productId := ProductId.mk "p1";
            CartItem.productName := "Product";
            CartItem.unitPrice := Money.mk 1000 EUR;
            CartItem.quantity := Quantity.mk 2;
            CartItem.addedAt := 1700000000000 |} ];
     Cart.status := active;
     Cart.createdAt := 1700000000000;
     Cart.updatedAt := 1700000000001;
     Cart.currency := EUR |}.

(** The double [1e308], an integer. *)
Definition price_1e308 : Z := Qfloor (Binary64.literal (inject_Z (10 ^ 308))).

(** ** The claims that do not hold as the specification words them *)

(** C1 as the specification words it (its successful half), read for carts
    whose value objects are valid: any active cart with an item for the
    productId of the input, at any index. *)
Definition merge_claim_as_stated : Prop :=
  forall w cart input i existing q,
    Cart.status cart = active ->
    valid_items cart ->
    Cart.items cart !! i = Some existing ->
    product_of existing = CreateCartItemInput.productId input ->
    CreateCartItemInput.quantity input = inject_Z q ->
    1 <= q <= 99 ->
    Quantity.value (CartItem.quantity existing) + q <= 99 ->
    exists cart' updated,
      Cart.addItemToCart w cart input = Ok cart'
      /\ count_product (CreateCartItemInput.productId input) (Cart.items cart') = 1%nat
      /\ Cart.items cart' !! i = Some updated
      /\ CartItem.itemId updated = CartItem.itemId existing
      /\ CartItem.unitPrice updated = CartItem.unitPrice existing
      /\ CartItem.productName updated = CartItem.productName existing
      /\ CartItem.addedAt updated = CartItem.addedAt existing
      /\ Quantity.value (CartItem.quantity updated)
         = Quantity.value (CartItem.quantity existing) + q.

(** C2 as the specification words it. *)
Definition cart_invariants_claim : Prop :=
  forall cart, reachable cart ->
    (length (Cart.items cart) <= 20)%nat /\ unique_products (Cart.items cart).

(** C3 as the specification words it; in the second clause the error
    tells a checked-out cart from an abandoned one. *)
Definition checkout_claim_as_stated : Prop :=
  (forall w cart, Cart.status cart = active -> Cart.items cart = [] ->
     fails_with (Cart.checkout w cart) Kind.EmptyCart)
  /\ (forall w cart, Cart.status cart <> active ->
        fails_with (Cart.checkout w cart) Kind.CartAlreadyCheckedOut)
  /\ (forall w c1 c2 e1 e2,
        Cart.status c1 = checked_out -> Cart.status c2 = abandoned ->
        Cart.checkout w c1 = Err e1 -> Cart.checkout w c2 = Err e2 ->
        message e1 <> message e2)
  /\ (forall w cart, Cart.status cart = active -> Cart.items cart <> [] ->
        exists cart', Cart.checkout w cart = Ok cart'
                      /\ Cart.status cart' = checked_out
                      /\ Cart.items cart' = Cart.items cart).


(** C7 as the specification words it (its successful half), read for carts
    whose items are valid: the tax is the exact product of subtotal and
    tax rate, rounded half up. *)
Definition checkout_amounts_claim_as_stated : Prop :=
  forall w input,
    let cart := CreateCheckoutResultInput.cart input in
    let rate := default 0%Q (CreateCheckoutResultInput.taxRate input) in
    Cart.status cart = checked_out ->
    valid_items cart ->
    exists r tax,
      CheckoutResult.createCheckoutResult w input = Ok r
      /\ Money64.amount (CheckoutResult.subtotal r)
         = Binary64.of_Z (sum_line_totals (Cart.items cart))
      /\ Money64.amount (CheckoutResult.tax r) = Binary64.of_Z tax
      /\ round_half_up (inject_Z (sum_line_totals (Cart.items cart)) * rate)%Q tax
      /\ Money64.amount (CheckoutResult.total r)
         = Binary64.of_Z (sum_line_totals (Cart.items cart) + tax)
      /\ CheckoutResult.itemCount r = Binary64.of_Z (sum_quantities (Cart.items cart)).

(** ** Carts built from normalised product ids *)

(** The carts obtained like the [reachable] ones, every [addItemToCart]
    being called with a productId that [trim] leaves unchanged (no
    surrounding whitespace). *)
Inductive reachable_trimmed : Cart -> Prop :=
| reacht_create w sessionId currency cart :
    Cart.createCart w sessionId currency = Ok cart -> reachable_trimmed cart
| reacht_add w cart input cart' :
    reachable_trimmed cart ->
    trim (CreateCartItemInput.productId input) = CreateCartItemInput.productId input ->
    Cart.addItemToCart w cart input = Ok cart' -> reachable_trimmed cart'
| reacht_remove w cart itemId cart' :
    reachable_trimmed cart -> Cart.removeItemFromCart w cart itemId = Ok cart' ->
    reachable_trimmed cart'
| reacht_update w cart itemId quantity cart' :
    reachable_trimmed cart -> Cart.updateItemQuantity w cart itemId quantity = Ok cart' ->
    reachable_trimmed cart'
| reacht_clear w cart cart' :
    reachable_trimmed cart -> Cart.clearCart w cart = Ok cart' -> reachable_trimmed cart'
| reacht_checkout w cart cart' :
    reachable_trimmed cart -> Cart.checkout w cart = Ok cart' -> reachable_trimmed cart'.

(** The quantity [findItemByProductId] finds for a product, 0 when it finds
    no item. *)
Definition quantity_found (cart : Cart) (productId : string) : Z :=
  match Cart.findItemByProductId cart productId with
  | Some item => Quantity.value (CartItem.quantity item)
  | None => 0
  end.

(** The unit price that counts when a product is added: the price the cart
    already holds for it, else the price of the input. *)
Definition price_applied (cart : Cart) (input : CreateCartItemInput) : Z :=
  match Cart.findItemByProductId cart (CreateCartItemInput.productId input) with
  | Some item => Money.amount (CartItem.unitPrice item)
  | None => toInteger (CreateCartItemInput.unitPriceInCents input)
  end.

(** * The layers around the core *)

(** ** Domain errors (errors/DomainError.ts) *)

(** The subclasses of [DomainError]; [OtherDomainError] is an instance of
    the base class itself. *)
Inductive DomainError :=
| CartNotFoundError (sessionId : string)
| ItemNotFoundError (itemId : string)
| ProductNotFoundError (productId : string)
| ProductOutOfStockError (productId : string)
| InvalidQuantityError (message : string)
| CartAlreadyCheckedOutError (sessionId : string)
| EmptyCartError
| CartLimitExceededError (maxItems : nat)
| ValidationError (message : string) (field : option string)
| OtherDomainError (message code : string).

Definition domain_message (d : DomainError) : string :=
  match d with
  | CartNotFoundError sessionId => "Cart not found for session: " ++ sessionId
  | ItemNotFoundError itemId => "Item not found: " ++ itemId
  | ProductNotFoundError productId => "Product not found: " ++ productId
  | ProductOutOfStockError productId => "Product is out of stock: " ++ productId
  | InvalidQuantityError message => message
  | CartAlreadyCheckedOutError sessionId =>
      "Cart has already been checked out: " ++ sessionId
  | EmptyCartError => "Cannot checkout an empty cart"
  | CartLimitExceededError maxItems =>
      "Cart cannot have more than " ++ pretty maxItems ++ " unique items"
  | ValidationError message _ => message
  | OtherDomainError message _ => message
  end%string.

Definition domain_code (d : DomainError) : string :=
  match d with
  | CartNotFoundError _ => "CART_NOT_FOUND"
  | ItemNotFoundError _ => "ITEM_NOT_FOUND"
  | ProductNotFoundError _ => "PRODUCT_NOT_FOUND"
  | ProductOutOfStockError _ => "PRODUCT_OUT_OF_STOCK"
  | InvalidQuantityError _ => "INVALID_QUANTITY"
  | CartAlreadyCheckedOutError _ => "CART_ALREADY_CHECKED_OUT"
  | EmptyCartError => "EMPTY_CART"
  | CartLimitExceededError _ => "CART_LIMIT_EXCEEDED"
  | ValidationError _ _ => "VALIDATION_ERROR"
  | OtherDomainError _ code => code
  end%string.

(** The plain [Error]s thrown by [createProduct]. *)
Inductive ProductFault :=
| ProductNameBlank
| ProductNameTooLong
| ProductSkuBlank.

Definition product_fault_message (e : ProductFault) : string :=
  match e with
  | ProductNameBlank => "Product name cannot be empty"
  | ProductNameTooLong => "Product name cannot exceed 200 characters"
  | ProductSkuBlank => "Product SKU cannot be empty"
  end%string.

(** What a call above the core can throw: a plain [Error] of the core, a
    plain [Error] of the Product entity, or a [DomainError]. *)
Inductive Thrown :=
| PlainError (e : Error)
| ProductError (e : ProductFault)
| Domain (d : DomainError).

Definition thrown_message (t : Thrown) : string :=
  match t with
  | PlainError e => message e
  | ProductError e => product_fault_message e
  | Domain d => domain_message d
  end.

Definition isDomainError (t : Thrown) : bool :=
  match t with Domain _ => true | _ => false end.

Definition getErrorCode (t : Thrown) : string :=
  match t with
  | Domain d => domain_code d
  | _ => "UNKNOWN_ERROR"%string
  end.

Inductive Outcome (A : Type) :=
| Returned (a : A)
| Threw (t : Thrown).
Arguments Returned {A} a.
Arguments Threw {A} t.

(** A call into the core from a layer above. *)
Definition from_core {A} (r : Result A) : Outcome A :=
  match r with
  | Ok a => Returned a
  | Err e => Threw (PlainError e)
  end.

(** ** Product (entities/Product.ts) *)

Module CreateProductInput.

Record t := mk {
  id : string;
  name : string;
  description : option string;
  priceInCents : number;
  currency : option Currency;
  sku : string;
  inStock : option bool
}.

End CreateProductInput.
Abbreviation CreateProductInput := CreateProductInput.t.

Module Product.

Record t := mk {
  id : ProductId;
  name : string;
  description : string;
  price : Money;
  sku : string;
  inStock : bool
}.

Definition createProduct (input : CreateProductInput) : Outcome t :=
  let name := CreateProductInput.name input in
  let sku := CreateProductInput.sku input in
  if falsy name || is_empty_string (trim name) then Threw (ProductError ProductNameBlank)
  else if (200 <? String.length name)%nat then Threw (ProductError ProductNameTooLong)
  else if falsy sku || is_empty_string (trim sku) then Threw (ProductError ProductSkuBlank)
  else
    match ProductId.createProductId (CreateProductInput.id input) with
    | Err e => Threw (PlainError e)
    | Ok id =>
        match Money.createMoney (CreateProductInput.priceInCents input)
                (Some (default USD (CreateProductInput.currency input))) with
        | Err e => Threw (PlainError e)
        | Ok price =>
            Returned {| id := id;
                        name := trim name;
                        description :=
                          default EmptyString (trim <$> CreateProductInput.description input);
                        price := price;
                        sku := trim sku;
                        inStock := default true (CreateProductInput.inStock input) |}
        end
    end.

Definition canAddToCart (product : t) : bool := inStock product.

End Product.
Abbreviation Product := Product.t.

(** ** In-memory product repository
       (adapters/repositories/InMemoryProductRepository.ts) *)

Module InMemoryProductRepository.

Definition findById (storage : gmap string Product) (productId : string) : option Product :=
  storage !! productId.

Definition findByIds (storage : gmap string Product) (productIds : list string)
    : list Product :=
  omap (fun id => storage !! id) productIds.

Definition exists_ (storage : gmap string Product) (productId : string) : bool :=
  bool_decide (is_Some (storage !! productId)).

Definition addProduct (storage : gmap string Product) (product : Product)
    : gmap string Product :=
  <[ProductId.value (Product.id product) := product]> storage.

Definition size (storage : gmap string Product) : nat := base.size storage.

End InMemoryProductRepository.

(** ** In-memory cart repository
       (adapters/repositories/InMemoryCartRepository.ts) *)

(** [Date.prototype.toISOString] and [new Date(string)], which the
    repository uses to store timestamps as strings. *)
Record DateCodec := {
  toISOString : Date -> string;
  parseDate : string -> Date
}.

(** Parsing the ISO string of a date gives the date back. *)
Definition codec_round_trips (codec : DateCodec) : Prop :=
  forall d : Date, parseDate codec (toISOString codec d) = d.

Module StoredCartItem.

Record t := mk {
  itemId : string;
  productId : string;
  productName : string;
  unitPriceAmount : Z;
  unitPriceCurrency : Currency;
  quantity : Z;
  addedAt : string
}.

End StoredCartItem.
Abbreviation StoredCartItem := StoredCartItem.t.

Module StoredCart.

Record t := mk {
  sessionId : string;
  items : list StoredCartItem;
  status : CartStatus;
  createdAt : string;
  updatedAt : string;
  currency : Currency
}.

End StoredCart.
Abbreviation StoredCart := StoredCart.t.

Module InMemoryCartRepository.

Section Repository.

Variable codec : DateCodec.

Definition serializeItem (item : CartItem) : StoredCartItem :=
  {| StoredCartItem.itemId := CartItem.itemId item;
     StoredCartItem.productId := ProductId.value (CartItem.productId item);
     StoredCartItem.productName := CartItem.productName item;
     StoredCartItem.unitPriceAmount := Money.amount (CartItem.unitPrice item);
     StoredCartItem.unitPriceCurrency := Money.currency (CartItem.unitPrice item);
     StoredCartItem.quantity := Quantity.value (CartItem.quantity item);
     StoredCartItem.addedAt := toISOString codec (CartItem.addedAt item) |}.

Definition serializeCart (cart : Cart) : StoredCart :=
  {| StoredCart.sessionId := SessionId.value (Cart.sessionId cart);
     StoredCart.items := map serializeItem (Cart.items cart);
     StoredCart.status := Cart.status cart;
     StoredCart.createdAt := toISOString codec (Cart.createdAt cart);
     StoredCart.updatedAt := toISOString codec (Cart.updatedAt cart);
     StoredCart.currency := Cart.currency cart |}.

Definition deserializeItem (item : StoredCartItem) : CartItem :=
  {| CartItem.itemId := StoredCartItem.itemId item;
     CartItem.productId := ProductId.mk (StoredCartItem.productId item);
     CartItem.productName := StoredCartItem.productName item;
     CartItem.unitPrice :=
       Money.mk (StoredCartItem.unitPriceAmount item) (StoredCartItem.unitPriceCurrency item);
     CartItem.quantity := Quantity.mk (StoredCartItem.quantity item);
     CartItem.addedAt := parseDate codec (StoredCartItem.addedAt item) |}.

Definition deserializeCart (stored : StoredCart) : Result Cart :=
  let items := map deserializeItem (StoredCart.items stored) in
  Cart.reconstitute (StoredCart.sessionId stored) items (StoredCart.status stored)
    (parseDate codec (StoredCart.createdAt stored))
    (parseDate codec (StoredCart.updatedAt stored))
    (StoredCart.currency stored).

Definition findBySessionId (storage : gmap string StoredCart) (sessionId : string)
    : Result (option Cart) :=
  match storage !! sessionId with
  | None => Ok None
  | Some stored => cart ← deserializeCart stored; Ok (Some cart)
  end.

Definition save (storage : gmap string StoredCart) (cart : Cart) : gmap string StoredCart :=
  let serialized := serializeCart cart in
  <[SessionId.value (Cart.sessionId cart) := serialized]> storage.

End Repository.

(** [storage.delete(sessionId)]: whether the key was there, and the map
    without it. *)
Definition delete (storage : gmap string StoredCart) (sessionId : string)
    : bool * gmap string StoredCart :=
  (bool_decide (is_Some (storage !! sessionId)), base.delete sessionId storage).

Definition exists_ (storage : gmap string StoredCart) (sessionId : string) : bool :=
  bool_decide (is_Some (storage !! sessionId)).

Definition clear (storage : gmap string StoredCart) : gmap string StoredCart := ∅.

Definition size (storage : gmap string StoredCart) : nat := base.size storage.

End InMemoryCartRepository.


(** ** Use cases (usecases/) *)

(** The world as a call sees it after [n] readings of the clock. *)
Definition after_ticks (n : nat) (w : World) : World :=
  {| time := fun k => time w (n + k)%nat; uuid := uuid w |}.

(** A use case reads and writes the cart storage: it returns what
    [execute] resolves to or rejects with, and the storage afterwards. *)
Module UseCases.

Section UseCases.

Variable codec : DateCodec.

Definition GetCart (carts : gmap string StoredCart) (sessionId : string)
    : Outcome (option Cart) * gmap string StoredCart :=
  (from_core (InMemoryCartRepository.findBySessionId codec carts sessionId), carts).

Definition AddItemToCart (w : World) (products : gmap string Product)
    (carts : gmap string StoredCart) (sessionId productId : string) (quantity : number)
    : Outcome Cart * gmap string StoredCart :=
  match InMemoryProductRepository.findById products productId with
  | None => (Threw (Domain (ProductNotFoundError productId)), carts)
  | Some product =>
      if negb (Product.inStock product)
      then (Threw (Domain (ProductOutOfStockError productId)), carts)
      else
        match InMemoryCartRepository.findBySessionId codec carts sessionId with
        | Err e => (Threw (PlainError e), carts)
        | Ok found =>
            let created :=
              match found with
              | Some cart => Ok (cart, w)
              | None => cart ← Cart.createCart w sessionId None; Ok (cart, after_ticks 2 w)
              end in
            match created with
            | Err e => (Threw (PlainError e), carts)
            | Ok (cart, w') =>
                match Cart.addItemToCart w' cart
                        {| CreateCartItemInput.productId :=
                             ProductId.value (Product.id product);
                           CreateCartItemInput.productName := Product.name product;
                           CreateCartItemInput.unitPriceInCents :=
                             inject_Z (Money.amount (Product.price product));
                           CreateCartItemInput.currency :=
                             Some (Money.currency (Product.price product));
                           CreateCartItemInput.quantity := quantity;
                           CreateCartItemInput.itemId := None |} with
                | Err e => (Threw (PlainError e), carts)
                | Ok updatedCart =>
                    (Returned updatedCart, InMemoryCartRepository.save codec carts updatedCart)
                end
            end
        end
  end.

(** [cart.items.some(item => item.itemId === itemId)] *)
Definition itemExists (cart : Cart) (itemId : string) : bool :=
  bool_decide (Exists (fun item => CartItem.itemId item = itemId) (Cart.items cart)).

Definition RemoveItemFromCart (w : World) (carts : gmap string StoredCart)
    (sessionId itemId : string) : Outcome Cart * gmap string StoredCart :=
  match InMemoryCartRepository.findBySessionId codec carts sessionId with
  | Err e => (Threw (PlainError e), carts)
  | Ok None => (Threw (Domain (CartNotFoundError sessionId)), carts)
  | Ok (Some cart) =>
      if negb (itemExists cart itemId)
      then (Threw (Domain (ItemNotFoundError itemId)), carts)
      else
        match Cart.removeItemFromCart w cart itemId with
        | Err e => (Threw (PlainError e), carts)
        | Ok updatedCart =>
            (Returned updatedCart, InMemoryCartRepository.save codec carts updatedCart)
        end
  end.

Definition UpdateItemQuantity (w : World) (carts : gmap string StoredCart)
    (sessionId itemId : string) (quantity : number)
    : Outcome Cart * gmap string StoredCart :=
  match InMemoryCartRepository.findBySessionId codec carts sessionId with
  | Err e => (Threw (PlainError e), carts)
  | Ok None => (Threw (Domain (CartNotFoundError sessionId)), carts)
  | Ok (Some cart) =>
      if negb (itemExists cart itemId)
      then (Threw (Domain (ItemNotFoundError itemId)), carts)
      else
        match Cart.updateItemQuantity w cart itemId quantity with
        | Err e => (Threw (PlainError e), carts)
        | Ok updatedCart =>
            (Returned updatedCart, InMemoryCartRepository.save codec carts updatedCart)
        end
  end.

(** The cart is saved before the result is built: when
    [createCheckoutResult] throws, the checked-out cart stays saved. *)
Definition CheckoutCart (w : World) (carts : gmap string StoredCart)
    (sessionId : string) (taxRate : option number)
    : Outcome CheckoutResult * gmap string StoredCart :=
  let taxRate := default 0%Q taxRate in
  match InMemoryCartRepository.findBySessionId codec carts sessionId with
  | Err e => (Threw (PlainError e), carts)
  | Ok None => (Threw (Domain (CartNotFoundError sessionId)), carts)
  | Ok (Some cart) =>
      if decide (Cart.status cart = checked_out)
      then (Threw (Domain (CartAlreadyCheckedOutError sessionId)), carts)
      else if (length (Cart.items cart) =? 0)%nat
      then (Threw (Domain EmptyCartError), carts)
      else
        match Cart.checkout w cart with
        | Err e => (Threw (PlainError e), carts)
        | Ok checkedOutCart =>
            let orderId := uuid w in
            let carts' := InMemoryCartRepository.save codec carts checkedOutCart in
            (from_core
               (CheckoutResult.createCheckoutResult (after_ticks 1 w)
                  {| CreateCheckoutResultInput.orderId := orderId;
                     CreateCheckoutResultInput.cart := checkedOutCart;
                     CreateCheckoutResultInput.taxRate := Some taxRate |}),
             carts')
        end
  end.

End UseCases.

End UseCases.

(** ** Error presenter (adapters/presenters/ErrorPresenter.ts) *)

(** [s.startsWith(p)] *)
Fixpoint startsWith (p s : string) : bool :=
  match p, s with
  | EmptyString, _ => true
  | String _ _, EmptyString => false
  | String a p', String b s' => Ascii.eqb a b && startsWith p' s'
  end.

(** [s.includes(p)] *)
Fixpoint includes (s p : string) : bool :=
  startsWith p s
  || match s with
     | EmptyString => false
     | String _ s' => includes s' p
     end.

Module ErrorPresenter.

Record PresentedError := mk {
  status : nat;
  code : string;
  message : string;
  field : option string
}.

Definition getHttpStatus (error : DomainError) : nat :=
  match error with
  | CartNotFoundError _ => 404
  | ItemNotFoundError _ => 404
  | ProductNotFoundError _ => 404
  | ProductOutOfStockError _ => 422
  | EmptyCartError => 422
  | CartAlreadyCheckedOutError _ => 409
  | ValidationError _ _ => 400
  | _ => 400
  end.

(** [error instanceof ValidationError && error.field]: an empty field is
    falsy and left out. *)
Definition presentDomainError (error : DomainError) : PresentedError :=
  {| status := getHttpStatus error;
     code := domain_code error;
     message := domain_message error;
     field :=
       match error with
       | ValidationError _ (Some f) => if falsy f then None else Some f
       | _ => None
       end |}.

Definition internal_error : PresentedError :=
  {| status := 500;
     code := "INTERNAL_ERROR";
     message := "An unexpected error occurred";
     field := None |}.

Definition presentError (error : Thrown) : PresentedError :=
  match error with
  | Domain d => presentDomainError d
  | _ =>
      let msg := thrown_message error in
      if includes msg "cannot be empty" || includes msg "must be"
         || includes msg "cannot exceed" || includes msg "cannot have more than"
      then {| status := 400; code := "VALIDATION_ERROR"; message := msg; field := None |}
      else internal_error
  end.

End ErrorPresenter.

(** ** Concrete values for the layers around the core *)

(** A date codec for the examples: a sign and as many marks as the date
    has milliseconds. *)
Definition tally_codec : DateCodec :=
  {| toISOString := fun d =>
       String (if d <? 0 then "-"%char else "+"%char)
              (string_of_list_ascii (repeat "1"%char (Z.to_nat (Z.abs d))));
     parseDate := fun s =>
       match s with
       | EmptyString => 0
       | String sign marks =>
           if Ascii.eqb sign "-" then - Z.of_nat (String.length marks)
           else Z.of_nat (String.length marks)
       end |}.

Definition small_world : World := {| time := fun k => 3 + Z.of_nat k; uuid := "id-0" |}.

Definition small_item (itemId productId : string) (price quantity : Z) : CartItem :=
  {| CartItem.itemId := itemId;
     CartItem.productId := ProductId.mk productId;
     CartItem.productName := "Product";
     CartItem.unitPrice := Money.mk price USD;
     CartItem.quantity := Quantity.mk quantity;
     CartItem.addedAt := 1 |}.

Definition small_cart (sessionId : string) (items : list CartItem) (status : CartStatus)
    : Cart :=
  {| Cart.sessionId := SessionId.mk sessionId;
     Cart.items := items;
     Cart.status := status;
     Cart.createdAt := 1;
     Cart.updatedAt := 2;
     Cart.currency := USD |}.

Definition sample_products : gmap string Product :=
  <["prod-001" := Product.mk (ProductId.mk "prod-001") "Wireless Bluetooth Headphones"
                    "High-quality wireless headphones with noise cancellation"
                    (Money.mk 9999 USD) "WBH-001" true]>
  (<["prod-006" := Product.mk (ProductId.mk "prod-006") "Monitor Light Bar"
                     "LED monitor light bar with adjustable brightness"
                     (Money.mk 5999 USD) "MLB-006" false]> ∅).


(** Every stored cart sits under its own session id, and that id has the
    shape of a SessionId. *)
Definition stored_under_own_id (carts : gmap string StoredCart) : Prop :=
  forall k stored, carts !! k = Some stored ->
    StoredCart.sessionId stored = k /\ SessionId.SESSION_ID_PATTERN k = true.

(** Every stored cart holds at most one item per productId. *)
Definition stored_products_unique (carts : gmap string StoredCart) : Prop :=
  forall k stored, carts !! k = Some stored ->
    NoDup (map StoredCartItem.productId (StoredCart.items stored)).

(** Every product of the catalogue has an id that [trim] leaves unchanged
    (as the ids made by [createProductId] are). *)
Definition catalogue_ids_trimmed (products : gmap string Product) : Prop :=
  forall k product, products !! k = Some product ->
    trim (ProductId.value (Product.id product)) = ProductId.value (Product.id product).


(** The plain Errors of the core whose message holds one of the phrases
    the error presenter looks for ('cannot be empty', 'must be', 'cannot
    exceed', 'cannot have more than'); the message of [ItemIdNotFound]
    depends on the item id and is left out. *)
Definition worded_as_validation (e : Error) : bool :=
  match e with
  | MoneyNotInteger | MultiplyNotInteger
  | QuantityNotInteger | QuantityTooSmall | QuantityTooLarge | CombinedQuantityTooLarge
  | ProductIdEmpty | ProductIdFormat | SessionIdEmpty | SessionIdFormat
  | ProductNameEmpty | TooManyUniqueItems => true
  | _ => false
  end.

(** * Properties *)

(** ** The examples of the specification and of the test suite *)

Example trim_strips_both_ends : trim "  prod-001 " = "prod-001"%string.
Proof. reflexivity. Qed.

Example trim_keeps_inner_space : trim " a b " = "a b"%string.
Proof. reflexivity. Qed.

Example money_negative_rejected :
  Money.createMoney (inject_Z (-1)) (Some USD) = Err MoneyNegative.
Proof. reflexivity. Qed.

Example money_subtract_below_zero :
  Money.subtractMoney (Money.mk 500 USD) (Money.mk 1000 USD) = Err SubtractionNegative.
Proof. reflexivity. Qed.

Example money_from_dollars_rounds :
  Money.createMoneyFromDollars (1999 # 100) None = Ok (Money.mk 1999 USD).
Proof. reflexivity. Qed.

Example quantity_zero_rejected :
  Quantity.createQuantity 0%Q = Err QuantityTooSmall.
Proof. reflexivity. Qed.

Example quantity_hundred_rejected :
  Quantity.createQuantity (inject_Z 100) = Err QuantityTooLarge.
Proof. reflexivity. Qed.

Example quantity_fraction_rejected :
  Quantity.createQuantity (3 # 2) = Err QuantityNotInteger.
Proof. reflexivity. Qed.

Example product_id_with_space_inside_rejected :
  ProductId.createProductId "prod 001" = Err ProductIdFormat.
Proof. reflexivity. Qed.

Example product_id_blank_rejected :
  ProductId.createProductId "   " = Err ProductIdEmpty.
Proof. reflexivity. Qed.

(** create cart "s1", add p1 (1000 x 2), add p1 again (x 3): one item of
    quantity 5 and line total 5000; checkout; result for order "o1" at a tax
    rate of 0.08: subtotal 5000, tax 400, total 5400, itemCount 5. *)
Example end_to_end_scenario :
  (c ← Cart.createCart w0 "s1" None;
   c ← Cart.addItemToCart w0 c (input_of "p1" 1000 2 "i1");
   c ← Cart.addItemToCart w0 c (input_of "p1" 1000 3 "i2");
   t ← Cart.calculateCartTotal c;
   c' ← Cart.checkout w0 c;
   r ← CheckoutResult.createCheckoutResult w0
         (CreateCheckoutResultInput.mk "o1" c' (Some (Binary64.literal (8 # 100))));
   Ok (length (Cart.items c), Cart.getTotalItemCount c, Money.amount t,
       Money64.amount (CheckoutResult.subtotal r), Money64.amount (CheckoutResult.tax r),
       Money64.amount (CheckoutResult.total r), CheckoutResult.itemCount r))
  = Ok (1%nat, 5, 5000, Binary64.of_Z 5000, Binary64.of_Z 400, Binary64.of_Z 5400,
        Binary64.of_Z 5).
Proof. vm_compute. reflexivity. Qed.

Example remove_then_empty :
  (c ← Cart.createCart w0 "session-123" None;
   c ← Cart.addItemToCart w0 c (input_of "prod-001" 1000 1 "i1");
   c ← Cart.removeItemFromCart w0 c "i1";
   Ok (Cart.isCartEmpty c, Cart.canCheckout c))
  = Ok (true, false).
Proof. vm_compute. reflexivity. Qed.

Example remove_unknown_item :
  (c ← Cart.createCart w0 "session-123" None;
   Cart.removeItemFromCart w0 c "non-existent")
  = Err (ItemIdNotFound "non-existent").
Proof. vm_compute. reflexivity. Qed.

Example update_quantity_in_place :
  (c ← Cart.createCart w0 "session-123" None;
   c ← Cart.addItemToCart w0 c (input_of "prod-001" 1000 1 "i1");
   c ← Cart.updateItemQuantity w0 c "i1" (inject_Z 5);
   Ok (map (fun i => Quantity.value (CartItem.quantity i)) (Cart.items c)))
  = Ok [5].
Proof. vm_compute. reflexivity. Qed.

(** ** Facts about numbers *)

Lemma Number_isInteger_inject_Z (z : Z) : Number_isInteger (inject_Z z) = true.
Proof. unfold Number_isInteger. simpl. rewrite Z.mod_1_r. reflexivity. Qed.

Lemma toInteger_inject_Z (z : Z) : toInteger (inject_Z z) = z.
Proof. apply Qfloor_Z. Qed.

Lemma number_lt_inject_Z (a b : Z) : number_lt (inject_Z a) (inject_Z b) = (a <? b).
Proof.
  unfold number_lt, Qle_bool. simpl. rewrite !Z.mul_1_r.
  destruct (Z.leb_spec b a), (Z.ltb_spec a b); simpl; try reflexivity; lia.
Qed.

Lemma number_lt_false_le (x y : number) : number_lt x y = false -> (y <= x)%Q.
Proof.
  unfold number_lt. intros H. apply Qle_bool_iff.
  destruct (Qle_bool y x); [reflexivity | discriminate].
Qed.

Lemma Qfloor_nonneg (x : Q) : (0 <= x)%Q -> 0 <= Qfloor x.
Proof. intros H. apply (Qfloor_resp_le 0 x) in H. exact H. Qed.

Lemma Math_round_nonneg (x : Q) : (0 <= x)%Q -> 0 <= Math_round x.
Proof. intros H. unfold Math_round. apply Qfloor_nonneg. lra. Qed.

(** [Math_round x] is the integer [n] with [n - 1/2 <= x < n + 1/2]. *)
Lemma Math_round_spec (x : Q) :
  (inject_Z (Math_round x) - (1 # 2) <= x)%Q /\ (x < inject_Z (Math_round x) + (1 # 2))%Q.
Proof.
  unfold Math_round.
  pose proof (Qfloor_le (x + (1 # 2))) as Hlo.
  pose proof (Qlt_floor (x + (1 # 2))) as Hhi.
  rewrite inject_Z_plus in Hhi. change (inject_Z 1) with 1%Q in Hhi.
  split; lra.
Qed.

(** ** Facts about the value objects *)

Lemma createMoney_inject_Z (z : Z) (c : Currency) :
  Money.createMoney (inject_Z z) (Some c)
  = if z <? 0 then Err MoneyNegative else Ok (Money.mk z c).
Proof.
  unfold Money.createMoney.
  rewrite Number_isInteger_inject_Z. simpl negb. cbv iota.
  change 0%Q with (inject_Z 0). rewrite number_lt_inject_Z, toInteger_inject_Z.
  reflexivity.
Qed.

Lemma createMoney_Ok (cents : number) (cur : option Currency) (m : Money) :
  Money.createMoney cents cur = Ok m ->
  0 <= Money.amount m /\ Money.amount m = toInteger cents
  /\ Money.currency m = default USD cur.
Proof.
  unfold Money.createMoney.
  destruct (negb (Number_isInteger cents)); [discriminate |].
  destruct (number_lt cents 0%Q) eqn:Hlt; [discriminate |].
  intros [= <-]. simpl. split; [| split; reflexivity].
  apply Qfloor_nonneg. apply number_lt_false_le. exact Hlt.
Qed.

Lemma createQuantity_inject_Z (z : Z) :
  Quantity.createQuantity (inject_Z z)
  = if z <? 1 then Err QuantityTooSmall
    else if 99 <? z then Err QuantityTooLarge
    else Ok (Quantity.mk z).
Proof.
  unfold Quantity.createQuantity.
  rewrite Number_isInteger_inject_Z. simpl negb. cbv iota.
  rewrite !number_lt_inject_Z, toInteger_inject_Z. reflexivity.
Qed.

Lemma createQuantity_Ok (v : number) (q : Quantity) :
  Quantity.createQuantity v = Ok q ->
  1 <= Quantity.value q <= 99 /\ Quantity.value q = toInteger v.
Proof.
  unfold Quantity.createQuantity.
  destruct (negb (Number_isInteger v)); [discriminate |].
  destruct (number_lt v _) eqn:Hlo; [discriminate |].
  destruct (number_lt _ v) eqn:Hhi; [discriminate |].
  intros [= <-]. simpl. split; [| reflexivity].
  apply number_lt_false_le in Hlo, Hhi. split.
  - apply (Qfloor_resp_le (inject_Z 1) v) in Hlo. rewrite Qfloor_Z in Hlo. exact Hlo.
  - apply (Qfloor_resp_le v (inject_Z 99)) in Hhi. rewrite Qfloor_Z in Hhi. exact Hhi.
Qed.

Lemma addQuantity_valid (a b : Quantity) :
  1 <= Quantity.value a -> 1 <= Quantity.value b ->
  Quantity.addQuantity a b
  = if 99 <? Quantity.value a + Quantity.value b then Err CombinedQuantityTooLarge
    else Ok (Quantity.mk (Quantity.value a + Quantity.value b)).
Proof.
  intros Ha Hb. unfold Quantity.addQuantity, Quantity.MAX_QUANTITY.
  destruct (Z.ltb_spec 99 (Quantity.value a + Quantity.value b)); [reflexivity |].
  rewrite createQuantity_inject_Z.
  destruct (Z.ltb_spec (Quantity.value a + Quantity.value b) 1); [lia |].
  destruct (Z.ltb_spec 99 (Quantity.value a + Quantity.value b)); [lia | reflexivity].
Qed.

Lemma multiplyMoney_inject_Z (m : Money) (q : Z) :
  Money.multiplyMoney m (inject_Z q)
  = if q <? 0 then Err MultiplyNegative
    else if Money.amount m * q <? 0 then Err MoneyNegative
    else Ok (Money.mk (Money.amount m * q) (Money.currency m)).
Proof.
  unfold Money.multiplyMoney.
  change 0%Q with (inject_Z 0). rewrite number_lt_inject_Z.
  destruct (q <? 0); [reflexivity |].
  rewrite Number_isInteger_inject_Z. simpl negb. cbv iota.
  change (inject_Z (Money.amount m) * inject_Z q)%Q with (inject_Z (Money.amount m * q)).
  apply createMoney_inject_Z.
Qed.

Lemma addMoney_same (a b : Money) :
  Money.currency a = Money.currency b ->
  0 <= Money.amount a -> 0 <= Money.amount b ->
  Money.addMoney a b = Ok (Money.mk (Money.amount a + Money.amount b) (Money.currency a)).
Proof.
  intros Hc Ha Hb. unfold Money.addMoney.
  destruct (decide _) as [Hne | _]; [contradiction |].
  rewrite createMoney_inject_Z.
  destruct (Z.ltb_spec (Money.amount a + Money.amount b) 0); [lia | reflexivity].
Qed.

(** ** Facts about [trim] and the identifier patterns *)

Lemma trimEnd_clean (s : string) :
  forall_chars (fun c => negb (is_whitespace c)) s = true -> trimEnd s = s.
Proof.
  induction s as [| c r IH]; simpl; [reflexivity |].
  intros H. apply andb_prop in H as [Hc Hr].
  rewrite (IH Hr). apply negb_true_iff in Hc. rewrite Hc.
  destruct r; reflexivity.
Qed.

Lemma trim_clean (s : string) :
  forall_chars (fun c => negb (is_whitespace c)) s = true -> trim s = s.
Proof.
  intros H. unfold trim.
  assert (trimStart s = s) as ->.
  { destruct s as [| c r]; simpl in *; [reflexivity |].
    apply andb_prop in H as [Hc _]. apply negb_true_iff in Hc. rewrite Hc. reflexivity. }
  apply trimEnd_clean. exact H.
Qed.

Lemma forall_chars_impl (p q : ascii -> bool) (s : string) :
  (forall c, p c = true -> q c = true) ->
  forall_chars p s = true -> forall_chars q s = true.
Proof.
  intros Hpq. induction s as [| c r IH]; simpl; [reflexivity |].
  intros H. apply andb_prop in H as [Hc Hr].
  rewrite (Hpq c Hc), (IH Hr). reflexivity.
Qed.

Section IdentifierPattern.

Variable cls : ascii -> bool.
Variables lo hi : nat.
Hypothesis cls_not_whitespace : forall c, cls c = true -> is_whitespace c = false.
Hypothesis lo_positive : (1 <= lo)%nat.

(** A string accepted by the pattern is left alone by [trim] and is not
    empty. *)
Lemma accepted_is_trimmed (s : string) :
  test_class_bounded cls lo hi s = true ->
  trim s = s /\ falsy s = false.
Proof.
  unfold test_class_bounded. intros H.
  apply andb_prop in H as [H Hhi]. apply andb_prop in H as [Hcls Hlo].
  split.
  - apply trim_clean. revert Hcls. apply forall_chars_impl.
    intros c Hc. rewrite (cls_not_whitespace c Hc). reflexivity.
  - destruct s; [| reflexivity].
    apply Nat.leb_le in Hlo. simpl in Hlo. lia.
Qed.

End IdentifierPattern.

Lemma product_class_not_whitespace (c : ascii) :
  is_alnum c || Ascii.eqb c "-" || Ascii.eqb c "_" = true -> is_whitespace c = false.
Proof. destruct c as [[] [] [] [] [] [] [] []]; vm_compute; congruence. Qed.

Lemma session_class_not_whitespace (c : ascii) :
  is_alnum c || Ascii.eqb c "-" = true -> is_whitespace c = false.
Proof. destruct c as [[] [] [] [] [] [] [] []]; vm_compute; congruence. Qed.

Lemma createProductId_Ok (raw : string) (p : ProductId) :
  ProductId.createProductId raw = Ok p ->
  ProductId.value p = trim raw /\ ProductId.PRODUCT_ID_PATTERN (ProductId.value p) = true.
Proof.
  unfold ProductId.createProductId.
  destruct (falsy raw || is_empty_string (trim raw)); [discriminate |].
  destruct (ProductId.PRODUCT_ID_PATTERN (trim raw)) eqn:Hpat; [| discriminate].
  intros [= <-]. simpl. split; [reflexivity | exact Hpat].
Qed.

Lemma createProductId_accepted (s : string) :
  ProductId.PRODUCT_ID_PATTERN s = true ->
  ProductId.createProductId s = Ok (ProductId.mk s).
Proof.
  intros Hpat.
  destruct (accepted_is_trimmed _ 1 50 product_class_not_whitespace (le_n 1) s Hpat)
    as [Htrim Hne].
  unfold ProductId.createProductId, is_empty_string.
  rewrite Htrim, Hne, Hpat. reflexivity.
Qed.

Lemma createSessionId_Ok (raw : string) (p : SessionId) :
  SessionId.createSessionId raw = Ok p ->
  SessionId.value p = trim raw /\ SessionId.SESSION_ID_PATTERN (SessionId.value p) = true.
Proof.
  unfold SessionId.createSessionId.
  destruct (falsy raw || is_empty_string (trim raw)); [discriminate |].
  destruct (SessionId.SESSION_ID_PATTERN (trim raw)) eqn:Hpat; [| discriminate].
  intros [= <-]. simpl. split; [reflexivity | exact Hpat].
Qed.

Lemma createSessionId_accepted (s : string) :
  SessionId.SESSION_ID_PATTERN s = true ->
  SessionId.createSessionId s = Ok (SessionId.mk s).
Proof.
  intros Hpat.
  destruct (accepted_is_trimmed _ 1 100 session_class_not_whitespace (le_n 1) s Hpat)
    as [Htrim Hne].
  unfold SessionId.createSessionId, is_empty_string.
  rewrite Htrim, Hne, Hpat. reflexivity.
Qed.

(** C9.  Validation is idempotent as a round trip: a value object that a
    create function returned is returned again, unchanged, when the create
    function is applied to the value it carries.  This holds for
    [createProductId], [createSessionId], [createQuantity] and
    [createMoney]. *)
Theorem create_round_trip :
  (forall raw p, ProductId.createProductId raw = Ok p ->
                 ProductId.createProductId (ProductId.value p) = Ok p)
  /\ (forall raw s, SessionId.createSessionId raw = Ok s ->
                    SessionId.createSessionId (SessionId.value s) = Ok s)
  /\ (forall v q, Quantity.createQuantity v = Ok q ->
                  Quantity.createQuantity (inject_Z (Quantity.value q)) = Ok q)
  /\ (forall cents cur m, Money.createMoney cents cur = Ok m ->
        Money.createMoney (inject_Z (Money.amount m)) (Some (Money.currency m)) = Ok m).
Proof.
  repeat split.
  - intros raw [v] H. apply createProductId_Ok in H as [_ Hpat].
    apply createProductId_accepted. exact Hpat.
  - intros raw [v] H. apply createSessionId_Ok in H as [_ Hpat].
    apply createSessionId_accepted. exact Hpat.
  - intros v [z] H. apply createQuantity_Ok in H as [[Hlo Hhi] _]. simpl in *.
    rewrite createQuantity_inject_Z.
    destruct (Z.ltb_spec z 1); [lia |]. destruct (Z.ltb_spec 99 z); [lia | reflexivity].
  - intros cents cur [a c] H. apply createMoney_Ok in H as [Hnn _]. simpl in *.
    rewrite createMoney_inject_Z.
    destruct (Z.ltb_spec a 0); [lia | reflexivity].
Qed.

Lemma create_round_trip_witness :
  ProductId.createProductId (ProductId.value (ProductId.mk "prod-001"))
    = Ok (ProductId.mk "prod-001")
  /\ SessionId.createSessionId (SessionId.value (SessionId.mk "session-123"))
    = Ok (SessionId.mk "session-123")
  /\ Quantity.createQuantity (inject_Z (Quantity.value (Quantity.mk 5)))
    = Ok (Quantity.mk 5)
  /\ Money.createMoney (inject_Z (Money.amount (Money.mk 1000 EUR)))
       (Some (Money.currency (Money.mk 1000 EUR)))
    = Ok (Money.mk 1000 EUR).
Proof.
  destruct create_round_trip as (Hp & Hs & Hq & Hm).
  split; [| split; [| split]].
  - apply (Hp "  prod-001 "%string). vm_compute. reflexivity.
  - apply (Hs " session-123"%string). vm_compute. reflexivity.
  - apply (Hq (10 # 2)%Q). vm_compute. reflexivity.
  - apply (Hm (inject_Z 1000) (Some EUR)). vm_compute. reflexivity.
Defined.

(** ** Status gating and checkout *)

Lemma assertCartIsActive_active (cart : Cart) :
  Cart.status cart = active -> Cart.assertCartIsActive cart = Ok tt.
Proof. intros H. unfold Cart.assertCartIsActive. rewrite H. reflexivity. Qed.

Lemma assertCartIsActive_inactive (cart : Cart) :
  Cart.status cart <> active ->
  exists e, Cart.assertCartIsActive cart = Err e /\ kind e = Kind.CartNotActive.
Proof.
  intros H. unfold Cart.assertCartIsActive.
  destruct (Cart.status cart); [contradiction | |].
  - exists ModifyCheckedOut. split; reflexivity.
  - exists ModifyAbandoned. split; reflexivity.
Qed.

(** C4.  On a cart whose status is not active (checked_out or abandoned),
    each of [addItemToCart], [removeItemFromCart], [updateItemQuantity] and
    [clearCart] fails with CartNotActive, whatever its other arguments; the
    call returns an error and no cart.  (The cart passed in is an immutable
    value, so its items and status are as before.) *)
Theorem mutators_rejected_when_not_active (w : World) (cart : Cart)
    (input : CreateCartItemInput) (itemId : string) (quantity : number) :
  Cart.status cart <> active ->
  fails_with (Cart.addItemToCart w cart input) Kind.CartNotActive
  /\ fails_with (Cart.removeItemFromCart w cart itemId) Kind.CartNotActive
  /\ fails_with (Cart.updateItemQuantity w cart itemId quantity) Kind.CartNotActive
  /\ fails_with (Cart.clearCart w cart) Kind.CartNotActive.
Proof.
  intros H. destruct (assertCartIsActive_inactive cart H) as (e & He & Hk).
  unfold fails_with, Cart.addItemToCart, Cart.removeItemFromCart,
    Cart.updateItemQuantity, Cart.clearCart.
  rewrite He. simpl. repeat split; exists e; split; auto.
Qed.

Lemma mutators_rejected_when_not_active_witness :
  fails_with (Cart.addItemToCart w0 (cart_of [item_of "i1" "p1" 1000 1] checked_out)
                (input_of "p2" 1000 1 "i2")) Kind.CartNotActive
  /\ fails_with (Cart.removeItemFromCart w0 (cart_of [item_of "i1" "p1" 1000 1] checked_out)
                   "i1") Kind.CartNotActive
  /\ fails_with (Cart.updateItemQuantity w0 (cart_of [item_of "i1" "p1" 1000 1] checked_out)
                   "i1" 5%Q) Kind.CartNotActive
  /\ fails_with (Cart.clearCart w0 (cart_of [item_of "i1" "p1" 1000 1] checked_out))
                Kind.CartNotActive.
Proof.
  apply (mutators_rejected_when_not_active w0
           (cart_of [item_of "i1" "p1" 1000 1] checked_out)).
  simpl. discriminate.
Defined.

(** C3 as stated fails: [checkout] throws the same error, with the same
    message, on a checked-out cart and on an abandoned cart. *)
Lemma checkout_error_same_for_both_statuses : ~ checkout_claim_as_stated.
Proof.
  intros (_ & _ & H & _).
  apply (H w0 (cart_of [item_of "i1" "p1" 1000 1] checked_out)
           (cart_of [item_of "i1" "p1" 1000 1] abandoned)
           AlreadyCheckedOut AlreadyCheckedOut); reflexivity.
Qed.

(** C3, amended.  [checkout] on an empty active cart fails with EmptyCart;
    on a cart whose status is checked_out or abandoned it fails with
    CartAlreadyCheckedOut, the same error for both statuses; on a non-empty
    active cart it succeeds and returns a cart whose status is checked_out
    and whose items are unchanged. *)
Theorem checkout_outcomes (w : World) (cart : Cart) :
  (Cart.status cart = active -> Cart.items cart = [] ->
     Cart.checkout w cart = Err CheckoutEmpty /\ kind CheckoutEmpty = Kind.EmptyCart)
  /\ (Cart.status cart <> active ->
       Cart.checkout w cart = Err AlreadyCheckedOut
       /\ kind AlreadyCheckedOut = Kind.CartAlreadyCheckedOut)
  /\ (Cart.status cart = active -> Cart.items cart <> [] ->
       exists cart', Cart.checkout w cart = Ok cart'
                     /\ Cart.status cart' = checked_out
                     /\ Cart.items cart' = Cart.items cart).
Proof.
  unfold Cart.checkout, Cart.canCheckout, Cart.isCartEmpty.
  split; [| split].
  - intros Hs Hnil. rewrite Hs, Hnil. split; reflexivity.
  - intros Hs. destruct (Cart.status cart); [contradiction | |]; split; reflexivity.
  - intros Hs Hne. rewrite Hs. destruct (Cart.items cart) as [| i l]; [contradiction |].
    simpl. eexists. repeat split.
Qed.

Lemma checkout_outcomes_witness :
  Cart.checkout w0 (cart_of [] active) = Err CheckoutEmpty
  /\ Cart.checkout w0 (cart_of [] abandoned) = Err AlreadyCheckedOut
  /\ exists cart', Cart.checkout w0 (cart_of [item_of "i1" "p1" 1000 1] active) = Ok cart'
                    /\ Cart.status cart' = checked_out
                    /\ Cart.items cart' = [item_of "i1" "p1" 1000 1].
Proof.
  split; [| split].
  - apply (checkout_outcomes w0 (cart_of [] active)); reflexivity.
  - apply (checkout_outcomes w0 (cart_of [] abandoned)). simpl. discriminate.
  - apply (checkout_outcomes w0 (cart_of [item_of "i1" "p1" 1000 1] active));
      [reflexivity | simpl; discriminate].
Defined.

(** ** Adding an item *)

Lemma list_find_absent {A} (P : A -> Prop) `{forall x, Decision (P x)} (l : list A) :
  (forall x, x ∈ l -> ~ P x) -> list_find P l = None.
Proof. intros Hl. apply list_find_None. apply Forall_forall. exact Hl. Qed.

(** C6.  On an active cart that holds 20 items, [addItemToCart] with a
    productId that none of the items carries fails with MaxItemsExceeded:
    the call returns an error and no cart, and the cart passed in, an
    immutable value, is as before.  (The twenty items need not even be for
    distinct products.) *)
Theorem add_to_full_cart_rejected (w : World) (cart : Cart) (input : CreateCartItemInput) :
  Cart.status cart = active ->
  length (Cart.items cart) = 20%nat ->
  (forall item, item ∈ Cart.items cart ->
                product_of item <> CreateCartItemInput.productId input) ->
  Cart.addItemToCart w cart input = Err TooManyUniqueItems
  /\ kind TooManyUniqueItems = Kind.MaxItemsExceeded.
Proof.
  intros Hs Hlen Hnew. split; [| reflexivity].
  unfold Cart.addItemToCart.
  rewrite (assertCartIsActive_active cart Hs). simpl.
  rewrite (list_find_absent _ _ Hnew).
  unfold Cart.MAX_UNIQUE_ITEMS. rewrite Hlen.
  destruct (decide (20 <= 20)%nat); [reflexivity | lia].
Qed.

Lemma add_to_full_cart_rejected_witness :
  unique_products twenty_items
  /\ Cart.addItemToCart w0 (cart_of twenty_items active) (input_of "p21" 1000 1 "i21")
     = Err TooManyUniqueItems.
Proof.
  split.
  - unfold unique_products. apply (bool_decide_unpack _). vm_compute. reflexivity.
  - apply (add_to_full_cart_rejected w0 (cart_of twenty_items active)
             (input_of "p21" 1000 1 "i21")).
    + reflexivity.
    + reflexivity.
    + apply Forall_forall. apply (bool_decide_unpack _). vm_compute. reflexivity.
Defined.

Section FilterCount.

Context {A : Type} (P : A -> Prop) `{forall x, Decision (P x)}.

Lemma filter_nil_lookup (l : list A) (i : nat) (x : A) :
  filter P l = [] -> l !! i = Some x -> ~ P x.
Proof.
  intros Hnil Hi Hx.
  assert (x ∈ filter P l) as Hin.
  { apply list_elem_of_filter. split; [exact Hx |]. eapply list_elem_of_lookup_2. exact Hi. }
  rewrite Hnil in Hin. inversion Hin.
Qed.

(** When exactly one element satisfies [P], it sits at one index only. *)
Lemma filter_one_unique (l : list A) :
  length (filter P l) = 1%nat ->
  forall i j x y, l !! i = Some x -> P x -> l !! j = Some y -> P y -> i = j.
Proof.
  induction l as [| a l IH]; intros Hlen i j x y Hi Hx Hj Hy.
  - discriminate.
  - rewrite filter_cons in Hlen. destruct (decide (P a)) as [Ha | Ha].
    + simpl in Hlen. assert (filter P l = []) as Hnil.
      { destruct (filter P l); [reflexivity | discriminate]. }
      destruct i as [| i], j as [| j]; [reflexivity | | |]; simpl in Hi, Hj.
      * exfalso. exact (filter_nil_lookup l j y Hnil Hj Hy).
      * exfalso. exact (filter_nil_lookup l i x Hnil Hi Hx).
      * exfalso. exact (filter_nil_lookup l i x Hnil Hi Hx).
    + destruct i as [| i]; simpl in Hi; [congruence |].
      destruct j as [| j]; simpl in Hj; [congruence |].
      f_equal. exact (IH Hlen i j x y Hi Hx Hj Hy).
Qed.

(** Replacing an element by one that [P] judges alike keeps the count. *)
Lemma filter_length_insert (l : list A) (i : nat) (x y : A) :
  l !! i = Some x -> (P x <-> P y) ->
  length (filter P (<[i := y]> l)) = length (filter P l).
Proof.
  revert i. induction l as [| a l IH]; intros i Hi Hxy; [discriminate |].
  destruct i as [| i]; simpl in *.
  - injection Hi as ->. rewrite !filter_cons.
    destruct (decide (P y)), (decide (P x)); simpl; tauto || reflexivity.
  - rewrite !filter_cons.
    destruct (decide (P a)); simpl; rewrite (IH i Hi Hxy); reflexivity.
Qed.

End FilterCount.

Lemma addQuantity_Ok (a b q : Quantity) :
  Quantity.addQuantity a b = Ok q ->
  valid_quantity q /\ Quantity.value q = Quantity.value a + Quantity.value b.
Proof.
  unfold Quantity.addQuantity.
  destruct (_ <? _); [discriminate |].
  intros H. apply createQuantity_Ok in H as [Hv Hq].
  rewrite toInteger_inject_Z in Hq. split; [exact Hv | exact Hq].
Qed.

(** The merge branch of [addItemToCart], once [findIndex] has found the
    item. *)
Lemma addItemToCart_found (w : World) (cart : Cart) (input : CreateCartItemInput)
    (i : nat) (existing : CartItem) (q : Z) :
  Cart.status cart = active ->
  list_find (fun item => product_of item = CreateCartItemInput.productId input)
            (Cart.items cart) = Some (i, existing) ->
  CreateCartItemInput.quantity input = inject_Z q ->
  1 <= q <= 99 ->
  1 <= Quantity.value (CartItem.quantity existing) ->
  Cart.addItemToCart w cart input
  = if 99 <? Quantity.value (CartItem.quantity existing) + q
    then Err CombinedQuantityTooLarge
    else Ok (Cart.with_items cart
               (<[i := CartItem.updateCartItemQuantity existing
                         (Quantity.mk (Quantity.value (CartItem.quantity existing) + q))]>
                  (Cart.items cart))
               (time w 0)).
Proof.
  intros Hs Hfind Hq Hrange Hprior.
  unfold Cart.addItemToCart.
  rewrite (assertCartIsActive_active cart Hs). simpl.
  unfold product_of in Hfind. rewrite Hfind, Hq, createQuantity_inject_Z.
  destruct (Z.ltb_spec q 1); [lia |]. destruct (Z.ltb_spec 99 q); [lia |].
  simpl. unfold CartItem.increaseCartItemQuantity.
  rewrite addQuantity_valid by (simpl; lia). simpl.
  destruct (99 <? _); reflexivity.
Qed.

(** C1 as stated fails on a cart that holds two items for the product
    ([duplicate_cart], which the operations themselves can build): the first
    one is merged into, the second one stays, and the result has two items
    for the product. *)
Lemma merge_keeps_second_item_for_product : ~ merge_claim_as_stated.
Proof.
  intros H.
  destruct (H w0 duplicate_cart (input_of "p1" 1000 1 "i3") 0%nat
              (item_of "i1" "p1" 1000 2) 1)
    as (cart' & updated & Hadd & Hcount & _).
  - reflexivity.
  - repeat constructor; vm_compute; discriminate.
  - reflexivity.
  - reflexivity.
  - reflexivity.
  - lia.
  - simpl. lia.
  - vm_compute in Hadd. injection Hadd as <-. vm_compute in Hcount. discriminate.
Qed.

(** C1, amended.  For every active cart that holds exactly one item for
    productId P (at any index, the cart may already hold 20 items), that
    item carrying a valid quantity, and every integer q with 1 <= q <= 99:
    if the prior quantity plus q is at most 99, [addItemToCart] with
    productId P and quantity q returns a cart with exactly one item for P,
    at the same index, with the same itemId, productId, unitPrice,
    productName and addedAt, whose quantity is the prior quantity plus q,
    every other item staying where it was; if the sum exceeds 99 the call
    fails with AboveMaximum and returns no cart. *)
Theorem add_existing_product_merges (w : World) (cart : Cart)
    (input : CreateCartItemInput) (i : nat) (existing : CartItem) (q : Z) :
  Cart.status cart = active ->
  Cart.items cart !! i = Some existing ->
  product_of existing = CreateCartItemInput.productId input ->
  count_product (CreateCartItemInput.productId input) (Cart.items cart) = 1%nat ->
  valid_quantity (CartItem.quantity existing) ->
  CreateCartItemInput.quantity input = inject_Z q ->
  1 <= q <= 99 ->
  (Quantity.value (CartItem.quantity existing) + q <= 99 ->
   exists cart' updated,
     Cart.addItemToCart w cart input = Ok cart'
     /\ count_product (CreateCartItemInput.productId input) (Cart.items cart') = 1%nat
     /\ Cart.items cart' !! i = Some updated
     /\ CartItem.itemId updated = CartItem.itemId existing
     /\ CartItem.productId updated = CartItem.productId existing
     /\ CartItem.unitPrice updated = CartItem.unitPrice existing
     /\ CartItem.productName updated = CartItem.productName existing
     /\ CartItem.addedAt updated = CartItem.addedAt existing
     /\ Quantity.value (CartItem.quantity updated)
        = Quantity.value (CartItem.quantity existing) + q
     /\ length (Cart.items cart') = length (Cart.items cart)
     /\ (forall j, j <> i -> Cart.items cart' !! j = Cart.items cart !! j)
     /\ Cart.status cart' = active)
  /\ (99 < Quantity.value (CartItem.quantity existing) + q ->
      Cart.addItemToCart w cart input = Err CombinedQuantityTooLarge
      /\ kind CombinedQuantityTooLarge = Kind.AboveMaximum).
Proof.
  intros Hs Hi HP Hone [Hlo _] Hq Hrange.
  unfold Quantity.MIN_QUANTITY in Hlo.
  assert (list_find (fun item => product_of item = CreateCartItemInput.productId input)
            (Cart.items cart) = Some (i, existing)) as Hfind.
  { apply list_find_Some. split; [exact Hi |]. split; [exact HP |].
    intros j y Hj Hlt Hy.
    pose proof (filter_one_unique _ _ Hone j i y existing Hj Hy Hi HP). lia. }
  pose proof (addItemToCart_found w cart input i existing q Hs Hfind Hq Hrange Hlo) as Hadd.
  split.
  - intros Hsum. destruct (Z.ltb_spec 99 (Quantity.value (CartItem.quantity existing) + q));
      [lia |].
    eexists. eexists. split; [exact Hadd |]. simpl.
    split.
    { unfold count_product in *.
      rewrite (filter_length_insert _ (Cart.items cart) i existing);
        [exact Hone | exact Hi | unfold product_of; simpl; tauto]. }
    split.
    { apply list_lookup_insert_eq. eapply lookup_lt_Some. exact Hi. }
    repeat (split; [reflexivity |]).
    split; [apply length_insert |].
    split; [| exact Hs].
    intros j Hj. apply list_lookup_insert_ne. congruence.
  - intros Hsum. destruct (Z.ltb_spec 99 (Quantity.value (CartItem.quantity existing) + q));
      [| lia].
    split; [exact Hadd | reflexivity].
Qed.

Lemma add_existing_product_merges_witness :
  exists cart' updated,
    Cart.addItemToCart w0 (cart_of twenty_items active) (input_of "aaa" 1000 4 "i21")
    = Ok cart'
    /\ count_product "aaa" (Cart.items cart') = 1%nat
    /\ Cart.items cart' !! 2%nat = Some updated
    /\ CartItem.itemId updated = "aaa"%string
    /\ Quantity.value (CartItem.quantity updated) = 5.
Proof.
  destruct (add_existing_product_merges w0 (cart_of twenty_items active)
              (input_of "aaa" 1000 4 "i21") 2%nat (item_of "aaa" "aaa" 1000 1) 4)
    as [Hmerge _].
  - reflexivity.
  - reflexivity.
  - reflexivity.
  - vm_compute. reflexivity.
  - vm_compute. split; discriminate.
  - reflexivity.
  - lia.
  - destruct Hmerge as (cart' & updated & Hadd & Hcount & Hat & Hid & _ & _ & _ & _ & Hqty & _).
    + simpl. lia.
    + exists cart', updated. repeat split; assumption.
Defined.

(** ** What a successful call returns *)

(** [bind_inv H] case-splits on the first call of a sequence [x ← m; k]
    that hypothesis [H] says returned [Ok]. *)
Ltac bind_inv H :=
  cbv zeta in H; unfold mbind, Result_bind in H;
  lazymatch type of H with
  | match ?m with _ => _ end = Ok _ =>
      let E := fresh "E" in
      destruct m eqn:E; [ cbv beta iota in H | discriminate H ]
  end.

Lemma createCartItem_Ok (w : World) (input : CreateCartItemInput) (item : CartItem) :
  CartItem.createCartItem w input = Ok item ->
  valid_item item
  /\ Money.currency (CartItem.unitPrice item)
     = default USD (CreateCartItemInput.currency input)
  /\ product_of item = trim (CreateCartItemInput.productId input).
Proof.
  unfold CartItem.createCartItem. intros H.
  destruct (_ || _); [discriminate |].
  bind_inv H. bind_inv H. bind_inv H. injection H as <-.
  apply createProductId_Ok in E as [Hp _].
  apply createMoney_Ok in E0 as (Hnn & _ & Hcur).
  apply createQuantity_Ok in E1 as [Hq _].
  unfold valid_item, valid_money, valid_quantity, product_of. simpl. auto.
Qed.

Lemma assertCartIsActive_Ok (cart : Cart) (u : unit) :
  Cart.assertCartIsActive cart = Ok u -> Cart.status cart = active.
Proof.
  unfold Cart.assertCartIsActive.
  destruct (Cart.status cart); simpl; [reflexivity | discriminate | discriminate].
Qed.

Lemma addItemToCart_Ok (w : World) (cart : Cart) (input : CreateCartItemInput) (cart' : Cart) :
  Cart.addItemToCart w cart input = Ok cart' ->
  Cart.status cart = active
  /\ Cart.status cart' = Cart.status cart
  /\ Cart.currency cart' = Cart.currency cart
  /\ ((exists i existing q',
         Cart.items cart !! i = Some existing
         /\ product_of existing = CreateCartItemInput.productId input
         /\ valid_quantity q'
         /\ Cart.items cart'
            = <[i := CartItem.updateCartItemQuantity existing q']> (Cart.items cart))
      \/ ((length (Cart.items cart) < Cart.MAX_UNIQUE_ITEMS)%nat
          /\ exists newItem,
               CartItem.createCartItem w
                 (CreateCartItemInput.with_currency input (Cart.currency cart)) = Ok newItem
               /\ Cart.items cart' = Cart.items cart ++ [newItem])).
Proof.
  unfold Cart.addItemToCart. intros H.
  bind_inv H. apply assertCartIsActive_Ok in E. split; [exact E |].
  destruct (list_find _ _) as [[i existing] |] eqn:Hfind.
  - bind_inv H. unfold CartItem.increaseCartItemQuantity in H.
    bind_inv H. bind_inv E1. injection E1 as <-. injection H as <-. simpl.
    split; [reflexivity |]. split; [reflexivity |]. left.
    apply list_find_Some in Hfind as (Hi & HP & _).
    apply addQuantity_Ok in E2 as [Hv _].
    exists i, existing. eexists.
    split; [exact Hi |]. split; [exact HP |]. split; [| reflexivity]. exact Hv.
  - destruct (decide _) as [Hfull | Hroom]; [discriminate |].
    bind_inv H. injection H as <-. simpl.
    split; [reflexivity |]. split; [reflexivity |]. right.
    split; [lia |]. eexists. split; reflexivity.
Qed.

Lemma removeItemFromCart_Ok (w : World) (cart : Cart) (itemId : string) (cart' : Cart) :
  Cart.removeItemFromCart w cart itemId = Ok cart' ->
  Cart.status cart = active
  /\ Cart.status cart' = Cart.status cart
  /\ Cart.currency cart' = Cart.currency cart
  /\ Cart.items cart'
     = filter (fun item => CartItem.itemId item <> itemId) (Cart.items cart).
Proof.
  unfold Cart.removeItemFromCart. intros H.
  bind_inv H. apply assertCartIsActive_Ok in E. split; [exact E |].
  destruct (list_find _ _); [| discriminate].
  injection H as <-. simpl. auto.
Qed.

Lemma updateItemQuantity_Ok (w : World) (cart : Cart) (itemId : string) (quantity : number)
    (cart' : Cart) :
  Cart.updateItemQuantity w cart itemId quantity = Ok cart' ->
  Cart.status cart = active
  /\ Cart.status cart' = Cart.status cart
  /\ Cart.currency cart' = Cart.currency cart
  /\ exists i existing q',
       Cart.items cart !! i = Some existing
       /\ valid_quantity q'
       /\ Cart.items cart'
          = <[i := CartItem.updateCartItemQuantity existing q']> (Cart.items cart).
Proof.
  unfold Cart.updateItemQuantity. intros H.
  bind_inv H. apply assertCartIsActive_Ok in E. split; [exact E |].
  destruct (list_find _ _) as [[i existing] |] eqn:Hfind; [| discriminate].
  bind_inv H. injection H as <-. simpl.
  split; [reflexivity |]. split; [reflexivity |].
  apply list_find_Some in Hfind as (Hi & _ & _).
  apply createQuantity_Ok in E0 as [Hv _].
  exists i, existing. eexists.
  split; [exact Hi |]. split; [| reflexivity]. exact Hv.
Qed.

Lemma clearCart_Ok (w : World) (cart cart' : Cart) :
  Cart.clearCart w cart = Ok cart' ->
  Cart.status cart = active
  /\ Cart.status cart' = Cart.status cart
  /\ Cart.currency cart' = Cart.currency cart
  /\ Cart.items cart' = [].
Proof.
  unfold Cart.clearCart. intros H.
  bind_inv H. apply assertCartIsActive_Ok in E. split; [exact E |].
  injection H as <-. simpl. auto.
Qed.

Lemma checkout_Ok (w : World) (cart cart' : Cart) :
  Cart.checkout w cart = Ok cart' ->
  Cart.status cart = active
  /\ Cart.status cart' = checked_out
  /\ Cart.currency cart' = Cart.currency cart
  /\ Cart.items cart' = Cart.items cart.
Proof.
  unfold Cart.checkout, Cart.canCheckout. intros H.
  destruct (Cart.status cart) eqn:Hs; simpl in H; try discriminate.
  destruct (Cart.isCartEmpty cart); simpl in H; [discriminate |].
  injection H as <-. simpl. auto.
Qed.

Lemma createCart_Ok (w : World) (sessionId : string) (currency : option Currency)
    (cart : Cart) :
  Cart.createCart w sessionId currency = Ok cart ->
  Cart.status cart = active /\ Cart.items cart = []
  /\ Cart.currency cart = default USD currency.
Proof.
  unfold Cart.createCart. intros H. bind_inv H. injection H as <-. simpl. auto.
Qed.

(** ** The invariant of reachable carts *)

Lemma Forall_filter_keep {A} (Q : A -> Prop) (P : A -> Prop) `{forall x, Decision (P x)}
    (l : list A) :
  Forall Q l -> Forall Q (filter P l).
Proof.
  rewrite !Forall_forall. intros Hl x Hx.
  apply list_elem_of_filter in Hx as [_ Hx]. auto.
Qed.

Lemma coherent_item_update (cur : Currency) (existing : CartItem) (q : Quantity) :
  coherent_item cur existing -> valid_quantity q ->
  coherent_item cur (CartItem.updateCartItemQuantity existing q).
Proof.
  intros [[Hm _] Hc] Hq. unfold coherent_item, valid_item. simpl. auto.
Qed.

Lemma coherent_insert (cart : Cart) (items' : list CartItem) (cur : Currency)
    (i : nat) (existing : CartItem) (q : Quantity) :
  coherent cart -> cur = Cart.currency cart ->
  Cart.items cart !! i = Some existing -> valid_quantity q ->
  items' = <[i := CartItem.updateCartItemQuantity existing q]> (Cart.items cart) ->
  Forall (coherent_item cur) items' /\ (length items' <= Cart.MAX_UNIQUE_ITEMS)%nat.
Proof.
  intros [Hall Hlen] -> Hi Hq ->. split.
  - apply Forall_insert; [exact Hall |].
    apply coherent_item_update; [| exact Hq].
    exact (Forall_lookup_1 _ _ _ _ Hall Hi).
  - rewrite length_insert. exact Hlen.
Qed.

Lemma reachable_coherent (cart : Cart) : reachable cart -> coherent cart.
Proof.
  induction 1 as [w sid cur cart Hc
                 | w cart input cart' _ IH Hop
                 | w cart itemId cart' _ IH Hop
                 | w cart itemId quantity cart' _ IH Hop
                 | w cart cart' _ IH Hop
                 | w cart cart' _ IH Hop].
  - apply createCart_Ok in Hc as (_ & Hitems & _).
    unfold coherent. rewrite Hitems. split; [constructor | simpl; lia].
  - apply addItemToCart_Ok in Hop as (_ & _ & Hcur & [Hmerge | [Hroom Hnew]]).
    + destruct Hmerge as (i & existing & q' & Hi & _ & Hq & Hitems).
      unfold coherent. eapply coherent_insert; eauto.
    + destruct Hnew as (newItem & Hcreate & Hitems).
      apply createCartItem_Ok in Hcreate as (Hvalid & Hmoney & _). simpl in Hmoney.
      destruct IH as [Hall Hlen]. unfold coherent. rewrite Hitems, Hcur. split.
      * apply Forall_app. split; [exact Hall |].
        constructor; [split; assumption | constructor].
      * rewrite length_app. simpl. lia.
  - apply removeItemFromCart_Ok in Hop as (_ & _ & Hcur & Hitems).
    destruct IH as [Hall Hlen]. unfold coherent. rewrite Hitems, Hcur. split.
    + apply Forall_filter_keep. exact Hall.
    + etransitivity; [apply length_filter | exact Hlen].
  - apply updateItemQuantity_Ok in Hop as (_ & _ & Hcur & i & existing & q' & Hi & Hq & Hitems).
    unfold coherent. eapply coherent_insert; eauto.
  - apply clearCart_Ok in Hop as (_ & _ & _ & Hitems).
    unfold coherent. rewrite Hitems. split; [constructor | simpl; lia].
  - apply checkout_Ok in Hop as (_ & _ & Hcur & Hitems).
    unfold coherent. rewrite Hitems, Hcur. exact IH.
Qed.

Lemma reachable_valid_items (cart : Cart) : reachable cart -> valid_items cart.
Proof.
  intros H. apply reachable_coherent in H as [Hall _].
  eapply Forall_impl; [exact Hall |]. intros item [Hv _]. exact Hv.
Qed.

Lemma reachable_at_most_20_items (cart : Cart) :
  reachable cart -> (length (Cart.items cart) <= 20)%nat.
Proof. intros H. apply reachable_coherent in H as [_ Hlen]. exact Hlen. Qed.

Lemma duplicate_cart_reachable : reachable duplicate_cart.
Proof.
  eapply (reach_add w0 _ (input_of " p1" 1000 3 "i2")).
  - eapply (reach_add w0 _ (input_of "p1" 1000 2 "i1")).
    + eapply (reach_create w0 "s1" None). vm_compute. reflexivity.
    + vm_compute. reflexivity.
  - vm_compute. reflexivity.
Qed.

(** C2, the defect.  After [addItemToCart] with productId "p1", a second
    [addItemToCart] whose productId is " p1" (a leading space) does not find
    the item, because the stored, trimmed value is compared with the
    untrimmed input, and appends a second item whose productId is again
    "p1": a cart reachable from [createCart] holds two items for one
    product.  (The bound of 20 items does hold, see
    [reachable_at_most_20_items].) *)
Theorem untrimmed_productId_adds_duplicate :
  (c0 ← Cart.createCart w0 "s1" None;
   c1 ← Cart.addItemToCart w0 c0 (input_of "p1" 1000 2 "i1");
   Cart.addItemToCart w0 c1 (input_of " p1" 1000 3 "i2")) = Ok duplicate_cart
  /\ map product_of (Cart.items duplicate_cart) = ["p1"; "p1"]%string
  /\ reachable duplicate_cart
  /\ ~ unique_products (Cart.items duplicate_cart)
  /\ ~ cart_invariants_claim.
Proof.
  assert (~ unique_products (Cart.items duplicate_cart)) as Hdup.
  { unfold unique_products. simpl. intros Hnd. inversion Hnd as [| x l Hnotin _]; subst.
    apply Hnotin. constructor. }
  split; [vm_compute; reflexivity |]. split; [reflexivity |].
  split; [exact duplicate_cart_reachable |]. split; [exact Hdup |].
  intros Hclaim. apply Hdup. apply Hclaim. exact duplicate_cart_reachable.
Qed.

(** ** Totals *)

Lemma zeroMoney_Some (cur : Currency) :
  Money.zeroMoney (Some cur) = Ok (Money.mk 0 cur).
Proof. reflexivity. Qed.

Lemma fold_total_Err (items : list CartItem) (e : Error) :
  fold_left total_step items (Err e) = Err e.
Proof. induction items as [| item rest IH]; simpl; [reflexivity | exact IH]. Qed.

Lemma fold_total_Ok (items : list CartItem) (total : Money) :
  fold_left total_step items (Ok total) = add_line_totals total items.
Proof.
  revert total. induction items as [| item rest IH]; intros total; [reflexivity |].
  cbn [fold_left add_line_totals].
  assert (total_step (Ok total) item
          = (lineTotal ← CartItem.calculateLineTotal item; Money.addMoney total lineTotal))
    as -> by reflexivity.
  destruct (CartItem.calculateLineTotal item) as [lineTotal | e]; simpl.
  - destruct (Money.addMoney total lineTotal) as [total' | e]; simpl.
    + apply IH.
    + apply fold_total_Err.
  - apply fold_total_Err.
Qed.

Lemma calculateCartTotal_fold (cart : Cart) :
  Cart.calculateCartTotal cart
  = (zero ← Money.zeroMoney (Some (Cart.currency cart));
     add_line_totals zero (Cart.items cart)).
Proof.
  unfold Cart.calculateCartTotal. rewrite zeroMoney_Some. simpl.
  apply (fold_total_Ok (Cart.items cart)).
Qed.

Lemma fold_count (items : list CartItem) (count : Z) :
  fold_left (fun count item => count + Quantity.value (CartItem.quantity item)) items count
  = count + sum_quantities items.
Proof.
  revert count. induction items as [| item rest IH]; intros count; simpl; [lia |].
  rewrite IH. lia.
Qed.

Lemma calculateLineTotal_valid (item : CartItem) :
  valid_item item ->
  CartItem.calculateLineTotal item
  = Ok (Money.mk (Money.amount (CartItem.unitPrice item)
                  * Quantity.value (CartItem.quantity item))
                 (Money.currency (CartItem.unitPrice item))).
Proof.
  intros [Hm [Hlo _]]. unfold valid_money, Quantity.MIN_QUANTITY in *.
  unfold CartItem.calculateLineTotal. rewrite multiplyMoney_inject_Z.
  destruct (Z.ltb_spec (Quantity.value (CartItem.quantity item)) 0); [lia |].
  destruct (Z.ltb_spec (Money.amount (CartItem.unitPrice item)
                        * Quantity.value (CartItem.quantity item)) 0); [nia | reflexivity].
Qed.

Lemma sum_line_totals_nonneg (items : list CartItem) :
  Forall valid_item items -> 0 <= sum_line_totals items.
Proof.
  induction 1 as [| item rest [Hm [Hlo _]] _ IH]; simpl; [lia |].
  unfold valid_money, Quantity.MIN_QUANTITY in *. nia.
Qed.

Lemma add_line_totals_coherent (cur : Currency) (items : list CartItem) (total : Money) :
  Forall (coherent_item cur) items ->
  0 <= Money.amount total -> Money.currency total = cur ->
  add_line_totals total items
  = Ok (Money.mk (Money.amount total + sum_line_totals items) cur).
Proof.
  intros Hall. revert total.
  induction Hall as [| item rest [Hv Hc] Hrest IH]; intros total Hnn Hcur; simpl.
  - destruct total as [a c]. simpl in *. subst c. rewrite Z.add_0_r. reflexivity.
  - rewrite (calculateLineTotal_valid item Hv). simpl.
    pose proof Hv as [Hm [Hlo _]]. unfold valid_money, Quantity.MIN_QUANTITY in *.
    rewrite addMoney_same; simpl; [| congruence | exact Hnn | nia].
    rewrite IH; simpl; [| nia | exact Hcur].
    f_equal. f_equal. lia.
Qed.


(** ** Currency of reachable carts *)

Lemma calculateCartTotal_coherent (cart : Cart) :
  coherent cart ->
  Cart.calculateCartTotal cart
  = Ok (Money.mk (sum_line_totals (Cart.items cart)) (Cart.currency cart)).
Proof.
  intros [Hall _].
  rewrite calculateCartTotal_fold, zeroMoney_Some. simpl.
  rewrite (add_line_totals_coherent (Cart.currency cart)); [reflexivity | exact Hall | |];
    simpl; [lia | reflexivity].
Qed.



(** ** Binary64 arithmetic *)

Lemma round_nearest_even_exact (M D : Z) :
  0 < D -> Binary64.round_nearest_even (M * D) D = M.
Proof.
  intros HD. unfold Binary64.round_nearest_even.
  rewrite Z.mod_mul, Z.div_mul by lia. simpl.
  destruct D; try lia; reflexivity.
Qed.

Lemma round_nearest_even_bounds (N D M : Z) :
  0 <= N -> 0 < D -> N <= M * D ->
  0 <= Binary64.round_nearest_even N D <= M.
Proof.
  intros HN HD HM. unfold Binary64.round_nearest_even.
  pose proof (Z.div_mod N D ltac:(lia)) as Hdm.
  pose proof (Z.mod_pos_bound N D HD) as Hr.
  assert (0 <= N / D) as Hf by (apply Z.div_pos; lia).
  assert (N / D <= M) as HfM by (apply Z.div_le_upper_bound; lia).
  assert (0 < N mod D -> N / D + 1 <= M) as Hup.
  { intros Hpos. destruct (Z.lt_ge_cases (N / D) M) as [| Hge]; [lia | exfalso]. nia. }
  destruct (Z.compare_spec (2 * (N mod D)) D) as [He | Hl | Hg].
  - destruct (Z.even (N / D)); lia.
  - lia.
  - lia.
Qed.

Lemma round_nearest_even_lower (N D M : Z) :
  0 < D -> M * D <= N -> M <= Binary64.round_nearest_even N D.
Proof.
  intros HD HM. unfold Binary64.round_nearest_even.
  assert (M <= N / D) as Hf by (apply Z.div_le_lower_bound; lia).
  destruct (2 * (N mod D) ?= D); [destruct (Z.even (N / D)) | |]; lia.
Qed.

Lemma floor_log2_lower (n d : Z) :
  0 < n -> 0 < d -> 0 <= Binary64.floor_log2 n d ->
  d * 2 ^ Binary64.floor_log2 n d <= n.
Proof.
  intros Hn Hd. unfold Binary64.floor_log2.
  set (k := Z.log2 n - Z.log2 d).
  destruct (Z.ltb_spec (n * 2 ^ Z.max 0 (- k)) (d * 2 ^ Z.max 0 k)) as [Hlt | Hge]; intros Hk.
  - pose proof (Z.log2_spec n Hn) as [Hlo _].
    pose proof (Z.log2_spec d Hd) as [_ Hhi].
    pose proof (Z.log2_nonneg d) as Hd0.
    assert (2 ^ Z.log2 n = 2 ^ (k - 1) * 2 ^ (Z.succ (Z.log2 d))) as Hsplit.
    { rewrite <- Z.pow_add_r by lia. f_equal. unfold k. lia. }
    assert (0 < 2 ^ (k - 1)) by (apply Z.pow_pos_nonneg; lia).
    nia.
  - rewrite (Z.max_l 0 (- k)) in Hge by lia. rewrite (Z.max_r 0 k) in Hge by lia.
    rewrite Z.pow_0_r, Z.mul_1_r in Hge. exact Hge.
Qed.

(** Below 2^53 the unit in the last place is at most 1. *)
Lemma exponent_safe (n d : Z) :
  0 < n -> 0 < d -> n <= Binary64.MAX_SAFE_INTEGER * d ->
  -1074 <= Z.max (Binary64.floor_log2 n d - 52) (-1074) <= 0.
Proof.
  intros Hn Hd Hs. split; [lia |].
  apply Z.max_lub; [| lia].
  destruct (Z.le_gt_cases (Binary64.floor_log2 n d) 52) as [| Hbig]; [lia | exfalso].
  pose proof (floor_log2_lower n d Hn Hd ltac:(lia)) as Hlo.
  assert (2 ^ 53 <= 2 ^ Binary64.floor_log2 n d) as Hpow by (apply Z.pow_le_mono_r; lia).
  unfold Binary64.MAX_SAFE_INTEGER in Hs. nia.
Qed.

Lemma round_positive_safe (n d : Z) :
  0 < n -> 0 < d -> n <= Binary64.MAX_SAFE_INTEGER * d ->
  exists e m,
    -1074 <= e <= 0
    /\ m = Binary64.round_nearest_even (n * 2 ^ (- e)) d
    /\ Binary64.round_positive n d = Binary64.Finite (Qred (m # Z.to_pos (2 ^ (- e)))).
Proof.
  intros Hn Hd Hs. pose proof (exponent_safe n d Hn Hd Hs) as He.
  unfold Binary64.round_positive. cbv zeta.
  remember (Z.max (Binary64.floor_log2 n d - 52) (-1074)) as e eqn:Ee. clear Ee.
  exists e, (Binary64.round_nearest_even (n * 2 ^ (- e)) d).
  split; [exact He |]. split; [reflexivity |].
  rewrite (Z.max_l 0 e) by lia. rewrite (Z.max_r 0 (- e)) by lia.
  rewrite Z.pow_0_r, !Z.mul_1_r.
  assert ((0 <=? e)
          && (2 ^ 1024 <=? Binary64.round_nearest_even (n * 2 ^ (- e)) d * 2 ^ e) = false)
    as ->; [| reflexivity].
  destruct (Z.leb_spec 0 e) as [H0 |]; [| reflexivity].
  assert (e = 0) as -> by lia. simpl Z.opp. rewrite !Z.pow_0_r, !Z.mul_1_r.
  pose proof (round_nearest_even_bounds n d Binary64.MAX_SAFE_INTEGER ltac:(lia) Hd Hs) as Hb.
  apply Z.leb_gt. assert (Binary64.MAX_SAFE_INTEGER < 2 ^ 1024) by reflexivity. lia.
Qed.

Lemma Qred_inject_Z (q : Q) (z : Z) : (q == inject_Z z)%Q -> Qred q = inject_Z z.
Proof.
  intros H. rewrite (Qred_complete _ _ H). unfold inject_Z, Qred.
  pose proof (Z.ggcd_gcd z 1) as Hg. pose proof (Z.ggcd_correct_divisors z 1) as Hd.
  destruct (Z.ggcd z 1) as [g [a b]]. simpl in *.
  rewrite Z.gcd_1_r in Hg. subst g. destruct Hd as [Ha Hb].
  replace a with z by lia. replace b with 1 by lia. reflexivity.
Qed.

(** The safe integers are doubles. *)
Lemma nearest_of_Z (z : Z) :
  0 <= z <= Binary64.MAX_SAFE_INTEGER -> Binary64.nearest (inject_Z z) = Binary64.of_Z z.
Proof.
  intros [H0 Hs]. unfold Binary64.nearest. simpl Qnum. simpl Qden.
  destruct z as [| p | p]; [reflexivity | | lia].
  destruct (round_positive_safe (Zpos p) 1 ltac:(lia) ltac:(lia) ltac:(lia))
    as (e & m & He & Hm & ->).
  unfold Binary64.of_Z. f_equal. apply Qred_inject_Z.
  rewrite Hm. replace (Z.pos p * 2 ^ (- e)) with ((Z.pos p * 2 ^ (- e)) * 1) by lia.
  rewrite round_nearest_even_exact by lia.
  assert (0 < 2 ^ (- e)) as Hpow by (apply Z.pow_pos_nonneg; lia).
  unfold Qeq. simpl. rewrite Z2Pos.id by exact Hpow. lia.
Qed.

(** Rounding does not cross an integer: the double nearest to [x] lies
    between any two safe integers that [x] lies between. *)
Lemma nearest_bounds (x : Q) (lo hi : Z) :
  0 <= lo -> (inject_Z lo <= x)%Q -> (x <= inject_Z hi)%Q ->
  hi <= Binary64.MAX_SAFE_INTEGER ->
  exists y, Binary64.nearest x = Binary64.Finite y
            /\ (inject_Z lo <= y)%Q /\ (y <= inject_Z hi)%Q.
Proof.
  intros H0 Hlo Hhi Hs. destruct x as [n d]. unfold Qle in Hlo, Hhi. simpl in Hlo, Hhi.
  rewrite Z.mul_1_r in Hhi.
  unfold Binary64.nearest. simpl Qnum. simpl Qden.
  destruct n as [| p | p]; [| | lia].
  - exists 0%Q. split; [reflexivity |]. unfold Qle. simpl. split; lia.
  - assert (0 <= hi) as Hhi0 by nia.
    destruct (round_positive_safe (Zpos p) (Zpos d) ltac:(lia) ltac:(lia))
      as (e & m & He & Hm & ->).
    { unfold Binary64.MAX_SAFE_INTEGER in *. nia. }
    eexists. split; [reflexivity |].
    assert (0 < 2 ^ (- e)) as Hpow by (apply Z.pow_pos_nonneg; lia).
    pose proof (round_nearest_even_bounds (Zpos p * 2 ^ (- e)) (Zpos d) (hi * 2 ^ (- e))
                  ltac:(nia) ltac:(lia) ltac:(nia)) as Hb.
    pose proof (round_nearest_even_lower (Zpos p * 2 ^ (- e)) (Zpos d) (lo * 2 ^ (- e))
                  ltac:(lia) ltac:(nia)) as Hl.
    rewrite <- Hm in Hb, Hl.
    rewrite !Qred_correct. unfold Qle. simpl. rewrite Z2Pos.id by exact Hpow.
    split; nia.
Qed.

Lemma Math_round_bounds (y : Q) (lo hi : Z) :
  (inject_Z lo <= y)%Q -> (y <= inject_Z hi)%Q -> lo <= Math_round y <= hi.
Proof.
  intros Hlo Hhi. unfold Math_round. split.
  - rewrite <- (Qfloor_Z lo). apply Qfloor_resp_le. lra.
  - assert (Qfloor (y + (1 # 2)) < hi + 1); [| lia].
    rewrite Zlt_Qlt. eapply Qle_lt_trans; [apply Qfloor_le |].
    rewrite inject_Z_plus. change (inject_Z 1) with 1%Q. lra.
Qed.

Lemma add_of_Z (a b : Z) :
  0 <= a + b <= Binary64.MAX_SAFE_INTEGER ->
  Binary64.add (Binary64.of_Z a) (Binary64.of_Z b) = Binary64.of_Z (a + b).
Proof.
  intros H. unfold Binary64.add, Binary64.of_Z.
  replace (inject_Z a + inject_Z b)%Q with (inject_Z (a + b)).
  - apply nearest_of_Z. exact H.
  - unfold Qplus, inject_Z. simpl. rewrite !Z.mul_1_r. reflexivity.
Qed.

Lemma sub_of_Z (a b : Z) :
  0 <= a - b <= Binary64.MAX_SAFE_INTEGER ->
  Binary64.sub (Binary64.of_Z a) (Binary64.of_Z b) = Binary64.of_Z (a - b).
Proof.
  intros H. unfold Binary64.sub, Binary64.add, Binary64.opp, Binary64.of_Z.
  replace (inject_Z a + - inject_Z b)%Q with (inject_Z (a - b)).
  - apply nearest_of_Z. exact H.
  - unfold Qplus, Qopp, inject_Z. simpl. rewrite !Z.mul_1_r. reflexivity.
Qed.

Lemma mul_of_Z (a b : Z) :
  0 <= a * b <= Binary64.MAX_SAFE_INTEGER ->
  Binary64.mul (Binary64.of_Z a) (Binary64.of_Z b) = Binary64.of_Z (a * b).
Proof.
  intros H. unfold Binary64.mul, Binary64.of_Z.
  change (inject_Z a * inject_Z b)%Q with (inject_Z (a * b)).
  apply nearest_of_Z. exact H.
Qed.

Lemma lt_of_Z (a b : Z) : Binary64.lt (Binary64.of_Z a) (Binary64.of_Z b) = (a <? b).
Proof. apply number_lt_inject_Z. Qed.

Lemma Number_isInteger_of_Z (z : Z) : Binary64.Number_isInteger (Binary64.of_Z z) = true.
Proof. apply Number_isInteger_inject_Z. Qed.


(** The tax for a rate between 0 and 1: an integer between 0 and the
    subtotal, between the exact product rounded down and rounded up. *)
Lemma tax_bounds (subtotal : Z) (rate : Q) :
  0 <= subtotal <= Binary64.MAX_SAFE_INTEGER -> (0 <= rate)%Q -> (rate <= 1)%Q ->
  exists tax,
    Binary64.Math_round (Binary64.mul (Binary64.of_Z subtotal) (Binary64.Finite rate))
    = Binary64.of_Z tax
    /\ 0 <= tax <= subtotal
    /\ Qfloor (inject_Z subtotal * rate) <= tax <= Qceiling (inject_Z subtotal * rate).
Proof.
  intros [H0 Hs] Hr0 Hr1.
  assert (0 <= inject_Z subtotal)%Q as Hq0.
  { change 0%Q with (inject_Z 0). rewrite <- Zle_Qle. exact H0. }
  assert (0 <= inject_Z subtotal * rate)%Q as Hx0 by (apply Qmult_le_0_compat; assumption).
  assert (inject_Z subtotal * rate <= inject_Z subtotal)%Q as Hx1.
  { rewrite <- (Qmult_1_r (inject_Z subtotal)) at 2.
    rewrite !(Qmult_comm (inject_Z subtotal)).
    apply Qmult_le_compat_r; assumption. }
  set (x := (inject_Z subtotal * rate)%Q) in *.
  assert (0 <= Qfloor x) as Hf0 by (apply Qfloor_nonneg; exact Hx0).
  assert (Qceiling x <= subtotal) as Hc1.
  { rewrite <- (Qceiling_Z subtotal). apply Qceiling_resp_le. exact Hx1. }
  destruct (nearest_bounds x (Qfloor x) (Qceiling x) Hf0 (Qfloor_le x) (Qle_ceiling x)
              ltac:(lia)) as (y & Hy & Hlo & Hhi).
  pose proof (Math_round_bounds y _ _ Hlo Hhi) as Hb.
  exists (Math_round y). split; [| lia].
  unfold Binary64.mul, Binary64.of_Z. fold x. rewrite Hy. reflexivity.
Qed.

(** On the sample doubles, two by two, [add] and [mul] return what the
    Standard Library's specification of binary64 returns. *)
Example add_and_mul_agree_with_SpecFloat :
  forallb (valid_binary 53 1024) Binary64.sample_floats
  && forallb
    (fun x =>
       forallb
         (fun y =>
            Binary64.same (Binary64.of_spec_float (SFadd 53 1024 x y))
              (Binary64.add (Binary64.of_spec_float x) (Binary64.of_spec_float y))
            && Binary64.same (Binary64.of_spec_float (SFmul 53 1024 x y))
                 (Binary64.mul (Binary64.of_spec_float x) (Binary64.of_spec_float y)))
         Binary64.sample_floats)
    Binary64.sample_floats
  = true.
Proof. vm_compute. reflexivity. Qed.

Example literals_agree_with_SpecFloat :
  Binary64.nearest (35 # 100)
  = Binary64.of_spec_float (S754_finite false 6305039478318694 (-54))
  /\ Binary64.nearest (145 # 1000)
     = Binary64.of_spec_float (S754_finite false 5224175567749775 (-55))
  /\ Binary64.nearest (1 # 10)
     = Binary64.of_spec_float (S754_finite false 7205759403792794 (-56))
  /\ Binary64.nearest (inject_Z (10 ^ 308))
     = Binary64.of_spec_float (S754_finite false 5010420900022432 971).
Proof. vm_compute. repeat split; reflexivity. Qed.

(** The rounding at work: beyond the safe integers sums and products are
    not exact, and from 2^1024 on they are Infinity. *)
Example sum_beyond_the_safe_integers :
  Binary64.add (Binary64.of_Z (2 ^ 53)) (Binary64.of_Z 1) = Binary64.of_Z (2 ^ 53).
Proof. vm_compute. reflexivity. Qed.

Example product_beyond_the_safe_integers :
  Binary64.mul (Binary64.of_Z (2 ^ 53 - 1)) (Binary64.of_Z 3)
  = Binary64.of_Z (3 * (2 ^ 53 - 1) - 1).
Proof. vm_compute. reflexivity. Qed.

Example product_beyond_the_largest_double :
  Binary64.nearest (inject_Z price_1e308) = Binary64.of_Z price_1e308
  /\ Binary64.mul (Binary64.of_Z price_1e308) (Binary64.of_Z 2) = Binary64.Infinity false
  /\ Binary64.add (Binary64.of_Z price_1e308) (Binary64.of_Z price_1e308)
     = Binary64.Infinity false
  /\ Binary64.mul (Binary64.Infinity false) Binary64.zero = Binary64.NaN.
Proof. vm_compute. repeat split; reflexivity. Qed.

(** [10 * 0.35] is [3.5], although the number [0.35] is less than 35/100;
    [100 * 0.145] is less than [14.5]. *)
Example products_with_a_decimal_rate :
  (Binary64.literal (35 # 100) < 35 # 100)%Q
  /\ Binary64.mul (Binary64.of_Z 10) (Binary64.Finite (Binary64.literal (35 # 100)))
     = Binary64.Finite (7 # 2)
  /\ exists p,
       Binary64.mul (Binary64.of_Z 100) (Binary64.Finite (Binary64.literal (145 # 1000)))
       = Binary64.Finite p
       /\ (p < 29 # 2)%Q.
Proof.
  split; [vm_compute; reflexivity |]. split; [vm_compute; reflexivity |].
  eexists. split; [vm_compute; reflexivity | vm_compute; reflexivity].
Qed.

(** ** Money over binary64 *)


Lemma createMoney64_of_Z (z : Z) (c : Currency) :
  Money64.createMoney (Binary64.of_Z z) (Some c)
  = if z <? 0 then Err MoneyNegative else Ok (Money64.mk (Binary64.of_Z z) c).
Proof.
  unfold Money64.createMoney.
  rewrite Number_isInteger_of_Z. simpl negb. cbv iota.
  change Binary64.zero with (Binary64.of_Z 0). rewrite lt_of_Z. reflexivity.
Qed.





(** [createMoneyFromDollars(19.99)] is 1999 cents; [1.005 * 100] is less
    than 100.5, so that [createMoneyFromDollars(1.005)] is 100 cents. *)
Example money_from_dollars_rounds_the_double_product :
  Money64.createMoneyFromDollars (Binary64.nearest (1999 # 100)) None
  = Ok (Money64.mk (Binary64.of_Z 1999) USD)
  /\ Money64.createMoneyFromDollars (Binary64.nearest (1005 # 1000)) None
     = Ok (Money64.mk (Binary64.of_Z 100) USD).
Proof. split; vm_compute; reflexivity. Qed.

(** Within the safe integers the arithmetic of the integers is the
    arithmetic of the code. *)
Lemma addMoney_exact (a b : Money) :
  valid_money a -> valid_money b ->
  Money.amount a + Money.amount b <= Binary64.MAX_SAFE_INTEGER ->
  Money64.addMoney (Money64.of_Money a) (Money64.of_Money b)
  = Money64.of_Result (Money.addMoney a b).
Proof.
  unfold valid_money. intros Ha Hb Hs.
  unfold Money64.addMoney, Money.addMoney, Money64.of_Money.
  cbn [Money64.amount Money64.currency].
  destruct (decide (Money.currency a <> Money.currency b)); [reflexivity |].
  rewrite add_of_Z by lia. rewrite createMoney64_of_Z, createMoney_inject_Z.
  destruct (Money.amount a + Money.amount b <? 0); reflexivity.
Qed.

Lemma subtractMoney_exact (a b : Money) :
  valid_money a -> valid_money b ->
  Money.amount a <= Binary64.MAX_SAFE_INTEGER ->
  Money64.subtractMoney (Money64.of_Money a) (Money64.of_Money b)
  = Money64.of_Result (Money.subtractMoney a b).
Proof.
  unfold valid_money. intros Ha Hb Hs.
  unfold Money64.subtractMoney, Money.subtractMoney, Money64.of_Money.
  cbn [Money64.amount Money64.currency].
  destruct (decide (Money.currency a <> Money.currency b)); [reflexivity |].
  rewrite lt_of_Z. destruct (Z.ltb_spec (Money.amount a) (Money.amount b)); [reflexivity |].
  rewrite sub_of_Z by lia. rewrite createMoney64_of_Z, createMoney_inject_Z.
  destruct (Money.amount a - Money.amount b <? 0); reflexivity.
Qed.

Lemma multiplyMoney_exact (m : Money) (q : Z) :
  valid_money m ->
  Money.amount m * q <= Binary64.MAX_SAFE_INTEGER ->
  Money64.multiplyMoney (Money64.of_Money m) (Binary64.of_Z q)
  = Money64.of_Result (Money.multiplyMoney m (inject_Z q)).
Proof.
  unfold valid_money. intros Hm Hs. rewrite multiplyMoney_inject_Z.
  unfold Money64.multiplyMoney, Money64.of_Money. change Binary64.zero with (Binary64.of_Z 0).
  rewrite lt_of_Z. destruct (Z.ltb_spec q 0); [reflexivity |].
  rewrite Number_isInteger_of_Z. simpl negb. cbv iota.
  cbn [Money64.amount Money64.currency].
  rewrite mul_of_Z by nia. rewrite createMoney64_of_Z.
  destruct (Money.amount m * q <? 0); reflexivity.
Qed.

Lemma calculateLineTotal64_valid (item : CartItem) :
  valid_item item ->
  Money.amount (CartItem.unitPrice item) * Quantity.value (CartItem.quantity item)
    <= Binary64.MAX_SAFE_INTEGER ->
  CartItem64.calculateLineTotal item
  = Ok (Money64.mk
          (Binary64.of_Z (Money.amount (CartItem.unitPrice item)
                          * Quantity.value (CartItem.quantity item)))
          (Money.currency (CartItem.unitPrice item))).
Proof.
  intros Hv Hs. unfold CartItem64.calculateLineTotal.
  rewrite (multiplyMoney_exact _ _ (proj1 Hv) Hs).
  fold (CartItem.calculateLineTotal item). rewrite (calculateLineTotal_valid item Hv).
  reflexivity.
Qed.


Lemma fold_total64_coherent (cur : Currency) (items : list CartItem) (total : Z) :
  Forall (coherent_item cur) items ->
  0 <= total -> total + sum_line_totals items <= Binary64.MAX_SAFE_INTEGER ->
  fold_left total_step64 items (Ok (Money64.mk (Binary64.of_Z total) cur))
  = Ok (Money64.mk (Binary64.of_Z (total + sum_line_totals items)) cur).
Proof.
  intros Hall. revert total.
  induction Hall as [| item rest [Hv Hc] Hrest IH]; intros total Hnn Hs;
    cbn [fold_left sum_line_totals] in *.
  - rewrite Z.add_0_r. reflexivity.
  - assert (Forall valid_item rest) as Hvrest.
    { eapply Forall_impl; [exact Hrest |]. intros i [Hi _]. exact Hi. }
    pose proof (sum_line_totals_nonneg rest Hvrest) as Hrest0.
    pose proof Hv as [Hm [Hlo _]]. unfold valid_money, Quantity.MIN_QUANTITY in Hm, Hlo.
    assert (0 <= Money.amount (CartItem.unitPrice item)
                 * Quantity.value (CartItem.quantity item)) as Hline by nia.
    assert (total_step64 (Ok (Money64.mk (Binary64.of_Z total) cur)) item
            = Ok (Money64.mk
                    (Binary64.of_Z
                       (total + Money.amount (CartItem.unitPrice item)
                                * Quantity.value (CartItem.quantity item))) cur)) as ->.
    { unfold total_step64. cbn [mbind Result_bind].
      rewrite (calculateLineTotal64_valid item Hv) by lia. cbn [mbind Result_bind].
      unfold Money64.addMoney. cbn [Money64.amount Money64.currency]. rewrite Hc.
      destruct (decide (cur <> cur)); [contradiction |].
      rewrite add_of_Z by lia. rewrite createMoney64_of_Z.
      destruct (Z.ltb_spec (total + Money.amount (CartItem.unitPrice item)
                                    * Quantity.value (CartItem.quantity item)) 0);
        [lia | reflexivity]. }
    rewrite IH by lia. f_equal. f_equal. f_equal. lia.
Qed.

Lemma calculateCartTotal64_coherent (cart : Cart) :
  coherent cart ->
  sum_line_totals (Cart.items cart) <= Binary64.MAX_SAFE_INTEGER ->
  Cart64.calculateCartTotal cart
  = Ok (Money64.mk (Binary64.of_Z (sum_line_totals (Cart.items cart))) (Cart.currency cart)).
Proof.
  intros [Hall _] Hs. unfold Cart64.calculateCartTotal.
  change (fold_left total_step64 (Cart.items cart)
            (Money64.zeroMoney (Some (Cart.currency cart)))
          = Ok (Money64.mk (Binary64.of_Z (sum_line_totals (Cart.items cart)))
                           (Cart.currency cart))).
  assert (Money64.zeroMoney (Some (Cart.currency cart))
          = Ok (Money64.mk (Binary64.of_Z 0) (Cart.currency cart))) as -> by reflexivity.
  rewrite (fold_total64_coherent (Cart.currency cart)); [reflexivity | exact Hall | lia | lia].
Qed.


(** ** The checkout result *)

Lemma mapM_cons {A B} (f : A -> Result B) (x : A) (l : list A) :
  mapM f (x :: l) = (y ← f x; k ← mapM f l; Ok (y :: k)).
Proof. reflexivity. Qed.

Lemma toLineItem_valid (item : CartItem) :
  valid_item item ->
  Money.amount (CartItem.unitPrice item) * Quantity.value (CartItem.quantity item)
    <= Binary64.MAX_SAFE_INTEGER ->
  CheckoutResult.toLineItem item = Ok (line_of item).
Proof.
  intros Hv Hs. unfold CheckoutResult.toLineItem.
  rewrite (calculateLineTotal64_valid item Hv Hs). reflexivity.
Qed.

Lemma mapM_toLineItem_valid (items : list CartItem) :
  Forall valid_item items ->
  sum_line_totals items <= Binary64.MAX_SAFE_INTEGER ->
  mapM CheckoutResult.toLineItem items = Ok (map line_of items).
Proof.
  induction 1 as [| item rest Hv Hrest IH]; intros Hs; [reflexivity |].
  pose proof (sum_line_totals_nonneg rest Hrest) as Hrest0.
  pose proof Hv as [Hm [Hlo _]]. unfold valid_money, Quantity.MIN_QUANTITY in Hm, Hlo.
  simpl in Hs.
  rewrite mapM_cons, (toLineItem_valid item Hv) by nia.
  rewrite IH by nia. reflexivity.
Qed.

Lemma fold_lines_total (items : list CartItem) (acc : Z) :
  Forall valid_item items ->
  0 <= acc -> acc + sum_line_totals items <= Binary64.MAX_SAFE_INTEGER ->
  fold_left (fun sum item => Binary64.add sum (CheckoutLineItem.lineTotalInCents item))
            (map line_of items) (Binary64.of_Z acc)
  = Binary64.of_Z (acc + sum_line_totals items).
Proof.
  intros Hall. revert acc.
  induction Hall as [| item rest Hv Hrest IH]; intros acc Hacc Hs;
    cbn [fold_left map sum_line_totals] in *.
  - rewrite Z.add_0_r. reflexivity.
  - pose proof (sum_line_totals_nonneg rest Hrest) as Hrest0.
    pose proof Hv as [Hm [Hlo _]]. unfold valid_money, Quantity.MIN_QUANTITY in Hm, Hlo.
    change (CheckoutLineItem.lineTotalInCents (line_of item))
      with (Binary64.of_Z (Money.amount (CartItem.unitPrice item)
                           * Quantity.value (CartItem.quantity item))).
    rewrite add_of_Z by nia. rewrite IH by nia. f_equal. lia.
Qed.

Lemma sum_quantities_nonneg (items : list CartItem) :
  Forall valid_item items -> 0 <= sum_quantities items.
Proof.
  induction 1 as [| item rest [_ [Hlo _]] _ IH]; simpl; [lia |].
  unfold Quantity.MIN_QUANTITY in Hlo. lia.
Qed.

Lemma fold_lines_count (items : list CartItem) (acc : Z) :
  Forall valid_item items ->
  0 <= acc -> acc + sum_quantities items <= Binary64.MAX_SAFE_INTEGER ->
  fold_left (fun count item => Binary64.add count (CheckoutLineItem.quantity item))
            (map line_of items) (Binary64.of_Z acc)
  = Binary64.of_Z (acc + sum_quantities items).
Proof.
  intros Hall. revert acc.
  induction Hall as [| item rest Hv Hrest IH]; intros acc Hacc Hs;
    cbn [fold_left map sum_quantities] in *.
  - rewrite Z.add_0_r. reflexivity.
  - pose proof (sum_quantities_nonneg rest Hrest) as Hrest0.
    pose proof Hv as [_ [Hlo _]]. unfold Quantity.MIN_QUANTITY in Hlo.
    change (CheckoutLineItem.quantity (line_of item))
      with (Binary64.of_Z (Quantity.value (CartItem.quantity item))).
    rewrite add_of_Z by lia. rewrite IH by lia. f_equal. lia.
Qed.


Lemma createCheckoutResult_valid (w : World) (input : CreateCheckoutResultInput) :
  let cart := CreateCheckoutResultInput.cart input in
  let rate := default 0%Q (CreateCheckoutResultInput.taxRate input) in
  let subtotal := Binary64.of_Z (sum_line_totals (Cart.items cart)) in
  let tax := Binary64.Math_round (Binary64.mul subtotal (Binary64.Finite rate)) in
  Cart.status cart = checked_out -> valid_items cart ->
  sum_line_totals (Cart.items cart) <= Binary64.MAX_SAFE_INTEGER ->
  sum_quantities (Cart.items cart) <= Binary64.MAX_SAFE_INTEGER ->
  CheckoutResult.createCheckoutResult w input
  = Ok {| CheckoutResult.orderId := CreateCheckoutResultInput.orderId input;
          CheckoutResult.sessionId := SessionId.value (Cart.sessionId cart);
          CheckoutResult.items := map line_of (Cart.items cart);
          CheckoutResult.subtotal := Money64.mk subtotal (Cart.currency cart);
          CheckoutResult.tax := Money64.mk tax (Cart.currency cart);
          CheckoutResult.total :=
            Money64.mk (Binary64.add subtotal tax) (Cart.currency cart);
          CheckoutResult.itemCount := Binary64.of_Z (sum_quantities (Cart.items cart));
          CheckoutResult.checkoutAt := time w 0 |}.
Proof.
  intros cart rate subtotal tax Hs Hv Hsum Hcount.
  unfold CheckoutResult.createCheckoutResult.
  fold cart. rewrite Hs. simpl decide. cbv iota.
  rewrite (mapM_toLineItem_valid _ Hv Hsum). simpl.
  change Binary64.zero with (Binary64.of_Z 0).
  rewrite !(fold_lines_total _ 0 Hv) by lia.
  rewrite (fold_lines_count _ 0 Hv) by lia. reflexivity.
Qed.

(** C7 as stated fails: the tax is rounded from the product as a double.
    For a checked-out cart holding one item of 10 minor units and the tax
    rate 0.35 the product is 3.5 and the tax 4, while the exact product of
    the subtotal and the rate is less than 3.5 and rounds to 3. *)
Lemma tax_is_rounded_from_the_double_product : ~ checkout_amounts_claim_as_stated.
Proof.
  intros H.
  pose (input := CreateCheckoutResultInput.mk "o1"
                   (cart_of [item_of "i1" "p1" 10 1] checked_out)
                   (Some (Binary64.literal (35 # 100)))).
  destruct (H w0 input) as (r & tax & Hr & _ & Htax & Hround & _).
  - reflexivity.
  - repeat constructor; vm_compute; discriminate.
  - assert (CheckoutResult.createCheckoutResult w0 input
            = Ok (CheckoutResult.mk "o1" "s1"
                    [CheckoutLineItem.mk "p1" "Product" (Binary64.of_Z 1) (Binary64.of_Z 10)
                       (Binary64.of_Z 10)]
                    (Money64.mk (Binary64.of_Z 10) USD) (Money64.mk (Binary64.of_Z 4) USD)
                    (Money64.mk (Binary64.of_Z 14) USD) (Binary64.of_Z 1) 1700000000000))
      as Hrun by (vm_compute; reflexivity).
    rewrite Hrun in Hr. injection Hr as <-. simpl in Htax.
    injection Htax as Htax. subst tax.
    destruct Hround as [Hlo _]. vm_compute in Hlo. apply Hlo. reflexivity.
Qed.

(** Read with the rate as the decimal 0.145, the claim fails the other way:
    for a subtotal of 100 the tax is 14, and 14.5 rounds half up to 15. *)
Example tax_at_a_rate_of_0_145 :
  (r ← CheckoutResult.createCheckoutResult w0
         (CreateCheckoutResultInput.mk "o1" (cart_of [item_of "i1" "p1" 100 1] checked_out)
            (Some (Binary64.literal (145 # 1000))));
   Ok (Money64.amount (CheckoutResult.tax r)))
  = Ok (Binary64.of_Z 14)
  /\ round_half_up (100 * (145 # 1000)) 15.
Proof.
  split; [vm_compute; reflexivity |].
  split; vm_compute; [discriminate | reflexivity].
Qed.

(** A cart built through the operations whose line total is beyond the
    largest double has no result: [calculateLineTotal] throws. *)
Example line_total_beyond_the_largest_double :
  (c ← Cart.createCart w0 "s1" None;
   c ← Cart.addItemToCart w0 c (input_of "p1" price_1e308 2 "i1");
   c' ← Cart.checkout w0 c;
   CheckoutResult.createCheckoutResult w0 (CreateCheckoutResultInput.mk "o1" c' None))
  = Err MoneyNotInteger.
Proof. vm_compute. reflexivity. Qed.

(** A cart built through the operations whose subtotal is beyond the
    largest double: the subtotal is Infinity and, at the default rate of 0,
    tax and total are NaN. *)
Example subtotal_beyond_the_largest_double :
  (c ← Cart.createCart w0 "s1" None;
   c ← Cart.addItemToCart w0 c (input_of "p1" price_1e308 1 "i1");
   c ← Cart.addItemToCart w0 c (input_of "p2" price_1e308 1 "i2");
   c' ← Cart.checkout w0 c;
   r ← CheckoutResult.createCheckoutResult w0 (CreateCheckoutResultInput.mk "o1" c' None);
   Ok (Money64.amount (CheckoutResult.subtotal r), Money64.amount (CheckoutResult.tax r),
       Money64.amount (CheckoutResult.total r)))
  = Ok (Binary64.Infinity false, Binary64.NaN, Binary64.NaN).
Proof. vm_compute. reflexivity. Qed.

(** C7, amended.  For every cart with status checked_out whose items are
    valid value objects, the sum of the line totals and the sum of the
    quantities being safe integers, and every finite taxRate,
    [createCheckoutResult] returns a result whose subtotal is the sum over
    the items of unit price times quantity, whose tax is [Math.round] of the
    product of subtotal and taxRate as a double (the double nearest to the
    exact product), whose total is the sum of subtotal and tax as a double,
    and whose itemCount is the sum of the item quantities, the three amounts
    in the cart's currency.  When the product is finite, the tax is that
    double rounded half up to an integer.  For a rate between 0 and 1 the
    tax is an integer between 0 and the subtotal, no less than the exact
    product rounded down and no more than it rounded up, and, twice the
    subtotal being a safe integer, the total is the integer subtotal + tax.
    With a subtotal of 1000 and the taxRate 0.1 the tax is 100 and the total
    1100.  On a cart whose status is not checked_out it fails with
    CartNotCheckedOut. *)
Theorem checkout_result_amounts (w : World) (input : CreateCheckoutResultInput) :
  let cart := CreateCheckoutResultInput.cart input in
  let rate := default 0%Q (CreateCheckoutResultInput.taxRate input) in
  let subtotal := sum_line_totals (Cart.items cart) in
  let product := Binary64.mul (Binary64.of_Z subtotal) (Binary64.Finite rate) in
  (Cart.status cart = checked_out -> valid_items cart ->
   subtotal <= Binary64.MAX_SAFE_INTEGER ->
   sum_quantities (Cart.items cart) <= Binary64.MAX_SAFE_INTEGER ->
   exists r,
     CheckoutResult.createCheckoutResult w input = Ok r
     /\ CheckoutResult.subtotal r = Money64.mk (Binary64.of_Z subtotal) (Cart.currency cart)
     /\ CheckoutResult.tax r = Money64.mk (Binary64.Math_round product) (Cart.currency cart)
     /\ CheckoutResult.total r
        = Money64.mk (Binary64.add (Money64.amount (CheckoutResult.subtotal r))
                                   (Money64.amount (CheckoutResult.tax r)))
                     (Cart.currency cart)
     /\ CheckoutResult.itemCount r = Binary64.of_Z (sum_quantities (Cart.items cart))
     /\ (forall p, product = Binary64.Finite p ->
           exists tax,
             Money64.amount (CheckoutResult.tax r) = Binary64.of_Z tax
             /\ round_half_up p tax)
     /\ ((0 <= rate)%Q -> (rate <= 1)%Q ->
         exists tax,
           Money64.amount (CheckoutResult.tax r) = Binary64.of_Z tax
           /\ 0 <= tax <= subtotal
           /\ Qfloor (inject_Z subtotal * rate) <= tax <= Qceiling (inject_Z subtotal * rate)
           /\ (2 * subtotal <= Binary64.MAX_SAFE_INTEGER ->
               Money64.amount (CheckoutResult.total r) = Binary64.of_Z (subtotal + tax)))
     /\ (subtotal = 1000 -> rate = Binary64.literal (1 # 10) ->
         Money64.amount (CheckoutResult.tax r) = Binary64.of_Z 100
         /\ Money64.amount (CheckoutResult.total r) = Binary64.of_Z 1100))
  /\ (Cart.status cart <> checked_out ->
      CheckoutResult.createCheckoutResult w input = Err ResultFromOpenCart
      /\ kind ResultFromOpenCart = Kind.CartNotCheckedOut).
Proof.
  intros cart rate subtotal product. split.
  - intros Hs Hv Hsum Hcount.
    pose proof (sum_line_totals_nonneg _ Hv) as Hsub0. fold subtotal in Hsub0.
    eexists. split; [exact (createCheckoutResult_valid w input Hs Hv Hsum Hcount) |].
    cbn [CheckoutResult.subtotal CheckoutResult.tax CheckoutResult.total
         CheckoutResult.itemCount Money64.amount].
    fold cart rate subtotal product.
    split; [reflexivity |]. split; [reflexivity |]. split; [reflexivity |].
    split; [reflexivity |]. split; [| split].
    + intros p Hp. rewrite Hp. exists (Math_round p).
      split; [reflexivity | apply Math_round_spec].
    + intros Hr0 Hr1.
      destruct (tax_bounds subtotal rate ltac:(lia) Hr0 Hr1) as (tax & Htax & Hb & Hfc).
      exists tax. fold product in Htax. rewrite Htax.
      split; [reflexivity |]. split; [exact Hb |]. split; [exact Hfc |].
      intros H2. apply add_of_Z. lia.
    + intros Hsub Hrate. unfold product. rewrite Hsub, Hrate.
      split; vm_compute; reflexivity.
  - intros Hs. split; [| reflexivity].
    unfold CheckoutResult.createCheckoutResult. fold cart.
    destruct (decide (Cart.status cart <> checked_out)); [reflexivity | contradiction].
Qed.

Lemma checkout_result_amounts_witness :
  exists r,
    CheckoutResult.createCheckoutResult w0
      (CreateCheckoutResultInput.mk "o1"
         (cart_of [item_of "i1" "p1" 500 2] checked_out)
         (Some (Binary64.literal (1 # 10)))) = Ok r
    /\ Money64.amount (CheckoutResult.subtotal r) = Binary64.of_Z 1000
    /\ Money64.amount (CheckoutResult.tax r) = Binary64.of_Z 100
    /\ Money64.amount (CheckoutResult.total r) = Binary64.of_Z 1100
    /\ CheckoutResult.itemCount r = Binary64.of_Z 2.
Proof.
  destruct (checkout_result_amounts w0
              (CreateCheckoutResultInput.mk "o1"
                 (cart_of [item_of "i1" "p1" 500 2] checked_out)
                 (Some (Binary64.literal (1 # 10)))))
    as [Hok _].
  destruct Hok as (r & Hr & Hsub & _ & _ & Hcount & _ & _ & Hex).
  - reflexivity.
  - repeat constructor; vm_compute; discriminate.
  - vm_compute. discriminate.
  - vm_compute. discriminate.
  - destruct Hex as [Htax Htotal]; [reflexivity | reflexivity |].
    exists r. rewrite Hsub, Hcount. repeat split; assumption.
Defined.

(** ** Non-negative money *)





(** * Further properties of the Cart aggregate *)

(** ** Removing an item, updating a quantity *)

(** X1.  [removeItemFromCart] on an active cart fails with ItemNotFound when
    no item carries the itemId; otherwise it returns the cart without every
    item that carries the itemId: the items with another itemId are all
    kept, in their order, the result is strictly shorter, and status,
    currency and session are as before. *)
Theorem remove_item_outcome (w : World) (cart : Cart) (itemId : string) :
  Cart.status cart = active ->
  (Forall (fun item => CartItem.itemId item <> itemId) (Cart.items cart) ->
   Cart.removeItemFromCart w cart itemId = Err (ItemIdNotFound itemId)
   /\ kind (ItemIdNotFound itemId) = Kind.ItemNotFound)
  /\ (Exists (fun item => CartItem.itemId item = itemId) (Cart.items cart) ->
      exists cart',
        Cart.removeItemFromCart w cart itemId = Ok cart'
        /\ Forall (fun item => CartItem.itemId item <> itemId) (Cart.items cart')
        /\ (forall item, CartItem.itemId item <> itemId ->
                         item ∈ Cart.items cart -> item ∈ Cart.items cart')
        /\ Cart.items cart' `sublist_of` Cart.items cart
        /\ (length (Cart.items cart') < length (Cart.items cart))%nat
        /\ Cart.status cart' = active
        /\ Cart.currency cart' = Cart.currency cart
        /\ Cart.sessionId cart' = Cart.sessionId cart).
Proof.
  intros Hs. unfold Cart.removeItemFromCart.
  rewrite (assertCartIsActive_active cart Hs). simpl. split.
  - intros Hnone. split; [| reflexivity].
    assert (list_find (fun item => CartItem.itemId item = itemId) (Cart.items cart) = None)
      as ->; [| reflexivity].
    apply list_find_None. exact Hnone.
  - intros Hsome. apply Exists_exists in Hsome as (x & Hx & Hid).
    destruct (list_find_elem_of (fun item => CartItem.itemId item = itemId)
                (Cart.items cart) x Hx Hid) as [[i y] ->].
    eexists. split; [reflexivity |]. simpl.
    split.
    { apply Forall_forall. intros item Hin.
      apply list_elem_of_filter in Hin as [Hne _]. exact Hne. }
    split.
    { intros item Hne Hin. apply list_elem_of_filter. split; assumption. }
    split; [apply sublist_filter |].
    split.
    { apply (length_filter_lt _ _ x Hx). intros Hne. apply Hne. exact Hid. }
    split; [exact Hs |]. split; reflexivity.
Qed.

Lemma remove_item_outcome_witness :
  exists cart',
    Cart.removeItemFromCart w0
      (cart_of [item_of "i1" "p1" 1000 1; item_of "i2" "p2" 500 3; item_of "i1" "p3" 200 2]
               active) "i1" = Ok cart'
    /\ Forall (fun item => CartItem.itemId item <> "i1"%string) (Cart.items cart')
    /\ (length (Cart.items cart') < 3)%nat.
Proof.
  destruct (remove_item_outcome w0
              (cart_of [item_of "i1" "p1" 1000 1; item_of "i2" "p2" 500 3;
                        item_of "i1" "p3" 200 2] active) "i1") as [_ Hfound].
  - reflexivity.
  - destruct Hfound as (cart' & Hrm & Hnone & _ & _ & Hlen & _).
    + apply Exists_cons_hd. reflexivity.
    + exists cart'. split; [exact Hrm |]. split; [exact Hnone | exact Hlen].
Defined.

(** X2.  [updateItemQuantity] on an active cart fails with ItemNotFound when
    no item carries the itemId, whatever the quantity (the lookup comes
    before the validation of the quantity).  When [i] is the first index of
    an item with the itemId, a non-integer quantity fails with NotInteger,
    an integer below 1 with BelowMinimum, an integer above 99 with
    AboveMaximum, and an integer q in 1..99 makes q the quantity of that
    item (it replaces the old quantity, it is not added to it) and leaves
    its other fields, every other item and the length as they were. *)
Theorem update_quantity_outcome (w : World) (cart : Cart) (itemId : string)
    (quantity : number) :
  Cart.status cart = active ->
  (Forall (fun item => CartItem.itemId item <> itemId) (Cart.items cart) ->
   Cart.updateItemQuantity w cart itemId quantity = Err (ItemIdNotFound itemId))
  /\ (forall i existing,
        Cart.items cart !! i = Some existing ->
        CartItem.itemId existing = itemId ->
        (forall j item, Cart.items cart !! j = Some item -> (j < i)%nat ->
                        CartItem.itemId item <> itemId) ->
        (Number_isInteger quantity = false ->
         Cart.updateItemQuantity w cart itemId quantity = Err QuantityNotInteger)
        /\ (forall q, quantity = inject_Z q ->
              (q < 1 -> Cart.updateItemQuantity w cart itemId quantity = Err QuantityTooSmall)
              /\ (99 < q ->
                  Cart.updateItemQuantity w cart itemId quantity = Err QuantityTooLarge)
              /\ (1 <= q <= 99 ->
                  exists cart' updated,
                    Cart.updateItemQuantity w cart itemId quantity = Ok cart'
                    /\ Cart.items cart' !! i = Some updated
                    /\ updated = CartItem.updateCartItemQuantity existing (Quantity.mk q)
                    /\ (forall j, j <> i -> Cart.items cart' !! j = Cart.items cart !! j)
                    /\ length (Cart.items cart') = length (Cart.items cart)
                    /\ Cart.status cart' = active
                    /\ Cart.currency cart' = Cart.currency cart))).
Proof.
  intros Hs. unfold Cart.updateItemQuantity.
  rewrite (assertCartIsActive_active cart Hs). simpl. split.
  - intros Hnone.
    assert (list_find (fun item => CartItem.itemId item = itemId) (Cart.items cart) = None)
      as ->; [| reflexivity].
    apply list_find_None. exact Hnone.
  - intros i existing Hi Hid Hfirst.
    assert (list_find (fun item => CartItem.itemId item = itemId) (Cart.items cart)
            = Some (i, existing)) as ->.
    { apply list_find_Some. split; [exact Hi |]. split; [exact Hid |].
      intros j item Hj Hlt. exact (Hfirst j item Hj Hlt). }
    split.
    + intros Hfrac. unfold Quantity.createQuantity. rewrite Hfrac. reflexivity.
    + intros q ->. rewrite createQuantity_inject_Z. split; [| split].
      * intros Hq. destruct (Z.ltb_spec q 1); [reflexivity | lia].
      * intros Hq. destruct (Z.ltb_spec q 1); [lia |].
        destruct (Z.ltb_spec 99 q); [reflexivity | lia].
      * intros Hq. destruct (Z.ltb_spec q 1); [lia |].
        destruct (Z.ltb_spec 99 q); [lia |].
        eexists. eexists. split; [reflexivity |]. simpl.
        split; [apply list_lookup_insert_eq; eapply lookup_lt_Some; exact Hi |].
        split; [reflexivity |].
        split; [intros j Hj; apply list_lookup_insert_ne; congruence |].
        split; [apply length_insert |]. split; [exact Hs | reflexivity].
Qed.

Lemma update_quantity_outcome_witness :
  Cart.updateItemQuantity w0 (cart_of [item_of "i1" "p1" 1000 4] active) "i9" 0%Q
  = Err (ItemIdNotFound "i9")
  /\ exists cart' updated,
       Cart.updateItemQuantity w0 (cart_of [item_of "i1" "p1" 1000 4] active) "i1"
         (inject_Z 2) = Ok cart'
       /\ Cart.items cart' !! 0%nat = Some updated
       /\ updated = item_of "i1" "p1" 1000 2.
Proof.
  split.
  - apply (update_quantity_outcome w0 (cart_of [item_of "i1" "p1" 1000 4] active) "i9").
    + reflexivity.
    + repeat constructor. simpl. discriminate.
  - destruct (update_quantity_outcome w0 (cart_of [item_of "i1" "p1" 1000 4] active)
                "i1" (inject_Z 2)) as [_ Hfound]; [reflexivity |].
    destruct (Hfound 0%nat (item_of "i1" "p1" 1000 4)) as [_ Hq].
    + reflexivity.
    + reflexivity.
    + intros j item _ Hlt. lia.
    + destruct (Hq 2 eq_refl) as (_ & _ & Hok).
      destruct Hok as (cart' & updated & Hup & Hat & Heq & _); [lia |].
      exists cart', updated. split; [exact Hup |]. split; [exact Hat | exact Heq].
Defined.

(** ** After checkout, after clearing *)

(** X3.  A cart returned by a successful [checkout] is final: [canCheckout]
    is false on it, a second [checkout] fails with CartAlreadyCheckedOut,
    and [addItemToCart], [removeItemFromCart], [updateItemQuantity] and
    [clearCart] all fail with CartNotActive, whatever their arguments; no
    operation returns a cart from it. *)
Theorem checked_out_cart_is_final (w : World) (cart cart' : Cart) :
  Cart.checkout w cart = Ok cart' ->
  Cart.canCheckout cart' = false
  /\ forall (w' : World) (input : CreateCartItemInput) (itemId : string) (quantity : number),
       Cart.checkout w' cart' = Err AlreadyCheckedOut
       /\ Cart.addItemToCart w' cart' input = Err ModifyCheckedOut
       /\ Cart.removeItemFromCart w' cart' itemId = Err ModifyCheckedOut
       /\ Cart.updateItemQuantity w' cart' itemId quantity = Err ModifyCheckedOut
       /\ Cart.clearCart w' cart' = Err ModifyCheckedOut.
Proof.
  intros H. apply checkout_Ok in H as (_ & Hs & _ & _).
  split; [unfold Cart.canCheckout; rewrite Hs; reflexivity |].
  intros w' input itemId quantity.
  unfold Cart.checkout, Cart.canCheckout, Cart.addItemToCart, Cart.removeItemFromCart,
    Cart.updateItemQuantity, Cart.clearCart, Cart.assertCartIsActive.
  rewrite Hs. simpl. repeat split.
Qed.

Lemma checked_out_cart_is_final_witness :
  Cart.canCheckout (cart_of [item_of "i1" "p1" 1000 1] checked_out) = false
  /\ Cart.clearCart w0 (cart_of [item_of "i1" "p1" 1000 1] checked_out)
     = Err ModifyCheckedOut.
Proof.
  destruct (checked_out_cart_is_final
              {| time := fun _ => 1700000000001; uuid := "id-0" |}
              (cart_of [item_of "i1" "p1" 1000 1] active)
              (cart_of [item_of "i1" "p1" 1000 1] checked_out)) as [Hcan Hops].
  - reflexivity.
  - split; [exact Hcan |]. apply (Hops w0 (input_of "p2" 1 1 "i2") "i1" 1%Q).
Defined.

(** X4.  [clearCart] on an active cart returns the cart with no items: its
    total is zero in the cart's currency, its item count is 0, and it
    cannot be checked out ([checkout] fails with EmptyCart). *)
Theorem clear_cart_empties (w : World) (cart : Cart) :
  Cart.status cart = active ->
  exists cart',
    Cart.clearCart w cart = Ok cart'
    /\ Cart.items cart' = []
    /\ Cart.status cart' = active
    /\ Cart.calculateCartTotal cart' = Ok (Money.mk 0 (Cart.currency cart))
    /\ Cart.getTotalItemCount cart' = 0
    /\ Cart.canCheckout cart' = false
    /\ forall w', Cart.checkout w' cart' = Err CheckoutEmpty.
Proof.
  intros Hs. unfold Cart.clearCart.
  rewrite (assertCartIsActive_active cart Hs). simpl.
  eexists. split; [reflexivity |]. simpl.
  split; [reflexivity |]. split; [exact Hs |].
  split; [reflexivity |]. split; [reflexivity |].
  unfold Cart.canCheckout, Cart.checkout, Cart.canCheckout. simpl. rewrite Hs.
  split; [reflexivity |]. intros w'. reflexivity.
Qed.

Lemma clear_cart_empties_witness :
  exists cart',
    Cart.clearCart w0 (cart_of twenty_items active) = Ok cart'
    /\ Cart.items cart' = []
    /\ Cart.checkout w0 cart' = Err CheckoutEmpty.
Proof.
  destruct (clear_cart_empties w0 (cart_of twenty_items active))
    as (cart' & Hclear & Hitems & _ & _ & _ & _ & Hco); [reflexivity |].
  exists cart'. split; [exact Hclear |]. split; [exact Hitems | apply Hco].
Defined.

(** ** Adding an item: what changes *)

(** The two ways [addItemToCart] succeeds, with the values it computed. *)
Lemma addItemToCart_Ok_cases (w : World) (cart : Cart) (input : CreateCartItemInput)
    (cart' : Cart) :
  Cart.addItemToCart w cart input = Ok cart' ->
  (exists i existing additional newQuantity,
      list_find (fun item => product_of item = CreateCartItemInput.productId input)
                (Cart.items cart) = Some (i, existing)
      /\ Quantity.createQuantity (CreateCartItemInput.quantity input) = Ok additional
      /\ Quantity.addQuantity (CartItem.quantity existing) additional = Ok newQuantity
      /\ cart' = Cart.with_items cart
                   (<[i := CartItem.updateCartItemQuantity existing newQuantity]>
                      (Cart.items cart))
                   (time w 0))
  \/ (list_find (fun item => product_of item = CreateCartItemInput.productId input)
                (Cart.items cart) = None
      /\ exists newItem,
           CartItem.createCartItem w
             (CreateCartItemInput.with_currency input (Cart.currency cart)) = Ok newItem
           /\ cart' = Cart.with_items cart (Cart.items cart ++ [newItem]) (time w 1)).
Proof.
  unfold Cart.addItemToCart, product_of. intros H.
  bind_inv H.
  destruct (list_find _ _) as [[i existing] |] eqn:Hfind.
  - left. bind_inv H. unfold CartItem.increaseCartItemQuantity in H.
    bind_inv H. bind_inv E1. injection E1 as <-. injection H as <-.
    exists i, existing. eexists. eexists.
    split; [reflexivity |]. split; [reflexivity |]. split; [exact E2 | reflexivity].
  - right. destruct (decide _); [discriminate |].
    bind_inv H. injection H as <-.
    split; [reflexivity |]. eexists. split; reflexivity.
Qed.

Lemma createCartItem_quantity (w : World) (input : CreateCartItemInput) (item : CartItem) :
  CartItem.createCartItem w input = Ok item ->
  Quantity.value (CartItem.quantity item) = toInteger (CreateCartItemInput.quantity input)
  /\ Money.amount (CartItem.unitPrice item)
     = toInteger (CreateCartItemInput.unitPriceInCents input).
Proof.
  unfold CartItem.createCartItem. intros H.
  destruct (_ || _); [discriminate |].
  bind_inv H. bind_inv H. bind_inv H. injection H as <-. simpl.
  apply createMoney_Ok in E0 as (_ & Ha & _).
  apply createQuantity_Ok in E1 as [_ Hq]. auto.
Qed.

Lemma sum_quantities_app (l k : list CartItem) :
  sum_quantities (l ++ k) = sum_quantities l + sum_quantities k.
Proof. induction l as [| x l IH]; simpl; [reflexivity | rewrite IH; lia]. Qed.

Lemma sum_quantities_insert (l : list CartItem) (i : nat) (x y : CartItem) :
  l !! i = Some x ->
  sum_quantities (<[i := y]> l)
  = sum_quantities l - Quantity.value (CartItem.quantity x)
    + Quantity.value (CartItem.quantity y).
Proof.
  revert i. induction l as [| a l IH]; intros i Hi; [discriminate |].
  destruct i as [| i]; simpl in *.
  - injection Hi as ->. lia.
  - rewrite (IH i Hi). lia.
Qed.

Lemma sum_line_totals_app (l k : list CartItem) :
  sum_line_totals (l ++ k) = sum_line_totals l + sum_line_totals k.
Proof. induction l as [| x l IH]; simpl; [lia | rewrite IH; lia]. Qed.

Lemma sum_line_totals_insert (l : list CartItem) (i : nat) (x y : CartItem) :
  l !! i = Some x ->
  sum_line_totals (<[i := y]> l)
  = sum_line_totals l
    - Money.amount (CartItem.unitPrice x) * Quantity.value (CartItem.quantity x)
    + Money.amount (CartItem.unitPrice y) * Quantity.value (CartItem.quantity y).
Proof.
  revert i. induction l as [| a l IH]; intros i Hi; [discriminate |].
  destruct i as [| i]; simpl in *.
  - injection Hi as ->. lia.
  - rewrite (IH i Hi). lia.
Qed.

Lemma getTotalItemCount_sum (cart : Cart) :
  Cart.getTotalItemCount cart = sum_quantities (Cart.items cart).
Proof. unfold Cart.getTotalItemCount. rewrite fold_count. lia. Qed.

Lemma addItemToCart_count (w : World) (cart : Cart) (input : CreateCartItemInput)
    (cart' : Cart) :
  Cart.addItemToCart w cart input = Ok cart' ->
  Cart.getTotalItemCount cart'
  = Cart.getTotalItemCount cart + toInteger (CreateCartItemInput.quantity input).
Proof.
  intros H. rewrite !getTotalItemCount_sum.
  apply addItemToCart_Ok_cases in H as [Hmerge | [_ Hnew]].
  - destruct Hmerge as (i & existing & additional & newQuantity & Hfind & Hq & Hadd & ->).
    apply list_find_Some in Hfind as (Hi & _ & _).
    apply createQuantity_Ok in Hq as [_ Hq].
    apply addQuantity_Ok in Hadd as [_ Hadd].
    simpl. rewrite (sum_quantities_insert _ i existing _ Hi). simpl. lia.
  - destruct Hnew as (newItem & Hcreate & ->).
    apply createCartItem_quantity in Hcreate as [Hq _]. simpl in Hq.
    simpl. rewrite sum_quantities_app. simpl. lia.
Qed.



Lemma findItemByProductId_find (cart : Cart) (productId : string) :
  Cart.findItemByProductId cart productId
  = snd <$> list_find (fun item => product_of item = productId) (Cart.items cart).
Proof. reflexivity. Qed.

Lemma sum_line_totals_after_add (w : World) (cart : Cart) (input : CreateCartItemInput)
    (cart' : Cart) :
  valid_items cart ->
  Cart.addItemToCart w cart input = Ok cart' ->
  Cart.currency cart' = Cart.currency cart
  /\ 0 <= price_applied cart input * toInteger (CreateCartItemInput.quantity input)
  /\ sum_line_totals (Cart.items cart')
     = sum_line_totals (Cart.items cart)
       + price_applied cart input * toInteger (CreateCartItemInput.quantity input).
Proof.
  intros Hvalid Hadd.
  unfold price_applied. rewrite findItemByProductId_find.
  apply addItemToCart_Ok_cases in Hadd as [Hmerge | [Hnone Hnew]].
  - destruct Hmerge as (i & existing & additional & newQuantity & Hfind & Hq & Hsum & ->).
    rewrite Hfind. simpl. split; [reflexivity |].
    apply list_find_Some in Hfind as (Hi & _ & _).
    assert (valid_item existing) as [Hprice _].
    { unfold valid_items in Hvalid. rewrite Forall_lookup in Hvalid. exact (Hvalid i _ Hi). }
    unfold valid_money in Hprice.
    apply createQuantity_Ok in Hq as [Hrange Hq].
    apply addQuantity_Ok in Hsum as [_ Hsum].
    rewrite (sum_line_totals_insert _ i existing _ Hi). simpl. split; nia.
  - destruct Hnew as (newItem & Hcreate & ->).
    rewrite Hnone. simpl. split; [reflexivity |].
    pose proof (createCartItem_Ok _ _ _ Hcreate) as [[Hprice [Hlo _]] _].
    unfold valid_money, Quantity.MIN_QUANTITY in Hprice, Hlo.
    apply createCartItem_quantity in Hcreate as [Hq Ha]. simpl in Hq, Ha.
    rewrite sum_line_totals_app. simpl. split; nia.
Qed.

(** X6.  On a cart built through the operations, whenever [addItemToCart]
    succeeds and the sum of the line totals of the new cart is a safe
    integer, [calculateCartTotal] returns on both carts, and its amount
    grows by the quantity of the input times the unit price that applies:
    the price the cart already holds for the product when it holds an item
    for it (the price of the input is then ignored), the price of the input
    otherwise. *)
Theorem add_item_grows_total (w : World) (cart : Cart) (input : CreateCartItemInput)
    (cart' : Cart) :
  reachable cart ->
  Cart.addItemToCart w cart input = Ok cart' ->
  sum_line_totals (Cart.items cart') <= Binary64.MAX_SAFE_INTEGER ->
  exists total total' : Z,
    Cart64.calculateCartTotal cart
    = Ok (Money64.mk (Binary64.of_Z total) (Cart.currency cart))
    /\ Cart64.calculateCartTotal cart'
       = Ok (Money64.mk (Binary64.of_Z total') (Cart.currency cart))
    /\ 0 <= total <= total'
    /\ total'
       = total + price_applied cart input * toInteger (CreateCartItemInput.quantity input).
Proof.
  intros Hreach Hadd Hsafe.
  pose proof (reachable_coherent cart Hreach) as Hco.
  pose proof (reachable_coherent cart' (reach_add w cart input cart' Hreach Hadd)) as Hco'.
  pose proof (reachable_valid_items cart Hreach) as Hvalid.
  pose proof (sum_line_totals_nonneg _ Hvalid) as Hnn.
  destruct (sum_line_totals_after_add w cart input cart' Hvalid Hadd) as (Hcur & Hgrow & Hsum).
  exists (sum_line_totals (Cart.items cart)), (sum_line_totals (Cart.items cart')).
  split; [apply (calculateCartTotal64_coherent cart Hco); lia |].
  split; [rewrite <- Hcur; apply (calculateCartTotal64_coherent cart' Hco'); exact Hsafe |].
  split; [lia | exact Hsum].
Qed.

Lemma add_item_grows_total_witness :
  exists total total' : Z,
    Cart64.calculateCartTotal euro_cart = Ok (Money64.mk (Binary64.of_Z total) EUR)
    /\ Cart64.calculateCartTotal
         (Cart.with_items euro_cart
            [CartItem.mk "i1" (ProductId.mk "p1") "Product" (Money.mk 1000 EUR)
               (Quantity.mk 5) 1700000000000] 1700000000000)
       = Ok (Money64.mk (Binary64.of_Z total') EUR)
    /\ total' = total + 1000 * 3.
Proof.
  destruct (add_item_grows_total w0 euro_cart (input_of "p1" 1 3 "i7")
              (Cart.with_items euro_cart
                 [CartItem.mk "i1" (ProductId.mk "p1") "Product" (Money.mk 1000 EUR)
                    (Quantity.mk 5) 1700000000000] 1700000000000))
    as (total & total' & Ht & Ht' & _ & Hsum).
  - eapply (reach_add w0 _
              (CreateCartItemInput.set_currency (input_of "p1" 1000 2 "i1") (Some USD))).
    + eapply (reach_create w0 "s1" (Some EUR)). vm_compute. reflexivity.
    + vm_compute. reflexivity.
  - vm_compute. reflexivity.
  - vm_compute. discriminate.
  - exists total, total'. split; [exact Ht |]. split; [exact Ht' | exact Hsum].
Defined.

(** X7.  After a successful [addItemToCart] with a productId that [trim]
    leaves unchanged, [findItemByProductId] finds an item for that product,
    and its quantity is the quantity found before the call (0 when no item
    was found) plus the quantity of the input. *)
Theorem add_item_then_find (w : World) (cart : Cart) (input : CreateCartItemInput)
    (cart' : Cart) :
  trim (CreateCartItemInput.productId input) = CreateCartItemInput.productId input ->
  Cart.addItemToCart w cart input = Ok cart' ->
  (exists item,
     Cart.findItemByProductId cart' (CreateCartItemInput.productId input) = Some item
     /\ product_of item = CreateCartItemInput.productId input)
  /\ quantity_found cart' (CreateCartItemInput.productId input)
     = quantity_found cart (CreateCartItemInput.productId input)
       + toInteger (CreateCartItemInput.quantity input).
Proof.
  intros Htrim Hadd. unfold quantity_found. rewrite !findItemByProductId_find.
  apply addItemToCart_Ok_cases in Hadd as [Hmerge | [Hnone Hnew]].
  - destruct Hmerge as (i & existing & additional & newQuantity & Hfind & Hq & Hsum & ->).
    rewrite Hfind. simpl.
    apply list_find_Some in Hfind as (Hi & HP & Hfirst).
    assert (list_find (fun item => product_of item = CreateCartItemInput.productId input)
              (<[i := CartItem.updateCartItemQuantity existing newQuantity]>
                 (Cart.items cart))
            = Some (i, CartItem.updateCartItemQuantity existing newQuantity)) as ->.
    { apply list_find_Some. split; [| split].
      - apply list_lookup_insert_eq. eapply lookup_lt_Some. exact Hi.
      - exact HP.
      - intros j y Hj Hlt. rewrite list_lookup_insert_ne in Hj by lia.
        exact (Hfirst j y Hj Hlt). }
    simpl. split; [eexists; split; [reflexivity | exact HP] |].
    apply createQuantity_Ok in Hq as [_ Hq].
    apply addQuantity_Ok in Hsum as [_ Hsum]. lia.
  - destruct Hnew as (newItem & Hcreate & ->).
    rewrite Hnone. simpl.
    pose proof (createCartItem_quantity _ _ _ Hcreate) as [Hq _]. simpl in Hq.
    apply createCartItem_Ok in Hcreate as (_ & _ & Hprod). simpl in Hprod.
    rewrite Htrim in Hprod.
    assert (list_find (fun item => product_of item = CreateCartItemInput.productId input)
              (Cart.items cart ++ [newItem])
            = Some (length (Cart.items cart), newItem)) as ->.
    { apply list_find_Some. split; [| split].
      - rewrite lookup_app_r by lia. rewrite Nat.sub_diag. reflexivity.
      - exact Hprod.
      - intros j y Hj Hlt. rewrite lookup_app_l in Hj by lia.
        apply list_find_None in Hnone.
        exact (Forall_lookup_1 _ _ _ _ Hnone Hj). }
    simpl. split; [eexists; split; [reflexivity | exact Hprod] |]. lia.
Qed.

Lemma add_item_then_find_witness :
  quantity_found (cart_of [item_of "i1" "p1" 1000 2; item_of "i2" "p2" 500 7] active) "p2"
  = quantity_found (cart_of [item_of "i1" "p1" 1000 2; item_of "i2" "p2" 500 3] active) "p2"
    + toInteger (inject_Z 4).
Proof.
  apply (add_item_then_find
           {| time := fun _ => 1700000000001; uuid := "id-0" |}
           (cart_of [item_of "i1" "p1" 1000 2; item_of "i2" "p2" 500 3] active)
           (input_of "p2" 999 4 "i9")).
  - reflexivity.
  - vm_compute. reflexivity.
Defined.

(** ** One item per product, for normalised product ids *)

Lemma unique_products_insert (items : list CartItem) (i : nat) (existing : CartItem)
    (q : Quantity) :
  items !! i = Some existing ->
  unique_products items ->
  unique_products (<[i := CartItem.updateCartItemQuantity existing q]> items).
Proof.
  unfold unique_products. intros Hi Hnd.
  change (NoDup (product_of <$> <[i := CartItem.updateCartItemQuantity existing q]> items)).
  rewrite list_fmap_insert.
  rewrite list_insert_id; [exact Hnd |].
  rewrite list_lookup_fmap, Hi. reflexivity.
Qed.

Lemma unique_products_filter (P : CartItem -> Prop) `{forall x, Decision (P x)}
    (items : list CartItem) :
  unique_products items -> unique_products (filter P items).
Proof.
  unfold unique_products. intros Hnd.
  eapply sublist_NoDup; [exact Hnd |].
  apply (fmap_sublist product_of). apply sublist_filter.
Qed.

Lemma unique_products_snoc (items : list CartItem) (newItem : CartItem) :
  Forall (fun item => product_of item <> product_of newItem) items ->
  unique_products items ->
  unique_products (items ++ [newItem]).
Proof.
  unfold unique_products. intros Hfresh Hnd.
  change (NoDup (product_of <$> items ++ [newItem])).
  rewrite fmap_app. apply NoDup_app. split; [exact Hnd |]. split.
  - intros x Hx Hin. apply list_elem_of_fmap in Hx as (item & -> & Hitem).
    simpl in Hin. apply list_elem_of_singleton in Hin.
    rewrite Forall_forall in Hfresh. exact (Hfresh item Hitem Hin).
  - simpl. apply NoDup_singleton.
Qed.

(** X8.  When every [addItemToCart] is called with a productId that [trim]
    leaves unchanged, every cart obtained from [createCart] by successful
    calls of the mutators and of [checkout] holds at most one item per
    productId (and at most 20 items). *)
Theorem trimmed_inputs_keep_products_unique (cart : Cart) :
  reachable_trimmed cart ->
  unique_products (Cart.items cart) /\ (length (Cart.items cart) <= 20)%nat.
Proof.
  intros Hreach. split.
  - induction Hreach as [w sid cur cart Hc
                        | w cart input cart' _ IH Htrim Hop
                        | w cart itemId cart' _ IH Hop
                        | w cart itemId quantity cart' _ IH Hop
                        | w cart cart' _ IH Hop
                        | w cart cart' _ IH Hop].
    + apply createCart_Ok in Hc as (_ & -> & _). apply NoDup_nil_2.
    + apply addItemToCart_Ok_cases in Hop as [Hmerge | [Hnone Hnew]].
      * destruct Hmerge as (i & existing & additional & newQuantity & Hfind & _ & _ & ->).
        apply list_find_Some in Hfind as (Hi & _ & _). simpl.
        apply unique_products_insert; assumption.
      * destruct Hnew as (newItem & Hcreate & ->). simpl.
        apply createCartItem_Ok in Hcreate as (_ & _ & Hprod). simpl in Hprod.
        rewrite Htrim in Hprod.
        apply unique_products_snoc; [| exact IH].
        apply list_find_None in Hnone. rewrite Hprod. exact Hnone.
    + apply removeItemFromCart_Ok in Hop as (_ & _ & _ & ->).
      apply unique_products_filter. exact IH.
    + apply updateItemQuantity_Ok in Hop as (_ & _ & _ & i & existing & q' & Hi & _ & ->).
      apply unique_products_insert; assumption.
    + apply clearCart_Ok in Hop as (_ & _ & _ & ->). apply NoDup_nil_2.
    + apply checkout_Ok in Hop as (_ & _ & _ & ->). exact IH.
  - apply reachable_at_most_20_items.
    induction Hreach; eauto using reachable.
Qed.

Lemma trimmed_inputs_keep_products_unique_witness :
  unique_products
    (Cart.items (cart_of [item_of "i1" "p1" 1000 5; item_of "i3" "p2" 500 1] active)).
Proof.
  apply trimmed_inputs_keep_products_unique.
  eapply (reacht_add w0 _ (input_of "p2" 500 1 "i3")).
  - eapply (reacht_add {| time := fun _ => 1700000000000; uuid := "id-0" |} _
              (input_of "p1" 1000 3 "i2")).
    + eapply (reacht_add w0 _ (input_of "p1" 1000 2 "i1")).
      * eapply (reacht_create w0 "s1" None). vm_compute. reflexivity.
      * reflexivity.
      * vm_compute. reflexivity.
    + reflexivity.
    + vm_compute. reflexivity.
  - reflexivity.
  - vm_compute. reflexivity.
Defined.

(** ** Money arithmetic, identifiers *)

(** X9.  Adding and subtracting undo each other as long as the sum is a
    safe integer: when [addMoney a b] returns a sum for two valid Money
    values whose amounts add up to at most [Number.MAX_SAFE_INTEGER],
    [subtractMoney] of [b] from the sum returns [a]; the sum does not depend
    on the order of the arguments. *)
Theorem add_then_subtract_money (a b : Money) (s : Money64.t) :
  valid_money a -> valid_money b ->
  Money.amount a + Money.amount b <= Binary64.MAX_SAFE_INTEGER ->
  Money64.addMoney (Money64.of_Money a) (Money64.of_Money b) = Ok s ->
  Money64.subtractMoney s (Money64.of_Money b) = Ok (Money64.of_Money a)
  /\ Money64.addMoney (Money64.of_Money b) (Money64.of_Money a) = Ok s.
Proof.
  intros Ha Hb Hsafe Hadd. pose proof Ha as Ha0. pose proof Hb as Hb0.
  unfold valid_money in Ha0, Hb0.
  rewrite (addMoney_exact a b Ha Hb Hsafe) in Hadd.
  unfold Money.addMoney in Hadd.
  destruct (decide (Money.currency a <> Money.currency b)) as [| Hcur]; [discriminate |].
  assert (Money.currency a = Money.currency b) as Heq.
  { destruct (decide (Money.currency a = Money.currency b)); [assumption | contradiction]. }
  rewrite createMoney_inject_Z in Hadd.
  destruct (Z.ltb_spec (Money.amount a + Money.amount b) 0); [discriminate |].
  injection Hadd as <-.
  change (Money64.of_Money
            {| Money.amount := Money.amount a + Money.amount b;
               Money.currency := Money.currency a |})
    with (Money64.of_Money (Money.mk (Money.amount a + Money.amount b) (Money.currency a))).
  split.
  - rewrite subtractMoney_exact; [| unfold valid_money; simpl; lia | exact Hb | simpl; lia].
    unfold Money.subtractMoney. simpl.
    destruct (decide (Money.currency a <> Money.currency b)); [contradiction |].
    destruct (Z.ltb_spec (Money.amount a + Money.amount b) (Money.amount b)); [lia |].
    rewrite createMoney_inject_Z.
    replace (Money.amount a + Money.amount b - Money.amount b) with (Money.amount a) by lia.
    destruct (Z.ltb_spec (Money.amount a) 0); [lia |]. destruct a; reflexivity.
  - rewrite addMoney_exact; [| exact Hb | exact Ha | lia].
    unfold Money.addMoney.
    destruct (decide (Money.currency b <> Money.currency a)); [congruence |].
    rewrite createMoney_inject_Z.
    destruct (Z.ltb_spec (Money.amount b + Money.amount a) 0); [lia |].
    rewrite Heq. simpl. unfold Money64.of_Money. simpl. f_equal. f_equal. f_equal. lia.
Qed.

Lemma add_then_subtract_money_witness :
  Money64.subtractMoney (Money64.mk (Binary64.of_Z 1500) GBP)
    (Money64.of_Money (Money.mk 500 GBP))
  = Ok (Money64.of_Money (Money.mk 1000 GBP))
  /\ Money64.addMoney (Money64.of_Money (Money.mk 500 GBP))
       (Money64.of_Money (Money.mk 1000 GBP))
     = Ok (Money64.mk (Binary64.of_Z 1500) GBP).
Proof.
  apply (add_then_subtract_money (Money.mk 1000 GBP) (Money.mk 500 GBP)).
  - unfold valid_money. simpl. lia.
  - unfold valid_money. simpl. lia.
  - vm_compute. discriminate.
  - vm_compute. reflexivity.
Defined.

(** Beyond the safe integers the sum is rounded, and subtracting does not
    give the first amount back. *)
Example add_then_subtract_beyond_the_safe_integers :
  (s ← Money64.addMoney (Money64.of_Money (Money.mk (2 ^ 53) USD))
         (Money64.of_Money (Money.mk 1 USD));
   d ← Money64.subtractMoney s (Money64.of_Money (Money.mk 1 USD));
   Ok (Money64.amount s, Money64.amount d))
  = Ok (Binary64.of_Z (2 ^ 53), Binary64.of_Z (2 ^ 53 - 1)).
Proof. vm_compute. reflexivity. Qed.

Lemma fold_count64 (items : list CartItem) (acc : Z) :
  Forall valid_item items ->
  0 <= acc -> acc + sum_quantities items <= Binary64.MAX_SAFE_INTEGER ->
  fold_left
    (fun count item =>
       Binary64.add count (Binary64.of_Z (Quantity.value (CartItem.quantity item))))
    items (Binary64.of_Z acc)
  = Binary64.of_Z (acc + sum_quantities items).
Proof.
  intros Hall. revert acc.
  induction Hall as [| item rest Hv Hrest IH]; intros acc Hacc Hs;
    cbn [fold_left sum_quantities] in *.
  - rewrite Z.add_0_r. reflexivity.
  - pose proof (sum_quantities_nonneg rest Hrest) as Hrest0.
    pose proof Hv as [_ [Hlo _]]. unfold Quantity.MIN_QUANTITY in Hlo.
    rewrite add_of_Z by lia. rewrite IH by lia. f_equal. lia.
Qed.

Lemma sum_quantities_le (items : list CartItem) :
  Forall valid_item items -> sum_quantities items <= 99 * Z.of_nat (length items).
Proof.
  induction 1 as [| item rest [_ [_ Hhi]] _ IH]; [simpl; lia |].
  unfold Quantity.MAX_QUANTITY in Hhi. cbn [sum_quantities length]. lia.
Qed.

(** X25.  Within the safe integers the arithmetic of the integers is the
    arithmetic of the code: for valid Money values, [addMoney],
    [subtractMoney] and [multiplyMoney] on numbers return what they return
    on the integers, or throw the same error, when the sum, the first
    amount, the product is at most [Number.MAX_SAFE_INTEGER]; on a cart
    built through the operations [calculateCartTotal] does when the sum of
    the line totals is, and [getTotalItemCount] always. *)
Theorem integer_arithmetic_is_exact_on_safe_integers (a b : Money) (q : Z) (cart : Cart) :
  valid_money a -> valid_money b -> reachable cart ->
  (Money.amount a + Money.amount b <= Binary64.MAX_SAFE_INTEGER ->
   Money64.addMoney (Money64.of_Money a) (Money64.of_Money b)
   = Money64.of_Result (Money.addMoney a b))
  /\ (Money.amount a <= Binary64.MAX_SAFE_INTEGER ->
      Money64.subtractMoney (Money64.of_Money a) (Money64.of_Money b)
      = Money64.of_Result (Money.subtractMoney a b))
  /\ (Money.amount a * q <= Binary64.MAX_SAFE_INTEGER ->
      Money64.multiplyMoney (Money64.of_Money a) (Binary64.of_Z q)
      = Money64.of_Result (Money.multiplyMoney a (inject_Z q)))
  /\ (sum_line_totals (Cart.items cart) <= Binary64.MAX_SAFE_INTEGER ->
      Cart64.calculateCartTotal cart = Money64.of_Result (Cart.calculateCartTotal cart))
  /\ Cart64.getTotalItemCount cart = Binary64.of_Z (Cart.getTotalItemCount cart).
Proof.
  intros Ha Hb Hreach.
  pose proof (reachable_coherent cart Hreach) as Hco.
  pose proof (reachable_valid_items cart Hreach) as Hvalid.
  split; [exact (addMoney_exact a b Ha Hb) |].
  split; [exact (subtractMoney_exact a b Ha Hb) |].
  split; [exact (multiplyMoney_exact a q Ha) |].
  split.
  - intros Hsafe. rewrite (calculateCartTotal64_coherent cart Hco Hsafe).
    rewrite (calculateCartTotal_coherent cart Hco). reflexivity.
  - rewrite getTotalItemCount_sum. unfold Cart64.getTotalItemCount.
    change Binary64.zero with (Binary64.of_Z 0).
    pose proof (sum_quantities_le _ Hvalid) as Hle. destruct Hco as [_ Hlen].
    unfold Cart.MAX_UNIQUE_ITEMS in Hlen.
    rewrite (fold_count64 _ 0 Hvalid); [reflexivity | lia |].
    unfold Binary64.MAX_SAFE_INTEGER. lia.
Qed.

Lemma integer_arithmetic_is_exact_on_safe_integers_witness :
  Money64.multiplyMoney (Money64.of_Money (Money.mk 1000 EUR)) (Binary64.of_Z 2)
  = Money64.of_Result (Money.multiplyMoney (Money.mk 1000 EUR) (inject_Z 2))
  /\ Cart64.calculateCartTotal euro_cart = Money64.of_Result (Cart.calculateCartTotal euro_cart).
Proof.
  destruct (integer_arithmetic_is_exact_on_safe_integers
              (Money.mk 1000 EUR) (Money.mk 500 EUR) 2 euro_cart)
    as (_ & _ & Hmul & Htotal & _).
  - unfold valid_money. simpl. lia.
  - unfold valid_money. simpl. lia.
  - eapply (reach_add w0 _
              (CreateCartItemInput.set_currency (input_of "p1" 1000 2 "i1") (Some USD))).
    + eapply (reach_create w0 "s1" (Some EUR)). vm_compute. reflexivity.
    + vm_compute. reflexivity.
  - split; [apply Hmul | apply Htotal]; vm_compute; discriminate.
Defined.

Lemma trimEnd_cons (c : ascii) (r : string) :
  trimEnd (String c r)
  = match trimEnd r with
    | EmptyString => if is_whitespace c then EmptyString else String c EmptyString
    | r' => String c r'
    end.
Proof. reflexivity. Qed.

Lemma trimEnd_idempotent (s : string) : trimEnd (trimEnd s) = trimEnd s.
Proof.
  induction s as [| c r IH]; [reflexivity |].
  rewrite (trimEnd_cons c r).
  destruct (trimEnd r) as [| d r'] eqn:Hr.
  - destruct (is_whitespace c) eqn:Hc; [reflexivity |].
    rewrite trimEnd_cons. simpl. rewrite Hc. reflexivity.
  - rewrite trimEnd_cons, IH. reflexivity.
Qed.

Lemma trimStart_trimEnd (s : string) :
  trimStart s = s -> trimStart (trimEnd s) = trimEnd s.
Proof.
  destruct s as [| c r]; [reflexivity |]. simpl.
  destruct (is_whitespace c) eqn:Hc.
  - intros H. exfalso.
    assert (String.length (trimStart r) <= String.length r)%nat as Hlen.
    { clear. induction r as [| d r IH]; simpl; [lia |].
      destruct (is_whitespace d); simpl; lia. }
    rewrite H in Hlen. simpl in Hlen. lia.
  - intros _. destruct (trimEnd r); simpl; rewrite Hc; reflexivity.
Qed.

Lemma trimStart_idempotent (s : string) : trimStart (trimStart s) = trimStart s.
Proof.
  induction s as [| c r IH]; simpl; [reflexivity |].
  destruct (is_whitespace c) eqn:Hc; [exact IH |]. simpl. rewrite Hc. reflexivity.
Qed.

Lemma trim_idempotent (s : string) : trim (trim s) = trim s.
Proof.
  unfold trim.
  rewrite (trimStart_trimEnd (trimStart s) (trimStart_idempotent s)).
  apply trimEnd_idempotent.
Qed.

Lemma trim_falsy (s : string) : falsy s = true -> trim s = EmptyString.
Proof. destruct s; [reflexivity | discriminate]. Qed.

(** X10.  [createProductId] and [createSessionId] do not see surrounding
    whitespace: called with a string or with the string trimmed, each
    returns the same value object or throws the same error. *)
Theorem identifiers_ignore_surrounding_whitespace (raw : string) :
  ProductId.createProductId (trim raw) = ProductId.createProductId raw
  /\ SessionId.createSessionId (trim raw) = SessionId.createSessionId raw.
Proof.
  unfold ProductId.createProductId, SessionId.createSessionId, is_empty_string.
  rewrite trim_idempotent.
  assert (falsy (trim raw) || falsy (trim raw) = falsy raw || falsy (trim raw)) as ->.
  { destruct (falsy raw) eqn:Hraw.
    - rewrite (trim_falsy raw Hraw). reflexivity.
    - destruct (falsy (trim raw)); reflexivity. }
  split; reflexivity.
Qed.

(** * The cart repository *)

Lemma length_string_of_list_ascii (l : list ascii) :
  String.length (string_of_list_ascii l) = length l.
Proof. induction l as [| c l IH]; simpl; [reflexivity | rewrite IH; reflexivity]. Qed.

Lemma tally_codec_round_trips : codec_round_trips tally_codec.
Proof.
  intros d. simpl. rewrite length_string_of_list_ascii, repeat_length.
  destruct (Z.ltb_spec d 0); simpl; lia.
Qed.

Section RepositoryFacts.

Variable codec : DateCodec.
Hypothesis codec_ok : codec_round_trips codec.

Lemma deserialize_serialize_item (item : CartItem) :
  InMemoryCartRepository.deserializeItem codec
    (InMemoryCartRepository.serializeItem codec item) = item.
Proof.
  destruct item as [itemId [p] name [a c] [q] added].
  unfold InMemoryCartRepository.deserializeItem, InMemoryCartRepository.serializeItem.
  simpl. rewrite codec_ok. reflexivity.
Qed.

Lemma deserialize_serialize_items (items : list CartItem) :
  map (InMemoryCartRepository.deserializeItem codec)
      (map (InMemoryCartRepository.serializeItem codec) items) = items.
Proof.
  induction items as [| item rest IH]; simpl; [reflexivity |].
  rewrite deserialize_serialize_item, IH. reflexivity.
Qed.

Lemma deserialize_serialize_cart (cart : Cart) :
  SessionId.SESSION_ID_PATTERN (SessionId.value (Cart.sessionId cart)) = true ->
  InMemoryCartRepository.deserializeCart codec
    (InMemoryCartRepository.serializeCart codec cart) = Ok cart.
Proof.
  intros Hpat. unfold InMemoryCartRepository.deserializeCart, Cart.reconstitute. simpl.
  rewrite (createSessionId_accepted _ Hpat). simpl.
  rewrite deserialize_serialize_items, !codec_ok.
  destruct cart as [[sid] items status created updated cur]. reflexivity.
Qed.

Lemma find_after_save (carts : gmap string StoredCart) (cart : Cart) :
  SessionId.SESSION_ID_PATTERN (SessionId.value (Cart.sessionId cart)) = true ->
  InMemoryCartRepository.findBySessionId codec
    (InMemoryCartRepository.save codec carts cart)
    (SessionId.value (Cart.sessionId cart)) = Ok (Some cart)
  /\ InMemoryCartRepository.exists_
       (InMemoryCartRepository.save codec carts cart)
       (SessionId.value (Cart.sessionId cart)) = true.
Proof.
  intros Hpat.
  unfold InMemoryCartRepository.findBySessionId, InMemoryCartRepository.save,
    InMemoryCartRepository.exists_.
  rewrite lookup_insert_eq. split.
  - rewrite (deserialize_serialize_cart cart Hpat). reflexivity.
  - apply bool_decide_eq_true. eexists. reflexivity.
Qed.

(** X11.  A cart that is saved is read back unchanged: after [save],
    [findBySessionId] with the value of the cart's sessionId returns a cart
    equal to the saved one in every field, provided that value has the
    shape of a SessionId (as [createSessionId] guarantees) and that parsing
    the ISO string of a date gives the date back. *)
Theorem save_then_find (carts : gmap string StoredCart) (cart : Cart) :
  SessionId.SESSION_ID_PATTERN (SessionId.value (Cart.sessionId cart)) = true ->
  InMemoryCartRepository.findBySessionId codec
    (InMemoryCartRepository.save codec carts cart)
    (SessionId.value (Cart.sessionId cart)) = Ok (Some cart)
  /\ InMemoryCartRepository.exists_
       (InMemoryCartRepository.save codec carts cart)
       (SessionId.value (Cart.sessionId cart)) = true.
Proof. exact (find_after_save carts cart). Qed.

End RepositoryFacts.

Lemma save_then_find_witness :
  InMemoryCartRepository.findBySessionId tally_codec
    (InMemoryCartRepository.save tally_codec ∅
       (small_cart "s1" [small_item "i1" "p1" 1000 2] active)) "s1"
  = Ok (Some (small_cart "s1" [small_item "i1" "p1" 1000 2] active)).
Proof.
  apply (save_then_find tally_codec tally_codec_round_trips ∅
           (small_cart "s1" [small_item "i1" "p1" 1000 2] active)).
  reflexivity.
Defined.

(** X12.  [save] touches one session only: the cart stored for any other
    session id is read as before; the number of stored carts stays the same
    when the session already had a cart and grows by one otherwise; and the
    cart saved last is the one stored. *)
Theorem save_is_upsert (codec : DateCodec) (carts : gmap string StoredCart)
    (cart : Cart) :
  (forall other, other <> SessionId.value (Cart.sessionId cart) ->
     InMemoryCartRepository.findBySessionId codec
       (InMemoryCartRepository.save codec carts cart) other
     = InMemoryCartRepository.findBySessionId codec carts other)
  /\ InMemoryCartRepository.size (InMemoryCartRepository.save codec carts cart)
     = (if InMemoryCartRepository.exists_ carts (SessionId.value (Cart.sessionId cart))
        then InMemoryCartRepository.size carts
        else S (InMemoryCartRepository.size carts))
  /\ (forall cart2, Cart.sessionId cart2 = Cart.sessionId cart ->
        InMemoryCartRepository.save codec (InMemoryCartRepository.save codec carts cart) cart2
        = InMemoryCartRepository.save codec carts cart2).
Proof.
  unfold InMemoryCartRepository.findBySessionId, InMemoryCartRepository.save,
    InMemoryCartRepository.size, InMemoryCartRepository.exists_.
  split; [| split].
  - intros other Hne. rewrite lookup_insert_ne by congruence. reflexivity.
  - rewrite map_size_insert.
    destruct (carts !! SessionId.value (Cart.sessionId cart)) as [stored |] eqn:Hk.
    + rewrite bool_decide_eq_true_2 by (eexists; reflexivity). reflexivity.
    + rewrite bool_decide_eq_false_2; [reflexivity |]. intros [x Hx]. discriminate.
  - intros cart2 ->. apply insert_insert_eq.
Qed.

(** X13.  [delete] returns whether a cart was stored for the session id;
    afterwards [findBySessionId] returns null and [exists] false for it,
    every other session is read as before, and the number of stored carts
    is one less exactly when the answer was true. *)
Theorem delete_removes_session (codec : DateCodec) (carts : gmap string StoredCart)
    (sessionId : string) :
  let (deleted, carts') := InMemoryCartRepository.delete carts sessionId in
  deleted = InMemoryCartRepository.exists_ carts sessionId
  /\ InMemoryCartRepository.findBySessionId codec carts' sessionId = Ok None
  /\ InMemoryCartRepository.exists_ carts' sessionId = false
  /\ (forall other, other <> sessionId ->
        InMemoryCartRepository.findBySessionId codec carts' other
        = InMemoryCartRepository.findBySessionId codec carts other)
  /\ InMemoryCartRepository.size carts'
     = (if deleted then pred (InMemoryCartRepository.size carts)
        else InMemoryCartRepository.size carts).
Proof.
  unfold InMemoryCartRepository.delete, InMemoryCartRepository.findBySessionId,
    InMemoryCartRepository.exists_, InMemoryCartRepository.size.
  split; [reflexivity |]. rewrite lookup_delete_eq.
  split; [reflexivity |]. split.
  { apply bool_decide_eq_false. intros [x Hx]. discriminate. }
  split.
  - intros other Hne. rewrite lookup_delete_ne by congruence. reflexivity.
  - rewrite map_size_delete. destruct (carts !! sessionId) as [stored |] eqn:Hk.
    + rewrite bool_decide_eq_true_2 by (eexists; reflexivity). reflexivity.
    + rewrite bool_decide_eq_false_2; [reflexivity |]. intros [x Hx]. discriminate.
Qed.

(** * The use cases *)

Lemma find_under_own_id (codec : DateCodec) (carts : gmap string StoredCart) (sessionId : string) (cart : Cart) :
  stored_under_own_id carts ->
  InMemoryCartRepository.findBySessionId codec carts sessionId = Ok (Some cart) ->
  SessionId.value (Cart.sessionId cart) = sessionId
  /\ SessionId.SESSION_ID_PATTERN sessionId = true
  /\ exists stored,
       carts !! sessionId = Some stored
       /\ Cart.items cart
          = map (InMemoryCartRepository.deserializeItem codec) (StoredCart.items stored)
       /\ Cart.status cart = StoredCart.status stored.
Proof.
  intros Hwf. unfold InMemoryCartRepository.findBySessionId.
  destruct (carts !! sessionId) as [stored |] eqn:Hk; [| discriminate].
  destruct (Hwf _ _ Hk) as [Hid Hpat].
  unfold InMemoryCartRepository.deserializeCart, Cart.reconstitute.
  rewrite Hid, (createSessionId_accepted _ Hpat). simpl.
  intros [= <-]. simpl. split; [reflexivity |]. split; [exact Hpat |].
  exists stored. auto.
Qed.

Lemma find_never_throws (codec : DateCodec) (carts : gmap string StoredCart) (sessionId : string) :
  stored_under_own_id carts ->
  exists found, InMemoryCartRepository.findBySessionId codec carts sessionId = Ok found.
Proof.
  intros Hwf. unfold InMemoryCartRepository.findBySessionId.
  destruct (carts !! sessionId) as [stored |] eqn:Hk; [| eexists; reflexivity].
  destruct (Hwf _ _ Hk) as [Hid Hpat].
  unfold InMemoryCartRepository.deserializeCart, Cart.reconstitute.
  rewrite Hid, (createSessionId_accepted _ Hpat). simpl. eexists. reflexivity.
Qed.

Lemma save_keeps_own_id (codec : DateCodec) (carts : gmap string StoredCart) (cart : Cart) :
  stored_under_own_id carts ->
  SessionId.SESSION_ID_PATTERN (SessionId.value (Cart.sessionId cart)) = true ->
  stored_under_own_id (InMemoryCartRepository.save codec carts cart).
Proof.
  intros Hwf Hpat k stored. unfold InMemoryCartRepository.save.
  destruct (decide (k = SessionId.value (Cart.sessionId cart))) as [-> | Hne].
  - rewrite lookup_insert_eq. intros [= <-]. simpl. auto.
  - rewrite lookup_insert_ne by congruence. apply Hwf.
Qed.

Lemma createCart_session (w : World) (sessionId : string) (currency : option Currency)
    (cart : Cart) :
  Cart.createCart w sessionId currency = Ok cart ->
  SessionId.value (Cart.sessionId cart) = trim sessionId
  /\ SessionId.SESSION_ID_PATTERN (trim sessionId) = true.
Proof.
  unfold Cart.createCart. intros H. bind_inv H. injection H as <-. simpl.
  apply createSessionId_Ok in E as [Hv Hpat]. rewrite Hv in Hpat. auto.
Qed.

Lemma addItemToCart_session (w : World) (cart : Cart) (input : CreateCartItemInput)
    (cart' : Cart) :
  Cart.addItemToCart w cart input = Ok cart' -> Cart.sessionId cart' = Cart.sessionId cart.
Proof.
  intros H. apply addItemToCart_Ok_cases in H as [Hm | [_ Hn]].
  - destruct Hm as (? & ? & ? & ? & _ & _ & _ & ->). reflexivity.
  - destruct Hn as (? & _ & ->). reflexivity.
Qed.

(** X14.  The AddItemToCart use case rejects with ProductNotFoundError when
    the catalogue has no product under the productId, and with
    ProductOutOfStockError when the product is not in stock, before it looks
    at the session or at the quantity; whenever it rejects, the cart storage
    is as before; when it resolves, the returned cart is active and is the
    one saved. *)
Theorem add_item_use_case_outcomes (codec : DateCodec) (w : World) (products : gmap string Product)
    (carts : gmap string StoredCart) (sessionId productId : string) (quantity : number) :
  let result := UseCases.AddItemToCart codec w products carts sessionId productId quantity in
  (products !! productId = None ->
   result = (Threw (Domain (ProductNotFoundError productId)), carts))
  /\ (forall product, products !! productId = Some product ->
        Product.inStock product = false ->
        result = (Threw (Domain (ProductOutOfStockError productId)), carts))
  /\ (forall t, fst result = Threw t -> snd result = carts)
  /\ (forall cart, fst result = Returned cart ->
        snd result = InMemoryCartRepository.save codec carts cart
        /\ Cart.status cart = active
        /\ exists product, products !! productId = Some product
                           /\ Product.inStock product = true).
Proof.
  cbv zeta. unfold UseCases.AddItemToCart, InMemoryProductRepository.findById.
  split; [| split; [| split]].
  - intros ->. reflexivity.
  - intros product -> ->. reflexivity.
  - intros t. destruct (products !! productId) as [product |]; [| intros _; reflexivity].
    destruct (Product.inStock product); simpl; [| intros _; reflexivity].
    destruct (InMemoryCartRepository.findBySessionId codec carts sessionId)
      as [[cart |] | e]; simpl; try (intros _; reflexivity).
    + destruct (Cart.addItemToCart _ _ _); simpl; [discriminate | reflexivity].
    + destruct (Cart.createCart w sessionId None) as [cart | e]; simpl;
        [| intros _; reflexivity].
      destruct (Cart.addItemToCart _ _ _); simpl; [discriminate | reflexivity].
  - intros cart. destruct (products !! productId) as [product |]; [| discriminate].
    destruct (Product.inStock product) eqn:Hstock; simpl; [| discriminate].
    destruct (InMemoryCartRepository.findBySessionId codec carts sessionId)
      as [[found |] | e]; simpl; try discriminate.
    + destruct (Cart.addItemToCart _ _ _) as [updated |] eqn:Hadd; simpl; [| discriminate].
      intros [= <-]. split; [reflexivity |].
      apply addItemToCart_Ok in Hadd as (Hs & Hs' & _). split; [congruence |].
      exists product. auto.
    + destruct (Cart.createCart w sessionId None) as [created | e]; simpl; [| discriminate].
      destruct (Cart.addItemToCart _ _ _) as [updated |] eqn:Hadd; simpl; [| discriminate].
      intros [= <-]. split; [reflexivity |].
      apply addItemToCart_Ok in Hadd as (Hs & Hs' & _). split; [congruence |].
      exists product. auto.
Qed.

Lemma add_item_use_case_outcomes_witness :
  UseCases.AddItemToCart tally_codec small_world sample_products ∅ "s1" "prod-999" 1%Q
  = (Threw (Domain (ProductNotFoundError "prod-999")), ∅)
  /\ UseCases.AddItemToCart tally_codec small_world sample_products ∅ "s1" "prod-006" 1%Q
     = (Threw (Domain (ProductOutOfStockError "prod-006")), ∅).
Proof.
  split.
  - apply (add_item_use_case_outcomes tally_codec small_world sample_products ∅
             "s1" "prod-999" 1%Q).
    vm_compute. reflexivity.
  - apply (add_item_use_case_outcomes tally_codec small_world sample_products ∅
             "s1" "prod-006" 1%Q)
      with (product := Product.mk (ProductId.mk "prod-006") "Monitor Light Bar"
                         "LED monitor light bar with adjustable brightness"
                         (Money.mk 5999 USD) "MLB-006" false).
    + vm_compute. reflexivity.
    + reflexivity.
Defined.

Lemma pattern_is_trimmed (s : string) :
  SessionId.SESSION_ID_PATTERN s = true -> trim s = s.
Proof.
  intros Hpat.
  exact (proj1 (accepted_is_trimmed _ 1 100 session_class_not_whitespace (le_n 1) s Hpat)).
Qed.

(** What [AddItemToCart] does once the product is found and in stock: the
    cart it starts from and the world the domain call sees. *)
Lemma add_item_use_case_Returned (codec : DateCodec) (w : World)
    (products : gmap string Product) (carts : gmap string StoredCart)
    (sessionId productId : string) (quantity : number) (cart : Cart)
    (carts' : gmap string StoredCart) :
  UseCases.AddItemToCart codec w products carts sessionId productId quantity
  = (Returned cart, carts') ->
  exists product start w',
    products !! productId = Some product
    /\ ((InMemoryCartRepository.findBySessionId codec carts sessionId = Ok (Some start)
         /\ w' = w)
        \/ (InMemoryCartRepository.findBySessionId codec carts sessionId = Ok None
            /\ Cart.createCart w sessionId None = Ok start
            /\ w' = after_ticks 2 w))
    /\ Cart.addItemToCart w' start
         {| CreateCartItemInput.productId := ProductId.value (Product.id product);
            CreateCartItemInput.productName := Product.name product;
            CreateCartItemInput.unitPriceInCents :=
              inject_Z (Money.amount (Product.price product));
            CreateCartItemInput.currency := Some (Money.currency (Product.price product));
            CreateCartItemInput.quantity := quantity;
            CreateCartItemInput.itemId := None |} = Ok cart
    /\ carts' = InMemoryCartRepository.save codec carts cart.
Proof.
  unfold UseCases.AddItemToCart, InMemoryProductRepository.findById.
  destruct (products !! productId) as [product |]; [| discriminate].
  destruct (Product.inStock product); simpl; [| discriminate].
  destruct (InMemoryCartRepository.findBySessionId codec carts sessionId)
    as [[found |] | e]; simpl; try discriminate.
  - destruct (Cart.addItemToCart _ _ _) as [updated |] eqn:Hadd; [| discriminate].
    intros [= <- <-]. exists product, found, w. auto.
  - destruct (Cart.createCart w sessionId None) as [created | e] eqn:Hc; simpl;
      [| discriminate].
    destruct (Cart.addItemToCart _ _ _) as [updated |] eqn:Hadd; [| discriminate].
    intros [= <- <-]. exists product, created, (after_ticks 2 w).
    split; [reflexivity |]. split; [right; auto |]. auto.
Qed.

Lemma add_item_use_case_result (codec : DateCodec) (w : World)
    (products : gmap string Product) (carts : gmap string StoredCart)
    (sessionId productId : string) (quantity : number) (cart : Cart)
    (carts' : gmap string StoredCart) :
  codec_round_trips codec ->
  stored_under_own_id carts ->
  UseCases.AddItemToCart codec w products carts sessionId productId quantity
  = (Returned cart, carts') ->
  SessionId.value (Cart.sessionId cart) = trim sessionId
  /\ InMemoryCartRepository.findBySessionId codec carts' (trim sessionId) = Ok (Some cart)
  /\ Cart.getTotalItemCount cart
     = match InMemoryCartRepository.findBySessionId codec carts sessionId with
       | Ok (Some prior) => Cart.getTotalItemCount prior
       | _ => 0
       end + toInteger quantity
  /\ stored_under_own_id carts'.
Proof.
  intros Hcodec Hwf Hrun.
  apply add_item_use_case_Returned in Hrun
    as (product & start & w' & _ & Hstart & Hadd & ->).
  pose proof (addItemToCart_session _ _ _ _ Hadd) as Hsid.
  pose proof (addItemToCart_count _ _ _ _ Hadd) as Hcount. simpl in Hcount.
  assert (SessionId.value (Cart.sessionId start) = trim sessionId
          /\ SessionId.SESSION_ID_PATTERN (trim sessionId) = true
          /\ Cart.getTotalItemCount start
             = match InMemoryCartRepository.findBySessionId codec carts sessionId with
               | Ok (Some prior) => Cart.getTotalItemCount prior
               | _ => 0
               end) as (Hval & Hpat & Hprior).
  { destruct Hstart as [[Hfind _] | (Hfind & Hcreate & _)].
    - destruct (find_under_own_id codec carts sessionId start Hwf Hfind) as (Hv & Hp & _).
      rewrite Hfind, (pattern_is_trimmed _ Hp). auto.
    - rewrite Hfind. destruct (createCart_session _ _ _ _ Hcreate) as [Hv Hp].
      apply createCart_Ok in Hcreate as (_ & Hitems & _).
      unfold Cart.getTotalItemCount. rewrite Hitems. auto. }
  rewrite <- Hsid in Hval. rewrite <- Hval.
  assert (SessionId.SESSION_ID_PATTERN (SessionId.value (Cart.sessionId cart)) = true)
    as Hpat' by (rewrite Hval; exact Hpat).
  split; [reflexivity |].
  split; [exact (proj1 (find_after_save codec Hcodec carts cart Hpat')) |].
  split; [rewrite Hcount, Hprior; reflexivity |].
  apply save_keeps_own_id; assumption.
Qed.



(** X16.  The AddItemToCart use case looks the cart up under the session id
    as given but saves it under the trimmed one.  So, with a session id that
    has surrounding whitespace (the storage holding every cart under its own
    session id), no stored cart is found: when the use case resolves, the
    returned cart holds the added product as its only item, and it is now
    the cart stored for the trimmed session id, whatever was stored there
    before. *)
Theorem add_item_use_case_untrimmed_session (codec : DateCodec) (w : World)
    (products : gmap string Product) (carts : gmap string StoredCart)
    (sessionId productId : string) (quantity : number) (cart : Cart)
    (carts' : gmap string StoredCart) :
  codec_round_trips codec ->
  stored_under_own_id carts ->
  trim sessionId <> sessionId ->
  UseCases.AddItemToCart codec w products carts sessionId productId quantity
  = (Returned cart, carts') ->
  length (Cart.items cart) = 1%nat
  /\ Cart.getTotalItemCount cart = toInteger quantity
  /\ InMemoryCartRepository.findBySessionId codec carts' (trim sessionId) = Ok (Some cart).
Proof.
  intros Hcodec Hwf Hraw Hrun.
  destruct (add_item_use_case_result codec w products carts sessionId productId quantity
              cart carts' Hcodec Hwf Hrun) as (_ & Hfind & Hcount & _).
  assert (InMemoryCartRepository.findBySessionId codec carts sessionId = Ok None) as Hnone.
  { unfold InMemoryCartRepository.findBySessionId.
    destruct (carts !! sessionId) as [stored |] eqn:Hk; [| reflexivity].
    destruct (Hwf _ _ Hk) as [_ Hpat]. exfalso. apply Hraw.
    exact (pattern_is_trimmed _ Hpat). }
  rewrite Hnone in Hcount. split; [| split; [lia | exact Hfind]].
  apply add_item_use_case_Returned in Hrun
    as (product & start & w' & _ & Hstart & Hadd & _).
  destruct Hstart as [[Hfound _] | (_ & Hcreate & _)]; [congruence |].
  apply createCart_Ok in Hcreate as (_ & Hitems & _).
  apply addItemToCart_Ok_cases in Hadd as [Hmerge | [_ Hnew]].
  - destruct Hmerge as (i & existing & ? & ? & Hf & _). rewrite Hitems in Hf. discriminate.
  - destruct Hnew as (newItem & _ & ->). simpl. rewrite Hitems. reflexivity.
Qed.

Lemma add_item_use_case_untrimmed_session_witness :
  exists cart carts',
    UseCases.AddItemToCart tally_codec small_world sample_products
      (InMemoryCartRepository.save tally_codec ∅
         (small_cart "s1" [small_item "i1" "prod-001" 9999 2; small_item "i2" "p2" 500 1]
                     active))
      " s1" "prod-001" (inject_Z 1) = (Returned cart, carts')
    /\ length (Cart.items cart) = 1%nat
    /\ InMemoryCartRepository.findBySessionId tally_codec carts' "s1" = Ok (Some cart).
Proof.
  eexists. eexists. split; [vm_compute; reflexivity |].
  match goal with
  | |- _ /\ InMemoryCartRepository.findBySessionId _ ?carts' _ = Ok (Some ?cart) =>
      destruct (add_item_use_case_untrimmed_session tally_codec small_world sample_products
                  (InMemoryCartRepository.save tally_codec ∅
                     (small_cart "s1" [small_item "i1" "prod-001" 9999 2;
                                       small_item "i2" "p2" 500 1] active))
                  " s1" "prod-001" (inject_Z 1) cart carts')
        as (Hlen & _ & Hfind)
  end.
  - exact tally_codec_round_trips.
  - apply save_keeps_own_id; [| reflexivity].
    intros k stored Hk. rewrite lookup_empty in Hk. discriminate.
  - vm_compute. discriminate.
  - vm_compute. reflexivity.
  - split; [exact Hlen | exact Hfind].
Defined.

(** ** What the use cases keep true of the storage *)

Lemma find_Some_stored (codec : DateCodec) (carts : gmap string StoredCart)
    (sessionId : string) (cart : Cart) :
  InMemoryCartRepository.findBySessionId codec carts sessionId = Ok (Some cart) ->
  SessionId.SESSION_ID_PATTERN (SessionId.value (Cart.sessionId cart)) = true
  /\ exists stored,
       carts !! sessionId = Some stored
       /\ Cart.items cart
          = map (InMemoryCartRepository.deserializeItem codec) (StoredCart.items stored).
Proof.
  unfold InMemoryCartRepository.findBySessionId.
  destruct (carts !! sessionId) as [stored |]; [| discriminate].
  unfold InMemoryCartRepository.deserializeCart, Cart.reconstitute. intros H.
  bind_inv H. bind_inv E. injection E as <-. injection H as <-. simpl.
  apply createSessionId_Ok in E0 as [_ Hpat]. split; [exact Hpat |].
  exists stored. auto.
Qed.

Lemma deserialized_products (codec : DateCodec) (l : list StoredCartItem) :
  map product_of (map (InMemoryCartRepository.deserializeItem codec) l)
  = map StoredCartItem.productId l.
Proof. induction l as [| x l IH]; simpl; [reflexivity | rewrite IH; reflexivity]. Qed.

Lemma serialized_products (codec : DateCodec) (l : list CartItem) :
  map StoredCartItem.productId (map (InMemoryCartRepository.serializeItem codec) l)
  = map product_of l.
Proof. induction l as [| x l IH]; simpl; [reflexivity | rewrite IH; reflexivity]. Qed.

Lemma found_cart_unique (codec : DateCodec) (carts : gmap string StoredCart)
    (sessionId : string) (cart : Cart) :
  stored_products_unique carts ->
  InMemoryCartRepository.findBySessionId codec carts sessionId = Ok (Some cart) ->
  unique_products (Cart.items cart).
Proof.
  intros Huniq Hfind. apply find_Some_stored in Hfind as (_ & stored & Hk & ->).
  unfold unique_products. rewrite deserialized_products. exact (Huniq _ _ Hk).
Qed.

Lemma save_keeps_invariants (codec : DateCodec) (carts : gmap string StoredCart)
    (cart : Cart) :
  stored_under_own_id carts /\ stored_products_unique carts ->
  SessionId.SESSION_ID_PATTERN (SessionId.value (Cart.sessionId cart)) = true ->
  unique_products (Cart.items cart) ->
  stored_under_own_id (InMemoryCartRepository.save codec carts cart)
  /\ stored_products_unique (InMemoryCartRepository.save codec carts cart).
Proof.
  intros [Hwf Huniq] Hpat Hcart. split; [apply save_keeps_own_id; assumption |].
  intros k stored. unfold InMemoryCartRepository.save.
  destruct (decide (k = SessionId.value (Cart.sessionId cart))) as [-> | Hne].
  - rewrite lookup_insert_eq. intros [= <-]. simpl.
    rewrite serialized_products. exact Hcart.
  - rewrite lookup_insert_ne by congruence. apply Huniq.
Qed.

Lemma addItemToCart_keeps_unique (w : World) (cart : Cart) (input : CreateCartItemInput)
    (cart' : Cart) :
  trim (CreateCartItemInput.productId input) = CreateCartItemInput.productId input ->
  unique_products (Cart.items cart) ->
  Cart.addItemToCart w cart input = Ok cart' ->
  unique_products (Cart.items cart').
Proof.
  intros Htrim Huniq Hop.
  apply addItemToCart_Ok_cases in Hop as [Hmerge | [Hnone Hnew]].
  - destruct Hmerge as (i & existing & additional & newQuantity & Hfind & _ & _ & ->).
    apply list_find_Some in Hfind as (Hi & _ & _). simpl.
    apply unique_products_insert; assumption.
  - destruct Hnew as (newItem & Hcreate & ->). simpl.
    apply createCartItem_Ok in Hcreate as (_ & _ & Hprod). simpl in Hprod.
    rewrite Htrim in Hprod.
    apply unique_products_snoc; [| exact Huniq].
    apply list_find_None in Hnone. rewrite Hprod. exact Hnone.
Qed.

Lemma session_after_op (cart cart' : Cart) :
  Cart.sessionId cart' = Cart.sessionId cart ->
  SessionId.SESSION_ID_PATTERN (SessionId.value (Cart.sessionId cart)) = true ->
  SessionId.SESSION_ID_PATTERN (SessionId.value (Cart.sessionId cart')) = true.
Proof. intros ->. auto. Qed.

Lemma removeItemFromCart_session (w : World) (cart : Cart) (itemId : string) (cart' : Cart) :
  Cart.removeItemFromCart w cart itemId = Ok cart' ->
  Cart.sessionId cart' = Cart.sessionId cart.
Proof.
  unfold Cart.removeItemFromCart. intros H. bind_inv H.
  destruct (list_find _ _); [| discriminate]. injection H as <-. reflexivity.
Qed.

Lemma updateItemQuantity_session (w : World) (cart : Cart) (itemId : string)
    (quantity : number) (cart' : Cart) :
  Cart.updateItemQuantity w cart itemId quantity = Ok cart' ->
  Cart.sessionId cart' = Cart.sessionId cart.
Proof.
  unfold Cart.updateItemQuantity. intros H. bind_inv H.
  destruct (list_find _ _) as [[i existing] |]; [| discriminate].
  bind_inv H. injection H as <-. reflexivity.
Qed.

Lemma checkout_session (w : World) (cart cart' : Cart) :
  Cart.checkout w cart = Ok cart' -> Cart.sessionId cart' = Cart.sessionId cart.
Proof.
  unfold Cart.checkout. intros H. destruct (negb _).
  - destruct (decide _); [discriminate |]. destruct (Cart.isCartEmpty cart); discriminate.
  - injection H as <-. reflexivity.
Qed.

(** X17.  The use cases keep the storage well formed.  If every stored cart
    sits under its own session id and holds at most one item per productId,
    and the ids of the catalogue products are trimmed, then the same is true
    of the storage after AddItemToCart, RemoveItemFromCart,
    UpdateItemQuantity and CheckoutCart, whatever they are called with and
    whether they resolve or reject. *)
Theorem use_cases_keep_storage_invariants (codec : DateCodec) (w : World)
    (products : gmap string Product) (carts : gmap string StoredCart) :
  catalogue_ids_trimmed products ->
  stored_under_own_id carts /\ stored_products_unique carts ->
  forall (sessionId productId itemId : string) (quantity : number)
         (taxRate : option number),
    let keeps (carts' : gmap string StoredCart) :=
      stored_under_own_id carts' /\ stored_products_unique carts' in
    keeps (snd (UseCases.AddItemToCart codec w products carts sessionId productId quantity))
    /\ keeps (snd (UseCases.RemoveItemFromCart codec w carts sessionId itemId))
    /\ keeps (snd (UseCases.UpdateItemQuantity codec w carts sessionId itemId quantity))
    /\ keeps (snd (UseCases.CheckoutCart codec w carts sessionId taxRate)).
Proof.
  intros Hcat Hinv sessionId productId itemId quantity taxRate keeps. subst keeps.
  cbv beta. destruct Hinv as [Hwf Huniq].
  split; [| split; [| split]].
  - unfold UseCases.AddItemToCart, InMemoryProductRepository.findById.
    destruct (products !! productId) as [product |] eqn:Hp; [| simpl; auto].
    destruct (Product.inStock product); simpl; [| auto].
    destruct (InMemoryCartRepository.findBySessionId codec carts sessionId)
      as [[found |] | e] eqn:Hfind; simpl; [| | auto].
    + destruct (Cart.addItemToCart _ _ _) as [updated |] eqn:Hadd; simpl; [| auto].
      apply save_keeps_invariants; [auto | |].
      * apply (session_after_op found); [exact (addItemToCart_session _ _ _ _ Hadd) |].
        exact (proj1 (find_Some_stored _ _ _ _ Hfind)).
      * eapply addItemToCart_keeps_unique; [| | exact Hadd].
        -- simpl. exact (Hcat _ _ Hp).
        -- exact (found_cart_unique _ _ _ _ Huniq Hfind).
    + destruct (Cart.createCart w sessionId None) as [created | e] eqn:Hc; simpl; [| auto].
      destruct (Cart.addItemToCart _ _ _) as [updated |] eqn:Hadd; simpl; [| auto].
      apply save_keeps_invariants; [auto | |].
      * apply (session_after_op created); [exact (addItemToCart_session _ _ _ _ Hadd) |].
        destruct (createCart_session _ _ _ _ Hc) as [-> Hpat]. exact Hpat.
      * eapply addItemToCart_keeps_unique; [| | exact Hadd].
        -- simpl. exact (Hcat _ _ Hp).
        -- apply createCart_Ok in Hc as (_ & -> & _). apply NoDup_nil_2.
  - unfold UseCases.RemoveItemFromCart.
    destruct (InMemoryCartRepository.findBySessionId codec carts sessionId)
      as [[found |] | e] eqn:Hfind; simpl; [| auto | auto].
    destruct (negb _); simpl; [auto |].
    destruct (Cart.removeItemFromCart w found itemId) as [updated |] eqn:Hop; simpl; [| auto].
    apply save_keeps_invariants; [auto | |].
    + apply (session_after_op found); [exact (removeItemFromCart_session _ _ _ _ Hop) |].
      exact (proj1 (find_Some_stored _ _ _ _ Hfind)).
    + apply removeItemFromCart_Ok in Hop as (_ & _ & _ & ->).
      apply unique_products_filter. exact (found_cart_unique _ _ _ _ Huniq Hfind).
  - unfold UseCases.UpdateItemQuantity.
    destruct (InMemoryCartRepository.findBySessionId codec carts sessionId)
      as [[found |] | e] eqn:Hfind; simpl; [| auto | auto].
    destruct (negb _); simpl; [auto |].
    destruct (Cart.updateItemQuantity w found itemId quantity) as [updated |] eqn:Hop;
      simpl; [| auto].
    apply save_keeps_invariants; [auto | |].
    + apply (session_after_op found); [exact (updateItemQuantity_session _ _ _ _ _ Hop) |].
      exact (proj1 (find_Some_stored _ _ _ _ Hfind)).
    + apply updateItemQuantity_Ok in Hop as (_ & _ & _ & i & existing & q' & Hi & _ & ->).
      apply unique_products_insert; [exact Hi |].
      exact (found_cart_unique _ _ _ _ Huniq Hfind).
  - unfold UseCases.CheckoutCart.
    destruct (InMemoryCartRepository.findBySessionId codec carts sessionId)
      as [[found |] | e] eqn:Hfind; simpl; [| auto | auto].
    destruct (decide _); simpl; [auto |].
    destruct (_ =? _)%nat; simpl; [auto |].
    destruct (Cart.checkout w found) as [checkedOut |] eqn:Hop; simpl; [| auto].
    apply save_keeps_invariants; [auto | |].
    + apply (session_after_op found); [exact (checkout_session _ _ _ Hop) |].
      exact (proj1 (find_Some_stored _ _ _ _ Hfind)).
    + apply checkout_Ok in Hop as (_ & _ & _ & ->).
      exact (found_cart_unique _ _ _ _ Huniq Hfind).
Qed.

Lemma use_cases_keep_storage_invariants_witness :
  stored_products_unique
    (snd (UseCases.AddItemToCart tally_codec small_world sample_products ∅
            "s1" "prod-001" (inject_Z 2))).
Proof.
  destruct (use_cases_keep_storage_invariants tally_codec small_world sample_products ∅)
    with (sessionId := "s1"%string) (productId := "prod-001"%string)
         (itemId := "i1"%string) (quantity := inject_Z 2) (taxRate := @None number)
    as [[_ Huniq] _].
  - intros k product Hk.
    destruct (decide (k = "prod-001"%string)) as [-> | Hne1].
    + vm_compute in Hk. injection Hk as <-. reflexivity.
    + unfold sample_products in Hk. rewrite lookup_insert_ne in Hk by congruence.
      destruct (decide (k = "prod-006"%string)) as [-> | Hne6].
      * rewrite lookup_insert_eq in Hk. injection Hk as <-. reflexivity.
      * rewrite lookup_insert_ne in Hk by congruence. rewrite lookup_empty in Hk.
        discriminate.
  - split; intros k stored Hk; rewrite lookup_empty in Hk; discriminate.
  - exact Huniq.
Defined.

(** ** Removing, updating and checking out through the use cases *)

Lemma itemExists_false (cart : Cart) (itemId : string) :
  Forall (fun item => CartItem.itemId item <> itemId) (Cart.items cart) ->
  UseCases.itemExists cart itemId = false.
Proof.
  intros Hnone. unfold UseCases.itemExists. apply bool_decide_eq_false.
  intros Hex. apply Exists_exists in Hex as (x & Hx & Hid).
  rewrite Forall_forall in Hnone. exact (Hnone x Hx Hid).
Qed.

Lemma itemExists_true (cart : Cart) (itemId : string) :
  Exists (fun item => CartItem.itemId item = itemId) (Cart.items cart) ->
  UseCases.itemExists cart itemId = true.
Proof. intros Hex. unfold UseCases.itemExists. apply bool_decide_eq_true. exact Hex. Qed.

Lemma removeItemFromCart_found (w : World) (cart : Cart) (itemId : string) :
  Cart.status cart = active ->
  Exists (fun item => CartItem.itemId item = itemId) (Cart.items cart) ->
  Cart.removeItemFromCart w cart itemId
  = Ok (Cart.with_items cart
          (filter (fun item => CartItem.itemId item <> itemId) (Cart.items cart))
          (time w 0)).
Proof.
  intros Hs Hex. unfold Cart.removeItemFromCart.
  rewrite (assertCartIsActive_active cart Hs). simpl.
  apply Exists_exists in Hex as (x & Hx & Hid).
  destruct (list_find_elem_of (fun item => CartItem.itemId item = itemId)
              (Cart.items cart) x Hx Hid) as [[i y] ->].
  reflexivity.
Qed.

(** X18.  The RemoveItemFromCart use case rejects with CartNotFoundError
    when no cart is stored for the session id, and with ItemNotFoundError
    when the cart has no item with the itemId, also when the cart is no
    longer active; when the item is there and the cart is not active it
    rejects with the plain Error of the core (CartNotActive); when the item
    is there and the cart is active it resolves to the cart without the
    items carrying the itemId and saves it.  Whenever it rejects, the
    storage is as before. *)
Theorem remove_item_use_case_outcomes (codec : DateCodec) (w : World)
    (carts : gmap string StoredCart) (sessionId itemId : string) :
  let result := UseCases.RemoveItemFromCart codec w carts sessionId itemId in
  (InMemoryCartRepository.findBySessionId codec carts sessionId = Ok None ->
   result = (Threw (Domain (CartNotFoundError sessionId)), carts))
  /\ (forall cart,
        InMemoryCartRepository.findBySessionId codec carts sessionId = Ok (Some cart) ->
        (Forall (fun item => CartItem.itemId item <> itemId) (Cart.items cart) ->
         result = (Threw (Domain (ItemNotFoundError itemId)), carts))
        /\ (Exists (fun item => CartItem.itemId item = itemId) (Cart.items cart) ->
            (Cart.status cart <> active ->
             exists e, result = (Threw (PlainError e), carts)
                       /\ kind e = Kind.CartNotActive)
            /\ (Cart.status cart = active ->
                exists cart',
                  result = (Returned cart', InMemoryCartRepository.save codec carts cart')
                  /\ Cart.items cart'
                     = filter (fun item => CartItem.itemId item <> itemId) (Cart.items cart)
                  /\ Cart.status cart' = active)))
  /\ (forall t, fst result = Threw t -> snd result = carts).
Proof.
  cbv zeta. unfold UseCases.RemoveItemFromCart. split; [| split].
  - intros ->. reflexivity.
  - intros cart ->. split.
    + intros Hnone. rewrite (itemExists_false cart itemId Hnone). reflexivity.
    + intros Hex. rewrite (itemExists_true cart itemId Hex). simpl. split.
      * intros Hs. destruct (assertCartIsActive_inactive cart Hs) as (e & He & Hk).
        exists e. split; [| exact Hk].
        unfold Cart.removeItemFromCart. rewrite He. reflexivity.
      * intros Hs. rewrite (removeItemFromCart_found w cart itemId Hs Hex).
        eexists. split; [reflexivity |]. split; [reflexivity | exact Hs].
  - intros t.
    destruct (InMemoryCartRepository.findBySessionId codec carts sessionId)
      as [[cart |] | e]; simpl; try (intros _; reflexivity).
    destruct (negb _); simpl; [intros _; reflexivity |].
    destruct (Cart.removeItemFromCart w cart itemId); simpl; [discriminate | reflexivity].
Qed.

Lemma remove_item_use_case_outcomes_witness :
  UseCases.RemoveItemFromCart tally_codec small_world ∅ "s1" "i1"
  = (Threw (Domain (CartNotFoundError "s1")), ∅)
  /\ UseCases.RemoveItemFromCart tally_codec small_world
       (InMemoryCartRepository.save tally_codec ∅
          (small_cart "s1" [small_item "i1" "p1" 1000 2] checked_out)) "s1" "i7"
     = (Threw (Domain (ItemNotFoundError "i7")),
        InMemoryCartRepository.save tally_codec ∅
          (small_cart "s1" [small_item "i1" "p1" 1000 2] checked_out)).
Proof.
  split.
  - apply (remove_item_use_case_outcomes tally_codec small_world ∅ "s1" "i1").
    reflexivity.
  - apply (remove_item_use_case_outcomes tally_codec small_world
             (InMemoryCartRepository.save tally_codec ∅
                (small_cart "s1" [small_item "i1" "p1" 1000 2] checked_out)) "s1" "i7")
      with (cart := small_cart "s1" [small_item "i1" "p1" 1000 2] checked_out).
    + vm_compute. reflexivity.
    + repeat constructor. simpl. discriminate.
Defined.

(** X19.  The UpdateItemQuantity use case rejects with CartNotFoundError
    when no cart is stored for the session id and with ItemNotFoundError
    when the cart has no item with the itemId, whatever the quantity and
    the status of the cart; when the item is there it does what
    [updateItemQuantity] of the core does: a cart that is not active is
    rejected with CartNotActive, a quantity that is not an integer in 1..99
    with the error of [createQuantity], and otherwise the cart with the new
    quantity is returned and saved.  Whenever it rejects, the storage is as
    before. *)
Theorem update_quantity_use_case_outcomes (codec : DateCodec) (w : World)
    (carts : gmap string StoredCart) (sessionId itemId : string) (quantity : number) :
  let result := UseCases.UpdateItemQuantity codec w carts sessionId itemId quantity in
  (InMemoryCartRepository.findBySessionId codec carts sessionId = Ok None ->
   result = (Threw (Domain (CartNotFoundError sessionId)), carts))
  /\ (forall cart,
        InMemoryCartRepository.findBySessionId codec carts sessionId = Ok (Some cart) ->
        (Forall (fun item => CartItem.itemId item <> itemId) (Cart.items cart) ->
         result = (Threw (Domain (ItemNotFoundError itemId)), carts))
        /\ (Exists (fun item => CartItem.itemId item = itemId) (Cart.items cart) ->
            (Cart.status cart <> active ->
             exists e, result = (Threw (PlainError e), carts)
                       /\ kind e = Kind.CartNotActive)
            /\ (Cart.status cart = active ->
                (forall e, Quantity.createQuantity quantity = Err e ->
                           result = (Threw (PlainError e), carts))
                /\ (forall q, Quantity.createQuantity quantity = Ok q ->
                      exists cart',
                        result
                        = (Returned cart', InMemoryCartRepository.save codec carts cart')
                        /\ Cart.updateItemQuantity w cart itemId quantity = Ok cart'
                        /\ Cart.status cart' = active
                        /\ length (Cart.items cart') = length (Cart.items cart)))))
  /\ (forall t, fst result = Threw t -> snd result = carts).
Proof.
  cbv zeta. unfold UseCases.UpdateItemQuantity. split; [| split].
  - intros ->. reflexivity.
  - intros cart ->. split.
    + intros Hnone. rewrite (itemExists_false cart itemId Hnone). reflexivity.
    + intros Hex. rewrite (itemExists_true cart itemId Hex). simpl. split.
      * intros Hs. destruct (assertCartIsActive_inactive cart Hs) as (e & He & Hk).
        exists e. split; [| exact Hk].
        unfold Cart.updateItemQuantity. rewrite He. reflexivity.
      * intros Hs. apply Exists_exists in Hex as (x & Hx & Hid).
        destruct (list_find_elem_of (fun item => CartItem.itemId item = itemId)
                    (Cart.items cart) x Hx Hid) as [[i y] Hfind].
        unfold Cart.updateItemQuantity.
        rewrite (assertCartIsActive_active cart Hs). simpl. rewrite Hfind. split.
        -- intros e ->. reflexivity.
        -- intros q ->. simpl. eexists. split; [reflexivity |].
           split; [reflexivity |]. simpl. split; [exact Hs | apply length_insert].
  - intros t.
    destruct (InMemoryCartRepository.findBySessionId codec carts sessionId)
      as [[cart |] | e]; simpl; try (intros _; reflexivity).
    destruct (negb _); simpl; [intros _; reflexivity |].
    destruct (Cart.updateItemQuantity w cart itemId quantity); simpl;
      [discriminate | reflexivity].
Qed.

Lemma update_quantity_use_case_outcomes_witness :
  UseCases.UpdateItemQuantity tally_codec small_world
    (InMemoryCartRepository.save tally_codec ∅
       (small_cart "s1" [small_item "i1" "p1" 1000 2] active)) "s1" "i7" 0%Q
  = (Threw (Domain (ItemNotFoundError "i7")),
     InMemoryCartRepository.save tally_codec ∅
       (small_cart "s1" [small_item "i1" "p1" 1000 2] active))
  /\ UseCases.UpdateItemQuantity tally_codec small_world
       (InMemoryCartRepository.save tally_codec ∅
          (small_cart "s1" [small_item "i1" "p1" 1000 2] active)) "s1" "i1" 0%Q
     = (Threw (PlainError QuantityTooSmall),
        InMemoryCartRepository.save tally_codec ∅
          (small_cart "s1" [small_item "i1" "p1" 1000 2] active)).
Proof.
  split.
  - apply (update_quantity_use_case_outcomes tally_codec small_world
             (InMemoryCartRepository.save tally_codec ∅
                (small_cart "s1" [small_item "i1" "p1" 1000 2] active)) "s1" "i7" 0%Q)
      with (cart := small_cart "s1" [small_item "i1" "p1" 1000 2] active).
    + vm_compute. reflexivity.
    + repeat constructor. simpl. discriminate.
  - apply (update_quantity_use_case_outcomes tally_codec small_world
             (InMemoryCartRepository.save tally_codec ∅
                (small_cart "s1" [small_item "i1" "p1" 1000 2] active)) "s1" "i1" 0%Q)
      with (cart := small_cart "s1" [small_item "i1" "p1" 1000 2] active).
    + vm_compute. reflexivity.
    + apply Exists_cons_hd. reflexivity.
    + reflexivity.
    + reflexivity.
Defined.

(** X20.  The CheckoutCart use case rejects with CartNotFoundError when no
    cart is stored for the session id, with CartAlreadyCheckedOutError when
    the cart is checked out, and with EmptyCartError when a cart that is not
    checked out (active or abandoned) has no items; a non-empty abandoned
    cart is rejected with the plain Error of [checkout] ('Cart has already
    been checked out'), which is no DomainError, so that [getErrorCode]
    gives UNKNOWN_ERROR for it.  In all these cases the storage is as
    before.  For a non-empty active cart the checked-out cart is saved and
    the outcome is that of [createCheckoutResult] on it, with the tax rate
    defaulting to 0 and the orderId taken from the identifier generator. *)
Theorem checkout_use_case_outcomes (codec : DateCodec) (w : World)
    (carts : gmap string StoredCart) (sessionId : string) (taxRate : option number) :
  let result := UseCases.CheckoutCart codec w carts sessionId taxRate in
  (InMemoryCartRepository.findBySessionId codec carts sessionId = Ok None ->
   result = (Threw (Domain (CartNotFoundError sessionId)), carts))
  /\ (forall cart,
        InMemoryCartRepository.findBySessionId codec carts sessionId = Ok (Some cart) ->
        (Cart.status cart = checked_out ->
         result = (Threw (Domain (CartAlreadyCheckedOutError sessionId)), carts))
        /\ (Cart.status cart <> checked_out -> Cart.items cart = [] ->
            result = (Threw (Domain EmptyCartError), carts))
        /\ (Cart.status cart = abandoned -> Cart.items cart <> [] ->
            result = (Threw (PlainError AlreadyCheckedOut), carts)
            /\ getErrorCode (PlainError AlreadyCheckedOut) = "UNKNOWN_ERROR"%string)
        /\ (Cart.status cart = active -> Cart.items cart <> [] ->
            exists checkedOut,
              Cart.checkout w cart = Ok checkedOut
              /\ result
                 = (from_core
                      (CheckoutResult.createCheckoutResult (after_ticks 1 w)
                         (CreateCheckoutResultInput.mk (uuid w) checkedOut
                            (Some (default 0%Q taxRate)))),
                    InMemoryCartRepository.save codec carts checkedOut))).
Proof.
  cbv zeta. unfold UseCases.CheckoutCart. split.
  - intros ->. reflexivity.
  - intros cart ->. split; [| split; [| split]].
    + intros ->. reflexivity.
    + intros Hs Hnil. destruct (decide _); [contradiction |]. rewrite Hnil. reflexivity.
    + intros Hs Hne. rewrite Hs. simpl.
      destruct (Cart.items cart) as [| x l] eqn:Hitems; [contradiction |]. simpl.
      unfold Cart.checkout, Cart.canCheckout. rewrite Hs. simpl. split; reflexivity.
    + intros Hs Hne. rewrite Hs. simpl.
      destruct (Cart.items cart) as [| x l] eqn:Hitems; [contradiction |]. simpl.
      unfold Cart.checkout, Cart.canCheckout, Cart.isCartEmpty. rewrite Hs, Hitems. simpl.
      eexists. split; reflexivity.
Qed.

Lemma checkout_use_case_outcomes_witness :
  UseCases.CheckoutCart tally_codec small_world
    (InMemoryCartRepository.save tally_codec ∅
       (small_cart "s1" [small_item "i1" "p1" 1000 2] abandoned)) "s1" None
  = (Threw (PlainError AlreadyCheckedOut),
     InMemoryCartRepository.save tally_codec ∅
       (small_cart "s1" [small_item "i1" "p1" 1000 2] abandoned))
  /\ UseCases.CheckoutCart tally_codec small_world
       (InMemoryCartRepository.save tally_codec ∅ (small_cart "s1" [] abandoned)) "s1" None
     = (Threw (Domain EmptyCartError),
        InMemoryCartRepository.save tally_codec ∅ (small_cart "s1" [] abandoned)).
Proof.
  split.
  - apply (checkout_use_case_outcomes tally_codec small_world
             (InMemoryCartRepository.save tally_codec ∅
                (small_cart "s1" [small_item "i1" "p1" 1000 2] abandoned)) "s1" None)
      with (cart := small_cart "s1" [small_item "i1" "p1" 1000 2] abandoned).
    + vm_compute. reflexivity.
    + reflexivity.
    + simpl. discriminate.
  - apply (checkout_use_case_outcomes tally_codec small_world
             (InMemoryCartRepository.save tally_codec ∅ (small_cart "s1" [] abandoned))
             "s1" None)
      with (cart := small_cart "s1" [] abandoned).
    + vm_compute. reflexivity.
    + simpl. discriminate.
    + reflexivity.
Defined.

(** X21.  A checkout through the use case happens once.  For a stored,
    active, non-empty cart whose items are valid, the sum of the line
    totals and the sum of the quantities being safe integers, CheckoutCart
    resolves to a result whose orderId comes from the identifier generator,
    whose subtotal is the sum of the line totals, whose tax is [Math.round]
    of the product of subtotal and tax rate (0 when none is given), whose
    total is the sum of subtotal and tax and whose itemCount is the sum of
    the quantities; afterwards the cart read for the session is the same
    cart with status checked_out, any further CheckoutCart for the session
    rejects with CartAlreadyCheckedOutError, and AddItemToCart for the
    session with a product that is in stock rejects with CartNotActive. *)
Theorem checkout_use_case_happens_once (codec : DateCodec) (w : World)
    (carts : gmap string StoredCart) (sessionId : string) (taxRate : option number)
    (cart : Cart) :
  codec_round_trips codec ->
  stored_under_own_id carts ->
  InMemoryCartRepository.findBySessionId codec carts sessionId = Ok (Some cart) ->
  Cart.status cart = active ->
  Cart.items cart <> [] ->
  valid_items cart ->
  sum_line_totals (Cart.items cart) <= Binary64.MAX_SAFE_INTEGER ->
  sum_quantities (Cart.items cart) <= Binary64.MAX_SAFE_INTEGER ->
  exists r carts',
    UseCases.CheckoutCart codec w carts sessionId taxRate = (Returned r, carts')
    /\ CheckoutResult.orderId r = uuid w
    /\ CheckoutResult.sessionId r = sessionId
    /\ Money64.amount (CheckoutResult.subtotal r)
       = Binary64.of_Z (sum_line_totals (Cart.items cart))
    /\ Money64.amount (CheckoutResult.tax r)
       = Binary64.Math_round
           (Binary64.mul (Money64.amount (CheckoutResult.subtotal r))
              (Binary64.Finite (default 0%Q taxRate)))
    /\ Money64.amount (CheckoutResult.total r)
       = Binary64.add (Money64.amount (CheckoutResult.subtotal r))
                      (Money64.amount (CheckoutResult.tax r))
    /\ CheckoutResult.itemCount r = Binary64.of_Z (sum_quantities (Cart.items cart))
    /\ (exists stored,
          InMemoryCartRepository.findBySessionId codec carts' sessionId = Ok (Some stored)
          /\ Cart.status stored = checked_out
          /\ Cart.items stored = Cart.items cart)
    /\ (forall w' taxRate',
          UseCases.CheckoutCart codec w' carts' sessionId taxRate'
          = (Threw (Domain (CartAlreadyCheckedOutError sessionId)), carts'))
    /\ (forall w' products productId product quantity,
          products !! productId = Some product -> Product.inStock product = true ->
          UseCases.AddItemToCart codec w' products carts' sessionId productId quantity
          = (Threw (PlainError ModifyCheckedOut), carts')).
Proof.
  intros Hcodec Hwf Hfind Hs Hne Hvalid Hsum Hcount.
  destruct (find_under_own_id codec carts sessionId cart Hwf Hfind) as (Hsid & Hpat & _).
  unfold UseCases.CheckoutCart. rewrite Hfind, Hs. simpl.
  destruct (Cart.items cart) as [| x l] eqn:Hitems; [contradiction |]. simpl.
  unfold Cart.checkout, Cart.canCheckout, Cart.isCartEmpty. rewrite Hs, Hitems. simpl.
  set (checkedOut := Cart.mk (Cart.sessionId cart) (x :: l) checked_out
                       (Cart.createdAt cart) (time w 0) (Cart.currency cart)).
  assert (valid_items checkedOut) as Hvalid'.
  { unfold valid_items in *. rewrite Hitems in Hvalid. exact Hvalid. }
  rewrite (createCheckoutResult_valid (after_ticks 1 w)
             (CreateCheckoutResultInput.mk (uuid w) checkedOut (Some (default 0%Q taxRate)))
             eq_refl Hvalid' Hsum Hcount).
  cbn [from_core]. eexists. eexists. split; [reflexivity |].
  cbn [CheckoutResult.orderId CheckoutResult.sessionId CheckoutResult.subtotal
       CheckoutResult.tax CheckoutResult.total CheckoutResult.itemCount Money64.amount
       CreateCheckoutResultInput.orderId CreateCheckoutResultInput.cart
       CreateCheckoutResultInput.taxRate Cart.items Cart.sessionId checkedOut default].
  split; [reflexivity |]. split; [exact Hsid |]. split; [reflexivity |].
  split; [reflexivity |]. split; [reflexivity |]. split; [reflexivity |].
  assert (InMemoryCartRepository.findBySessionId codec
            (InMemoryCartRepository.save codec carts checkedOut) sessionId
          = Ok (Some checkedOut)) as Hread.
  { pose proof (find_after_save codec Hcodec carts checkedOut) as Hfs.
    change (SessionId.value (Cart.sessionId checkedOut))
      with (SessionId.value (Cart.sessionId cart)) in Hfs.
    rewrite Hsid in Hfs. exact (proj1 (Hfs Hpat)). }
  split; [exists checkedOut; split; [exact Hread | split; reflexivity] |].
  split.
  - intros w' taxRate'. rewrite Hread. reflexivity.
  - intros w' products productId product quantity Hp Hstock.
    unfold UseCases.AddItemToCart, InMemoryProductRepository.findById.
    rewrite Hp, Hstock, Hread. reflexivity.
Qed.

Lemma checkout_use_case_happens_once_witness :
  exists r carts',
    UseCases.CheckoutCart tally_codec small_world
      (InMemoryCartRepository.save tally_codec ∅
         (small_cart "s1" [small_item "i1" "p1" 1000 2] active)) "s1"
      (Some (Binary64.literal (1 # 10)))
    = (Returned r, carts')
    /\ Money64.amount (CheckoutResult.subtotal r) = Binary64.of_Z 2000
    /\ UseCases.CheckoutCart tally_codec small_world carts' "s1" None
       = (Threw (Domain (CartAlreadyCheckedOutError "s1")), carts').
Proof.
  destruct (checkout_use_case_happens_once tally_codec small_world
              (InMemoryCartRepository.save tally_codec ∅
                 (small_cart "s1" [small_item "i1" "p1" 1000 2] active)) "s1"
              (Some (Binary64.literal (1 # 10)))
              (small_cart "s1" [small_item "i1" "p1" 1000 2] active))
    as (r & carts' & Hrun & _ & _ & Hsub & _ & _ & _ & _ & Hagain & _).
  - exact tally_codec_round_trips.
  - apply save_keeps_own_id; [| reflexivity].
    intros k stored Hk. rewrite lookup_empty in Hk. discriminate.
  - vm_compute. reflexivity.
  - reflexivity.
  - simpl. discriminate.
  - repeat constructor; vm_compute; discriminate.
  - vm_compute. discriminate.
  - vm_compute. discriminate.
  - exists r, carts'. split; [exact Hrun |]. split; [exact Hsub | apply Hagain].
Defined.

(** * Presenting errors, creating products *)

(** X22.  How the error presenter reports the failures of the core.  A
    plain Error of the core is reported with status 400, code
    VALIDATION_ERROR and its own message exactly when it is one of: amount
    or quantity not an integer, quantity below 1 or above 99 (also
    combined), empty or malformed ProductId or SessionId, empty product
    name, more than 20 unique items.  Every other one (negative amount,
    currency mismatch, negative difference, negative multiplier, cart not
    active, cart already checked out, empty cart at checkout, result from a
    cart not checked out) is reported with status 500, code INTERNAL_ERROR
    and a generic message.  The DomainErrors of the use cases are reported
    with their own code: 404 for a missing cart, item or product, 422 for an
    out-of-stock product or an empty cart, 409 for a cart already checked
    out. *)
Theorem core_errors_presented :
  (forall e : Error,
     (forall itemId, e <> ItemIdNotFound itemId) ->
     ErrorPresenter.presentError (PlainError e)
     = if worded_as_validation e
       then ErrorPresenter.mk 400 "VALIDATION_ERROR" (message e) None
       else ErrorPresenter.internal_error)
  /\ (forall id : string,
        ErrorPresenter.status (ErrorPresenter.presentError (Domain (CartNotFoundError id)))
        = 404%nat
        /\ ErrorPresenter.status
             (ErrorPresenter.presentError (Domain (ItemNotFoundError id))) = 404%nat
        /\ ErrorPresenter.status
             (ErrorPresenter.presentError (Domain (ProductNotFoundError id))) = 404%nat
        /\ ErrorPresenter.status
             (ErrorPresenter.presentError (Domain (ProductOutOfStockError id))) = 422%nat
        /\ ErrorPresenter.status
             (ErrorPresenter.presentError (Domain (CartAlreadyCheckedOutError id)))
           = 409%nat
        /\ ErrorPresenter.status (ErrorPresenter.presentError (Domain EmptyCartError))
           = 422%nat)
  /\ (forall d : DomainError,
        ErrorPresenter.code (ErrorPresenter.presentError (Domain d)) = getErrorCode (Domain d)
        /\ ErrorPresenter.message (ErrorPresenter.presentError (Domain d))
           = domain_message d).
Proof.
  split; [| split].
  - intros e Hnot.
    destruct e as [| | a b | a b | | | | | | | | | | | | | | | | itemId | | | |];
      try (vm_compute; reflexivity);
      try (destruct a, b; vm_compute; reflexivity).
    exfalso. exact (Hnot itemId eq_refl).
  - intros id. repeat split.
  - intros d. destruct d; split; reflexivity.
Qed.

Lemma core_errors_presented_witness :
  ErrorPresenter.presentError (PlainError ModifyCheckedOut) = ErrorPresenter.internal_error
  /\ ErrorPresenter.presentError (PlainError QuantityTooLarge)
     = ErrorPresenter.mk 400 "VALIDATION_ERROR" "Quantity cannot exceed 99" None.
Proof.
  destruct core_errors_presented as [Hplain _]. split.
  - apply (Hplain ModifyCheckedOut). intros itemId. discriminate.
  - apply (Hplain QuantityTooLarge). intros itemId. discriminate.
Defined.

Lemma length_trimStart (s : string) : (String.length (trimStart s) <= String.length s)%nat.
Proof.
  induction s as [| c r IH]; simpl; [lia |].
  destruct (is_whitespace c); simpl; lia.
Qed.

Lemma length_trimEnd (s : string) : (String.length (trimEnd s) <= String.length s)%nat.
Proof.
  induction s as [| c r IH]; [simpl; lia |].
  rewrite trimEnd_cons. destruct (trimEnd r) as [| d r'].
  - destruct (is_whitespace c); simpl; lia.
  - simpl in *. lia.
Qed.

Lemma length_trim (s : string) : (String.length (trim s) <= String.length s)%nat.
Proof.
  unfold trim. etransitivity; [apply length_trimEnd | apply length_trimStart].
Qed.

Lemma not_empty_string (s : string) : is_empty_string s = false -> s <> EmptyString.
Proof. destruct s; [discriminate | intros _; discriminate]. Qed.

(** X23.  A product returned by [createProduct] is well formed: its id has
    the shape of a ProductId (so [trim] leaves it unchanged), its price is
    not negative, its name and its sku are the trimmed inputs and are not
    empty, its name has at most 200 characters, and it is in stock unless
    the input says otherwise.  The limit of 200 is checked on the name as
    given: a name of more than 200 characters is rejected even when
    trimming would bring it under the limit. *)
Theorem created_product_is_well_formed (input : CreateProductInput) :
  (forall product, Product.createProduct input = Returned product ->
     ProductId.PRODUCT_ID_PATTERN (ProductId.value (Product.id product)) = true
     /\ trim (ProductId.value (Product.id product)) = ProductId.value (Product.id product)
     /\ valid_money (Product.price product)
     /\ Product.name product = trim (CreateProductInput.name input)
     /\ Product.name product <> EmptyString
     /\ (String.length (Product.name product) <= 200)%nat
     /\ Product.sku product = trim (CreateProductInput.sku input)
     /\ Product.sku product <> EmptyString
     /\ Product.canAddToCart product = default true (CreateProductInput.inStock input))
  /\ ((200 < String.length (CreateProductInput.name input))%nat ->
      trim (CreateProductInput.name input) <> EmptyString ->
      Product.createProduct input = Threw (ProductError ProductNameTooLong)).
Proof.
  unfold Product.createProduct. cbv zeta. split.
  - intros product.
    destruct (falsy (CreateProductInput.name input)
              || is_empty_string (trim (CreateProductInput.name input))) eqn:Hname;
      [discriminate |].
    destruct (Nat.ltb_spec 200 (String.length (CreateProductInput.name input)));
      [discriminate |].
    destruct (falsy (CreateProductInput.sku input)
              || is_empty_string (trim (CreateProductInput.sku input))) eqn:Hsku;
      [discriminate |].
    destruct (ProductId.createProductId (CreateProductInput.id input)) as [id | e] eqn:Hid;
      [| discriminate].
    destruct (Money.createMoney _ _) as [price | e] eqn:Hprice; [| discriminate].
    intros [= <-]. simpl.
    apply orb_false_iff in Hname as [_ Hname]. apply orb_false_iff in Hsku as [_ Hsku].
    apply createProductId_Ok in Hid as [_ Hpat].
    apply createMoney_Ok in Hprice as [Hnn _].
    split; [exact Hpat |].
    split.
    { exact (proj1 (accepted_is_trimmed _ 1 50 product_class_not_whitespace (le_n 1) _ Hpat)). }
    split; [exact Hnn |]. split; [reflexivity |].
    split; [exact (not_empty_string _ Hname) |].
    split.
    { pose proof (length_trim (CreateProductInput.name input)). lia. }
    split; [reflexivity |]. split; [exact (not_empty_string _ Hsku) | reflexivity].
  - intros Hlong Hname.
    assert (falsy (CreateProductInput.name input)
            || is_empty_string (trim (CreateProductInput.name input)) = false) as ->.
    { apply orb_false_iff. split.
      - destruct (CreateProductInput.name input); [simpl in Hlong; lia | reflexivity].
      - unfold is_empty_string.
        destruct (trim (CreateProductInput.name input)); [contradiction | reflexivity]. }
    destruct (Nat.ltb_spec 200 (String.length (CreateProductInput.name input)));
      [reflexivity | lia].
Qed.

Lemma created_product_is_well_formed_witness :
  Product.canAddToCart
    (Product.mk (ProductId.mk "prod-006") "Monitor Light Bar" "" (Money.mk 5999 USD)
       "MLB-006" false) = false.
Proof.
  destruct (created_product_is_well_formed
              (CreateProductInput.mk " prod-006" "Monitor Light Bar " None
                 (inject_Z 5999) None " MLB-006" (Some false))) as [Hok _].
  destruct (Hok (Product.mk (ProductId.mk "prod-006") "Monitor Light Bar" ""
                   (Money.mk 5999 USD) "MLB-006" false))
    as (_ & _ & _ & _ & _ & _ & _ & _ & Hstock).
  - vm_compute. reflexivity.
  - exact Hstock.
Defined.

(** X24.  [multiplyMoney] distributes over the sum of two multipliers as
    long as the product is a safe integer: for a valid Money and integers
    a, b that are not negative, the amount times a + b being at most
    [Number.MAX_SAFE_INTEGER], multiplying by a and by b succeeds, and
    [addMoney] of the two products is what multiplying by a + b returns (the
    line total of a merged item is the sum of the line totals of its
    parts). *)
Theorem multiply_money_distributes (m : Money) (a b : Z) :
  valid_money m -> 0 <= a -> 0 <= b ->
  Money.amount m * (a + b) <= Binary64.MAX_SAFE_INTEGER ->
  exists ma mb,
    Money64.multiplyMoney (Money64.of_Money m) (Binary64.of_Z a) = Ok ma
    /\ Money64.multiplyMoney (Money64.of_Money m) (Binary64.of_Z b) = Ok mb
    /\ Money64.addMoney ma mb
       = Money64.multiplyMoney (Money64.of_Money m) (Binary64.of_Z (a + b)).
Proof.
  intros Hm Ha Hb Hsafe. pose proof Hm as Hm0. unfold valid_money in Hm0.
  rewrite !multiplyMoney_exact by (try exact Hm; nia).
  rewrite !multiplyMoney_inject_Z.
  destruct (Z.ltb_spec a 0); [lia |]. destruct (Z.ltb_spec b 0); [lia |].
  destruct (Z.ltb_spec (a + b) 0); [lia |].
  destruct (Z.ltb_spec (Money.amount m * a) 0); [nia |].
  destruct (Z.ltb_spec (Money.amount m * b) 0); [nia |].
  destruct (Z.ltb_spec (Money.amount m * (a + b)) 0); [nia |].
  eexists. eexists. split; [reflexivity |]. split; [reflexivity |].
  rewrite addMoney_exact; [| unfold valid_money; simpl; lia .. | simpl; nia].
  rewrite addMoney_same; simpl; [| reflexivity | lia | lia].
  unfold Money64.of_Money. simpl. f_equal. f_equal. f_equal. lia.
Qed.

Lemma multiply_money_distributes_witness :
  exists ma mb,
    Money64.multiplyMoney (Money64.of_Money (Money.mk 1000 USD)) (Binary64.of_Z 2) = Ok ma
    /\ Money64.multiplyMoney (Money64.of_Money (Money.mk 1000 USD)) (Binary64.of_Z 3) = Ok mb
    /\ Money64.addMoney ma mb
       = Money64.multiplyMoney (Money64.of_Money (Money.mk 1000 USD)) (Binary64.of_Z (2 + 3)).
Proof.
  apply (multiply_money_distributes (Money.mk 1000 USD) 2 3).
  - unfold valid_money. simpl. lia.
  - lia.
  - lia.
  - vm_compute. discriminate.
Defined.

(** Beyond the safe integers the products are rounded one by one. *)
Example multiply_beyond_the_safe_integers :
  (ma ← Money64.multiplyMoney (Money64.of_Money (Money.mk (2 ^ 53 - 1) USD)) (Binary64.of_Z 3);
   mb ← Money64.multiplyMoney (Money64.of_Money (Money.mk (2 ^ 53 - 1) USD)) (Binary64.of_Z 5);
   s ← Money64.addMoney ma mb;
   m ← Money64.multiplyMoney (Money64.of_Money (Money.mk (2 ^ 53 - 1) USD)) (Binary64.of_Z 8);
   Ok (Money64.amount s, Money64.amount m))
  = Ok (Binary64.of_Z (8 * 2 ^ 53 - 16), Binary64.of_Z (8 * 2 ^ 53 - 8)).
Proof. vm_compute. reflexivity. Qed.
